(** * AITradingSimulator: ledger, risk manager, trading cycle and market-data cache

    A shallow embedding of the accounting core of the simulator:

    - [Database]       (src/database.py)      positions, trades, snapshots, [get_portfolio];
    - [RiskManager]    (src/services/risk_manager.py)  drawdown and pause rules;
    - [TradingEngine]  (src/trading_engine.py)  one trading cycle, with an event trace;
    - [MarketData]     (src/market_data.py)   the two-tier price cache and the indicators.

    Numbers.  Python [float] and SQLite [REAL] values are modelled by the
    exact rationals [Qc]; SQLite [INTEGER] and Python [int] by [Z].  All
    arithmetic statements below are therefore statements of exact
    arithmetic: binary64 rounding, infinities and NaN are outside the model.

    Exceptions.  A Python call that may raise returns a [result]; code that
    mutates state before raising keeps the mutated state. *)

From Stdlib Require Import ZArith QArith Qcanon String Ascii List Lia DecimalString.
From stdpp Require Import base numbers option list gmap strings.

Local Open Scope Qc_scope.

(* ===================================================================== *)
(** * Python runtime: exceptions, results, sums and slices *)
(* ===================================================================== *)

Inductive exn : Type :=
| KeyError (key : string)
| TypeError
| ValueError
| ZeroDivisionError
| AttributeError.

Inductive result (A : Type) : Type :=
| Ok (a : A)
| Raise (e : exn).
Arguments Ok {A} a.
Arguments Raise {A} e.

#[global] Instance result_ret : MRet result := fun A a => Ok a.
#[global] Instance result_bind : MBind result := fun A B f m =>
  match m with
  | Ok a => f a
  | Raise e => Raise e
  end.

(** [[f(x) for x in xs]] where [f] may raise: the first exception wins. *)
Fixpoint result_map {A B : Type} (f : A -> result B) (xs : list A) : result (list B) :=
  match xs with
  | [] => Ok []
  | x :: xs' => y ← f x; ys ← result_map f xs'; Ok (y :: ys)
  end.

(** The builtin [sum]: a left fold starting from [0]. *)
Definition py_sum (xs : list Qc) : Qc := fold_left Qcplus xs 0.

(** [xs[-n:]] for a non-negative [n]; [xs[:n]] and [xs[n:]] are [take] and [drop]. *)
Definition last_n {A : Type} (n : nat) (xs : list A) : list A :=
  skipn (length xs - n) xs.

(** Comparisons of the code, as booleans. *)
Definition Qc_ltb (x y : Qc) : bool := bool_decide (x < y).
Definition Qc_leb (x y : Qc) : bool := bool_decide (x <= y).
Definition Qc_eqb (x y : Qc) : bool := bool_decide (x = y).

(** Truthiness of an optional number: [None] and [0] are falsy. *)
Definition truthy (o : option Qc) : bool :=
  match o with
  | Some x => negb (Qc_eqb x 0)
  | None => false
  end.

(** [a or b] on optional numbers. *)
Definition py_or (a b : option Qc) : option Qc :=
  if truthy a then a else b.

(* ===================================================================== *)
(** * src/database.py *)
(* ===================================================================== *)

Module Database.

(** The [side] column; the engine only ever writes ['long'] and ['short']. *)
Inductive side : Type := long | short.

#[global] Instance side_eq_dec : EqDecision side.
Proof. solve_decision. Defined.

(** Rows.  The [id] and timestamp columns are left out: each table is a
    list in insertion order, which is the order of the row ids, and the
    time stamps are taken to increase with it (ORDER BY timestamp DESC reads
    a table from its last row backwards). *)
Record model_row : Type := {
  m_id : Z;
  m_initial_capital : Qc
}.

Record position : Type := {
  p_model_id : Z;
  p_coin : string;
  p_quantity : Qc;
  p_avg_price : Qc;
  p_leverage : Z;
  p_side : side;
  p_stop_loss : option Qc;
  p_take_profit : option Qc
}.

Record trade : Type := {
  t_model_id : Z;
  t_coin : string;
  t_signal : string;
  t_quantity : Qc;
  t_price : Qc;
  t_leverage : Z;
  t_side : side;
  t_pnl : Qc
}.

Record conversation : Type := {
  c_model_id : Z;
  c_user_prompt : string;
  c_ai_response : string;
  c_cot_trace : string
}.

Record account_value : Type := {
  a_model_id : Z;
  a_total_value : Qc;
  a_cash : Qc;
  a_positions_value : Qc
}.

Record Db : Type := {
  models : list model_row;
  portfolios : list position;
  trades : list trade;
  conversations : list conversation;
  account_values : list account_value
}.

(** The UNIQUE(model_id, coin, side) key of [portfolios]. *)
Definition same_key (model_id : Z) (coin : string) (s : side) (p : position) : bool :=
  bool_decide (p_model_id p = model_id) && bool_decide (p_coin p = coin)
  && bool_decide (p_side p = s).

(** INSERT ... ON CONFLICT(model_id, coin, side) DO UPDATE SET ...: the row
    with the key is overwritten where it stands, otherwise a row is added. *)
Fixpoint upsert (new : position) (rows : list position) : list position :=
  match rows with
  | [] => [new]
  | r :: rows' =>
      if same_key (p_model_id new) (p_coin new) (p_side new) r
      then new :: rows'
      else r :: upsert new rows'
  end.

Definition update_position (db : Db) (model_id : Z) (coin : string) (quantity avg_price : Qc)
    (leverage : Z) (s : side) (stop_loss take_profit : option Qc) : Db :=
  let new := {| p_model_id := model_id; p_coin := coin; p_quantity := quantity;
                p_avg_price := avg_price; p_leverage := leverage; p_side := s;
                p_stop_loss := stop_loss; p_take_profit := take_profit |} in
  {| models := models db; portfolios := upsert new (portfolios db); trades := trades db;
     conversations := conversations db; account_values := account_values db |}.

(** DELETE FROM portfolios WHERE model_id = ? AND coin = ? AND side = ? *)
Definition close_position (db : Db) (model_id : Z) (coin : string) (s : side) : Db :=
  {| models := models db;
     portfolios := filter (fun p => same_key model_id coin s p = false) (portfolios db);
     trades := trades db;
     conversations := conversations db; account_values := account_values db |}.

Definition add_trade (db : Db) (model_id : Z) (coin signal : string) (quantity price : Qc)
    (leverage : Z) (s : side) (pnl : Qc) : Db :=
  let t := {| t_model_id := model_id; t_coin := coin; t_signal := signal;
              t_quantity := quantity; t_price := price; t_leverage := leverage;
              t_side := s; t_pnl := pnl |} in
  {| models := models db; portfolios := portfolios db; trades := trades db ++ [t];
     conversations := conversations db; account_values := account_values db |}.

Definition add_conversation (db : Db) (model_id : Z) (user_prompt ai_response cot_trace : string)
    : Db :=
  let c := {| c_model_id := model_id; c_user_prompt := user_prompt;
              c_ai_response := ai_response; c_cot_trace := cot_trace |} in
  {| models := models db; portfolios := portfolios db; trades := trades db;
     conversations := conversations db ++ [c]; account_values := account_values db |}.

Definition record_account_value (db : Db) (model_id : Z) (total_value cash positions_value : Qc)
    : Db :=
  let a := {| a_model_id := model_id; a_total_value := total_value; a_cash := cash;
              a_positions_value := positions_value |} in
  {| models := models db; portfolios := portfolios db; trades := trades db;
     conversations := conversations db; account_values := account_values db ++ [a] |}.

(** SELECT * FROM models WHERE id = ?, then [fetchone()]. *)
Definition get_model (db : Db) (model_id : Z) : option model_row :=
  head (filter (fun m => m_id m = model_id) (models db)).

(** SELECT ... ORDER BY timestamp DESC LIMIT ?: newest row first. *)
Definition get_trades (db : Db) (model_id : Z) (limit : nat) : list trade :=
  take limit (rev (filter (fun t => t_model_id t = model_id) (trades db))).

Definition get_account_value_history (db : Db) (model_id : Z) (limit : nat) : list account_value :=
  take limit (rev (filter (fun a => a_model_id a = model_id) (account_values db))).

(** A row of the portfolio view: [dict(row)] with the keys ['current_price']
    and ['pnl'] that [get_portfolio] adds. *)
Record pos_view : Type := {
  pos : position;
  current_price : option Qc;
  pnl : Qc
}.

Record portfolio : Type := {
  pf_model_id : Z;
  cash : Qc;
  positions : list pos_view;
  positions_value : Qc;
  margin_used : Qc;
  total_value : Qc;
  realized_pnl : Qc;
  unrealized_pnl : Qc
}.

(** SELECT * FROM portfolios WHERE model_id = ? AND quantity > 0 *)
Definition open_positions (db : Db) (model_id : Z) : list position :=
  filter (fun p => p_model_id p = model_id ∧ 0 < p_quantity p) (portfolios db).

(** SELECT COALESCE(SUM(pnl), 0) FROM trades WHERE model_id = ? *)
Definition sum_pnl (db : Db) (model_id : Z) : Qc :=
  py_sum (map t_pnl (filter (fun t => t_model_id t = model_id) (trades db))).

(** [p['quantity'] * p['avg_price'] / p['leverage']] *)
Definition position_margin (p : position) : result Qc :=
  if bool_decide (p_leverage p = 0%Z) then Raise ZeroDivisionError
  else Ok (p_quantity p * p_avg_price p / Qc_of_Z (p_leverage p)).

Definition position_pnl (s : side) (current_price entry_price quantity : Qc) : Qc :=
  match s with
  | long => (current_price - entry_price) * quantity
  | short => (entry_price - current_price) * quantity
  end.

(** The loop that annotates the positions and accumulates [unrealized_pnl];
    [prices = None] is the [else] branch of [if current_prices:]. *)
Fixpoint annotate (prices : option (gmap string Qc)) (ps : list position) (unrealized : Qc)
    : list pos_view * Qc :=
  match ps with
  | [] => ([], unrealized)
  | p :: ps' =>
      match prices with
      | Some current_prices =>
          match current_prices !! p_coin p with
          | Some cp =>
              let pos_pnl := position_pnl (p_side p) cp (p_avg_price p) (p_quantity p) in
              let '(vs, u) := annotate prices ps' (unrealized + pos_pnl) in
              ({| pos := p; current_price := Some cp; pnl := pos_pnl |} :: vs, u)
          | None =>
              let '(vs, u) := annotate prices ps' unrealized in
              ({| pos := p; current_price := None; pnl := 0 |} :: vs, u)
          end
      | None =>
          let '(vs, u) := annotate prices ps' unrealized in
          ({| pos := p; current_price := None; pnl := 0 |} :: vs, u)
      end
  end.

(** Truthiness of the [current_prices] argument: [None] and [{}] are falsy. *)
Definition prices_if_truthy (current_prices : option (gmap string Qc))
    : option (gmap string Qc) :=
  match current_prices with
  | Some m => if bool_decide (m = ∅) then None else Some m
  | None => None
  end.

Definition get_portfolio (db : Db) (model_id : Z) (current_prices : option (gmap string Qc))
    : result portfolio :=
  let ps := open_positions db model_id in
  (* cursor.fetchone()['initial_capital'] *)
  initial_capital ← match get_model db model_id with
                    | Some m => Ok (m_initial_capital m)
                    | None => Raise TypeError
                    end;
  let realized := sum_pnl db model_id in
  margins ← result_map position_margin ps;
  let margin := py_sum margins in
  let '(views, unrealized) := annotate (prices_if_truthy current_prices) ps 0 in
  let cash_ := initial_capital + realized - margin in
  let pv := py_sum (map (fun p => p_quantity p * p_avg_price p) ps) in
  let total := initial_capital + realized + unrealized in
  Ok {| pf_model_id := model_id; cash := cash_; positions := views; positions_value := pv;
        margin_used := margin; total_value := total; realized_pnl := realized;
        unrealized_pnl := unrealized |}.




(** [delete_model]: the model row and every row that refers to the model. *)
Definition delete_model (db : Db) (model_id : Z) : Db :=
  {| models := filter (fun m => m_id m <> model_id) (models db);
     portfolios := filter (fun p => p_model_id p <> model_id) (portfolios db);
     trades := filter (fun t => t_model_id t <> model_id) (trades db);
     conversations := filter (fun c => c_model_id c <> model_id) (conversations db);
     account_values := filter (fun a => a_model_id a <> model_id) (account_values db) |}.

End Database.

(* ===================================================================== *)
(** * src/config.py *)
(* ===================================================================== *)

Module config.

Definition SUPPORTED_COINS : list string :=
  ["BTC"; "ETH"; "SOL"; "BNB"; "XRP"; "DOGE"]%string.
Definition MARKET_API_CACHE_DURATION : Qc := Qc_of_Z 5.
Definition MIN_LEVERAGE : Z := 1.
Definition MAX_LEVERAGE : Z := 20.
Definition MAX_DRAWDOWN_WARNING : Qc := Q2Qc (15 # 100).
Definition MAX_DRAWDOWN_CRITICAL : Qc := Q2Qc (25 # 100).

Definition MAX_RISK_PER_TRADE : Qc := Q2Qc (5 # 100).
Definition MAX_POSITION_RATIO : Qc := Q2Qc (30 # 100).

End config.

(* ===================================================================== *)
(** * src/market_data.py *)
(* ===================================================================== *)

Module MarketData.

Record quote : Type := {
  price : Qc;
  change_24h : Qc
}.

Record price_point : Type := {
  hp_timestamp : Z;
  hp_price : Qc
}.

(** One dictionary [_cache] holds both kinds of entries: the quotes stored
    under ['prices_...'] keys and the series under ['historical_...'] keys. *)
Inductive cache_val : Type :=
| CPrices (m : gmap string quote)
| CHistory (h : list price_point).

(** The content of market_data_cache.json: [{'cache': ..., 'cache_time': ...}]. *)
Record cache_file : Type := {
  file_cache : gmap string cache_val;
  file_cache_time : gmap string Qc
}.

(** The fetcher object with the file it persists to; [disk = None] is an
    absent (or unreadable) cache file. *)
Record MarketDataFetcher : Type := {
  _cache : gmap string cache_val;
  _cache_time : gmap string Qc;
  disk : option cache_file
}.

(** What one call observes of the outside world: the answers of the price
    sources, the readings of [time.time()] in the order the code takes them,
    and whether writing the cache file succeeds. *)
Record env : Type := {
  _get_prices_from_binance : list string -> option (gmap string quote);
  _get_prices_from_coingecko : list string -> option (gmap string quote);
  _get_prices_from_coincap : list string -> option (gmap string quote);
  _get_prices_from_cryptocompare : list string -> option (gmap string quote);
  _get_historical_from_binance : string -> Z -> option (list price_point);
  _get_historical_from_coingecko : string -> Z -> option (list price_point);
  _get_historical_from_coincap : string -> Z -> option (list price_point);
  time_at_check : Qc;
  time_at_store : Qc;
  time_at_fallback : Qc;
  disk_writable : bool
}.

(** [_load_persistent_cache], as run by [__init__] on a new process. *)
Definition _load_persistent_cache (file : option cache_file) : MarketDataFetcher :=
  match file with
  | Some f => {| _cache := file_cache f; _cache_time := file_cache_time f; disk := file |}
  | None => {| _cache := ∅; _cache_time := ∅; disk := file |}
  end.

(** [_save_persistent_cache]: a failed write is logged and swallowed. *)
Definition _save_persistent_cache (e : env) (self : MarketDataFetcher) : MarketDataFetcher :=
  if disk_writable e
  then {| _cache := _cache self; _cache_time := _cache_time self;
          disk := Some {| file_cache := _cache self; file_cache_time := _cache_time self |} |}
  else self.

(** [sorted(coins)]: insertion sort by the order of [str]. *)
Fixpoint insert_sorted (s : string) (l : list string) : list string :=
  match l with
  | [] => [s]
  | x :: l' => if String.leb s x then s :: l else x :: insert_sorted s l'
  end.

Definition sorted (l : list string) : list string := foldr insert_sorted [] l.

Definition prices_key (coins : list string) : string :=
  ("prices_" ++ String.concat "_" (sorted coins))%string.

Definition historical_key (coin : string) (days : Z) : string :=
  ("historical_" ++ coin ++ "_" ++ NilZero.string_of_int (Z.to_int days))%string.

(** [prices and len(prices) == len(coins)] *)
Definition complete (coins : list string) (prices : option (gmap string quote)) : bool :=
  match prices with
  | Some m => negb (bool_decide (m = ∅)) && bool_decide (size m = length coins)
  | None => false
  end.

Definition store (self : MarketDataFetcher) (key : string) (v : cache_val) (now : Qc)
    : MarketDataFetcher :=
  {| _cache := <[key := v]> (_cache self);
     _cache_time := <[key := now]> (_cache_time self);
     disk := disk self |}.

(** The last resort of both getters: a cached entry younger than 30 days,
    else [empty]. *)
Definition stale_or_empty (e : env) (self : MarketDataFetcher) (key : string)
    (empty : cache_val) : result cache_val :=
  match _cache self !! key with
  | Some v =>
      match _cache_time self !! key with
      | Some t => if Qc_ltb (time_at_fallback e - t) (Qc_of_Z 2592000) then Ok v else Ok empty
      | None => Raise (KeyError key)
      end
  | None => Ok empty
  end.

Definition try_price_sources (e : env) (self : MarketDataFetcher) (coins : list string)
    (cache_key : string) : result cache_val * MarketDataFetcher :=
  let prices := _get_prices_from_binance e coins in
  if complete coins prices
  then (Ok (CPrices (default ∅ prices)),
        store self cache_key (CPrices (default ∅ prices)) (time_at_store e))
  else
  let prices := _get_prices_from_coingecko e coins in
  if complete coins prices
  then (Ok (CPrices (default ∅ prices)),
        store self cache_key (CPrices (default ∅ prices)) (time_at_store e))
  else
  let prices := _get_prices_from_coincap e coins in
  if complete coins prices
  then (Ok (CPrices (default ∅ prices)),
        store self cache_key (CPrices (default ∅ prices)) (time_at_store e))
  else
  let prices := _get_prices_from_cryptocompare e coins in
  if complete coins prices
  then (Ok (CPrices (default ∅ prices)),
        store self cache_key (CPrices (default ∅ prices)) (time_at_store e))
  else (stale_or_empty e self cache_key (CPrices ∅), self).

Definition get_current_prices (e : env) (self : MarketDataFetcher) (coins : list string)
    : result cache_val * MarketDataFetcher :=
  let cache_key := prices_key coins in
  match _cache self !! cache_key with
  | Some v =>
      match _cache_time self !! cache_key with
      | Some t =>
          if Qc_ltb (time_at_check e - t) config.MARKET_API_CACHE_DURATION
          then (Ok v, self)
          else try_price_sources e self coins cache_key
      | None => (Raise (KeyError cache_key), self)
      end
  | None => try_price_sources e self coins cache_key
  end.

(** [if prices:] for an optional list. *)
Definition nonempty (prices : option (list price_point)) : bool :=
  match prices with
  | Some (_ :: _) => true
  | _ => false
  end.

Definition try_historical_sources (e : env) (self : MarketDataFetcher) (coin : string)
    (days : Z) (cache_key : string) : result cache_val * MarketDataFetcher :=
  let prices := _get_historical_from_binance e coin days in
  if nonempty prices
  then (Ok (CHistory (default [] prices)),
        _save_persistent_cache e
          (store self cache_key (CHistory (default [] prices)) (time_at_store e)))
  else
  let prices := _get_historical_from_coingecko e coin days in
  if nonempty prices
  then (Ok (CHistory (default [] prices)),
        _save_persistent_cache e
          (store self cache_key (CHistory (default [] prices)) (time_at_store e)))
  else
  let prices := _get_historical_from_coincap e coin days in
  if nonempty prices
  then (Ok (CHistory (default [] prices)),
        _save_persistent_cache e
          (store self cache_key (CHistory (default [] prices)) (time_at_store e)))
  else (stale_or_empty e self cache_key (CHistory []), self).

Definition get_historical_prices (e : env) (self : MarketDataFetcher) (coin : string) (days : Z)
    : result cache_val * MarketDataFetcher :=
  let cache_key := historical_key coin days in
  match _cache self !! cache_key with
  | Some v =>
      match _cache_time self !! cache_key with
      | Some t =>
          if Qc_ltb (time_at_check e - t) (Qc_of_Z 21600)
          then (Ok v, self)
          else try_historical_sources e self coin days cache_key
      | None => (Raise (KeyError cache_key), self)
      end
  | None => try_historical_sources e self coin days cache_key
  end.

(** ** Technical indicators *)

Record indicator_set : Type := {
  sma_7 : Qc; sma_14 : Qc; sma_30 : Qc;
  ema_12 : Qc; ema_26 : Qc;
  macd : Qc; macd_signal : Qc; macd_histogram : Qc;
  rsi_14 : Qc;
  bb_upper : Qc; bb_middle : Qc; bb_lower : Qc; bb_position : Qc;
  ind_current_price : Qc;
  price_change_7d : Qc;
  volatility : Qc
}.

(** [prices[-1]] of a list the caller knows to be non-empty. *)
Definition last_price (prices : list Qc) : Qc := List.last prices 0.

(** [sum(prices[-n:]) / n if len(prices) >= n else prices[-1]] *)
Definition sma (n : nat) (prices : list Qc) : Qc :=
  if bool_decide (n <= length prices)%nat
  then py_sum (last_n n prices) / Qc_of_Z (Z.of_nat n)
  else last_price prices.

Definition _calculate_ema (prices : list Qc) (period : nat) : Qc :=
  if bool_decide (length prices < period)%nat
  then match prices with [] => 0 | _ => last_price prices end
  else
    let multiplier := Qc_of_Z 2 / Qc_of_Z (Z.of_nat period + 1) in
    let ema := py_sum (take period prices) / Qc_of_Z (Z.of_nat period) in
    fold_left (fun ema price => (price - ema) * multiplier + ema) (drop period prices) ema.

(** [[prices[i] - prices[i-1] for i in range(1, len(prices))]] *)
Fixpoint changes_of (prices : list Qc) : list Qc :=
  match prices with
  | p0 :: ((p1 :: _) as rest) => (p1 - p0) :: changes_of rest
  | _ => []
  end.

Section Indicators.

(** [x ** 0.5]: the square root is not a rational function, so the model
    takes it as given. *)
Variable sqrt : Qc -> Qc.

Definition _calculate_std (prices : list Qc) : Qc :=
  match prices with
  | [] => 0
  | _ =>
      let n := Qc_of_Z (Z.of_nat (length prices)) in
      let mean := py_sum prices / n in
      let variance := py_sum (map (fun p => (p - mean) * (p - mean)) prices) / n in
      sqrt variance
  end.

(** The body of [calculate_technical_indicators] after the history has been
    fetched; [None] is the empty dictionary. *)
Definition indicators_of (historical : list price_point) : option indicator_set :=
  if bool_decide (length historical < 14)%nat then None
  else
    let prices := map hp_price historical in
    let ema_12_ := _calculate_ema prices 12 in
    let ema_26_ := _calculate_ema prices 26 in
    let macd_line := ema_12_ - ema_26_ in
    let signal_line := _calculate_ema (replicate 9 macd_line) 9 in
    let macd_histogram_ := macd_line - signal_line in
    let changes := changes_of prices in
    let gains := map (fun c => if Qc_ltb 0 c then c else 0) changes in
    let losses := map (fun c => if Qc_ltb c 0 then - c else 0) changes in
    let avg_gain := match gains with [] => 0 | _ => py_sum (last_n 14 gains) / Qc_of_Z 14 end in
    let avg_loss := match losses with [] => 0 | _ => py_sum (last_n 14 losses) / Qc_of_Z 14 end in
    let rsi := if Qc_eqb avg_loss 0 then Qc_of_Z 100
               else Qc_of_Z 100 - Qc_of_Z 100 / (1 + avg_gain / avg_loss) in
    let sma_20 := sma 20 prices in
    let std_20 := if bool_decide (20 <= length prices)%nat
                  then _calculate_std (last_n 20 prices) else 0 in
    let bb_upper_ := sma_20 + Qc_of_Z 2 * std_20 in
    let bb_lower_ := sma_20 - Qc_of_Z 2 * std_20 in
    let bb_position_ := if Qc_ltb 0 (bb_upper_ - bb_lower_)
                        then (last_price prices - bb_lower_) / (bb_upper_ - bb_lower_)
                        else Q2Qc (1 # 2) in
    let first := List.hd 0 prices in
    Some {| sma_7 := sma 7 prices; sma_14 := sma 14 prices; sma_30 := sma 30 prices;
            ema_12 := ema_12_; ema_26 := ema_26_;
            macd := macd_line; macd_signal := signal_line; macd_histogram := macd_histogram_;
            rsi_14 := rsi;
            bb_upper := bb_upper_; bb_middle := sma_20; bb_lower := bb_lower_;
            bb_position := bb_position_;
            ind_current_price := last_price prices;
            price_change_7d := if Qc_ltb 0 first
                               then (last_price prices - first) / first * Qc_of_Z 100 else 0;
            volatility := if Qc_ltb 0 sma_20 then std_20 / sma_20 else 0 |}.


End Indicators.

(** ** Rate limiting *)

(** [self._min_request_interval], in seconds. *)
Definition _min_request_interval : gmap string Qc :=
  {[ "binance"%string := Q2Qc (1 # 2);
     "coingecko"%string := Qc_of_Z 10;
     "coincap"%string := Qc_of_Z 2;
     "cryptocompare"%string := Qc_of_Z 2 ]}.

(** [_rate_limit]: [now] is the first reading of [time.time()];
    [time_after slept] is the reading taken at the end, after
    [time.sleep(d)] when [slept = Some d] and without a sleep when
    [slept = None].  The result is the sleep that was requested and the new
    [_last_request_time]. *)
Definition _rate_limit (_last_request_time : gmap string Qc) (now : Qc)
    (time_after : option Qc -> Qc) (source : string) : option Qc * gmap string Qc :=
  let interval := default (Qc_of_Z 2) (_min_request_interval !! source) in
  let slept :=
    match _last_request_time !! source with
    | Some t =>
        let elapsed := now - t in
        if Qc_ltb elapsed interval then Some (interval - elapsed) else None
    | None => None
    end in
  (slept, <[source := time_after slept]> _last_request_time).

End MarketData.

(* ===================================================================== *)
(** * src/services/risk_manager.py *)
(* ===================================================================== *)

Module RiskManager.
Import Database.

(** The builtin [max(a, b)]: the first argument unless the second is larger. *)
Definition py_max (a b : Qc) : Qc := if Qc_ltb a b then b else a.

(** The [for value in values] loop of [_calculate_max_drawdown]. *)
Fixpoint drawdown_loop (values : list Qc) (peak max_drawdown : Qc) : Qc :=
  match values with
  | [] => max_drawdown
  | value :: rest =>
      let peak' := if Qc_ltb peak value then value else peak in
      let drawdown := if Qc_ltb 0 peak' then (peak' - value) / peak' else 0 in
      drawdown_loop rest peak' (py_max max_drawdown drawdown)
  end.

(** The computation on the value series, oldest value first. *)
Definition max_drawdown_of (values : list Qc) : Qc :=
  match values with
  | [] => 0
  | v0 :: _ => drawdown_loop values v0 0
  end.

Definition _calculate_max_drawdown (db : Db) (model_id : Z) : Qc :=
  let history := get_account_value_history db model_id 1000 in
  match history with
  | [] => 0
  | _ => max_drawdown_of (map a_total_value (rev history))
  end.

Inductive pause_reason : Type :=
| critical_drawdown   (* maximum drawdown above 25 percent *)
| losing_streak       (* five losing trades in a row *)
| low_cash            (* available cash under 10 percent *)
| risk_under_control.

Record pause_check : Type := {
  should_pause : bool;
  reason : pause_reason
}.

(** [all(t['pnl'] < 0 for t in recent_trades[:5])] *)
Definition all_losing (ts : list trade) : bool :=
  forallb (fun t => Qc_ltb (t_pnl t) 0) (take 5 ts).

Definition should_pause_trading (db : Db) (model_id : Z) (pf : portfolio) : pause_check :=
  let drawdown := _calculate_max_drawdown db model_id in
  if Qc_ltb config.MAX_DRAWDOWN_CRITICAL drawdown
  then {| should_pause := true; reason := critical_drawdown |}
  else
    let recent_trades := get_trades db model_id 5 in
    if bool_decide (5 <= length recent_trades)%nat && all_losing recent_trades
    then {| should_pause := true; reason := losing_streak |}
    else if Qc_ltb (cash pf) (total_value pf * Q2Qc (1 # 10))
    then {| should_pause := true; reason := low_cash |}
    else {| should_pause := false; reason := risk_under_control |}.

(** ** The risk score *)

Inductive risk_level : Type := high_risk | medium_risk | low_risk.

(** The warnings, without their formatted text. *)
Inductive warning : Type :=
| W_concentration (coin : string) (ratio : Qc)
| W_leverage (avg_leverage : Qc)
| W_position_count (n : nat)
| W_unrealized_loss (loss_ratio : Qc)
| W_drawdown (drawdown : Qc).

Record risk_score : Type := {
  score : Z;
  level : risk_level;
  warnings : list warning;
  rs_drawdown : Qc
}.

(** The loop of rule 1: the first position whose notional exceeds the
    allowed share of the total value, if any ([break] after it). *)
Fixpoint first_concentrated (total_value_ : Qc) (ps : list pos_view) : option (string * Qc) :=
  match ps with
  | [] => None
  | v :: ps' =>
      let position_value := p_quantity (pos v) * p_avg_price (pos v) in
      let ratio := if Qc_ltb 0 total_value_ then position_value / total_value_ else 0 in
      if Qc_ltb config.MAX_POSITION_RATIO ratio then Some (p_coin (pos v), ratio)
      else first_concentrated total_value_ ps'
  end.

(** [sum(p['leverage'] for p in positions)] *)
Definition sum_leverage (ps : list pos_view) : Z :=
  fold_left Z.add (map (fun v => p_leverage (pos v)) ps) 0%Z.

Definition Qc_abs (x : Qc) : Qc := if Qc_ltb x 0 then - x else x.

Definition calculate_risk_score (db : Db) (model_id : Z) (pf : portfolio) : risk_score :=
  let s0 := 0%Z in
  let w0 := [] in
  (* 1. concentration *)
  let '(s1, w1) :=
    match positions pf with
    | [] => (s0, w0)
    | _ =>
        match first_concentrated (total_value pf) (positions pf) with
        | Some (coin, ratio) => ((s0 + 30)%Z, w0 ++ [W_concentration coin ratio])
        | None => (s0, w0)
        end
    end in
  (* 2. leverage *)
  let '(s2, w2) :=
    match positions pf with
    | [] => (s1, w1)
    | _ =>
        let avg_leverage := Qc_of_Z (sum_leverage (positions pf))
                            / Qc_of_Z (Z.of_nat (length (positions pf))) in
        if Qc_ltb (Qc_of_Z 10) avg_leverage
        then ((s1 + 25)%Z, w1 ++ [W_leverage avg_leverage])
        else (s1, w1)
    end in
  (* 3. number of positions *)
  let position_count := length (positions pf) in
  let '(s3, w3) :=
    if bool_decide (5 < position_count)%nat
    then ((s2 + 15)%Z, w2 ++ [W_position_count position_count])
    else (s2, w2) in
  (* 4. unrealized loss *)
  let '(s4, w4) :=
    if Qc_ltb (unrealized_pnl pf) 0
    then
      let loss_ratio := if Qc_ltb 0 (total_value pf)
                        then Qc_abs (unrealized_pnl pf) / total_value pf else 0 in
      if Qc_ltb (Q2Qc (1 # 10)) loss_ratio
      then ((s3 + 20)%Z, w3 ++ [W_unrealized_loss loss_ratio])
      else (s3, w3)
    else (s3, w3) in
  (* 5. drawdown *)
  let drawdown := _calculate_max_drawdown db model_id in
  let '(s5, w5) :=
    if Qc_ltb config.MAX_DRAWDOWN_WARNING drawdown
    then ((s4 + 30)%Z, w4 ++ [W_drawdown drawdown])
    else (s4, w4) in
  let level_ := if bool_decide (70 <= s5)%Z then high_risk
                else if bool_decide (40 <= s5)%Z then medium_risk
                else low_risk in
  {| score := Z.min s5 100; level := level_; warnings := w5; rs_drawdown := drawdown |}.

(** ** Position sizing *)




(** [risk_per_trade = None] takes the configured share. *)
Definition calculate_optimal_position_size (pf : portfolio) (risk_per_trade : option Qc) : Qc :=
  total_value pf * default config.MAX_RISK_PER_TRADE risk_per_trade.

(** ** The combined report *)

Record risk_metrics : Type := {
  rm_risk_score : Z;
  rm_risk_level : risk_level;
  rm_warnings : list warning;
  rm_max_drawdown : Qc;
  rm_should_pause : bool;
  rm_pause_reason : pause_reason
}.

Definition get_risk_metrics (db : Db) (model_id : Z) (pf : portfolio) : risk_metrics :=
  let risk_score_ := calculate_risk_score db model_id pf in
  let pause_check_ := should_pause_trading db model_id pf in
  {| rm_risk_score := score risk_score_;
     rm_risk_level := level risk_score_;
     rm_warnings := warnings risk_score_;
     rm_max_drawdown := rs_drawdown risk_score_;
     rm_should_pause := should_pause pause_check_;
     rm_pause_reason := reason pause_check_ |}.

End RiskManager.

(* ===================================================================== *)
(** * src/trading_engine.py *)
(* ===================================================================== *)

Module TradingEngine.
Import Database.

(** ** The decision map returned by the decision provider

    The map is parsed JSON, so a field may hold any JSON value.  The
    [signal], [quantity] and [leverage] fields are kept untyped; the price
    levels are numbers or [null], as the output format of the prompt says. *)
Inductive pyval : Type :=
| PNone
| PBool (b : bool)
| PInt (z : Z)
| PFloat (q : Qc)
| PStr (s : string)
| POther.   (* a list or a dictionary *)

(** A field is [None] when the key is absent. *)
Record decision : Type := {
  d_signal : option pyval;
  d_quantity : option pyval;
  d_leverage : option pyval;
  d_stop_loss : option Qc;
  d_profit_target : option Qc;
  d_take_profit : option Qc
}.

(** The value stored under a coin: a dictionary, or any other JSON value. *)
Inductive decision_item : Type :=
| Dict (d : decision)
| NotDict.

(** A Python [dict] iterates in insertion order: a list of items. *)
Definition decisions : Type := list (string * decision_item).

Record market_entry : Type := {
  ms_price : Qc;
  ms_change_24h : Qc;
  ms_indicators : option MarketData.indicator_set
}.

Record account_info : Type := {
  current_time : string;
  total_return : Qc;
  ai_initial_capital : Qc
}.

Inductive close_reason : Type := stop_loss_triggered | take_profit_triggered.

Inductive error_msg : Type :=
| Insufficient_cash
| Validation_failed (e : exn)
| Position_not_found
| Unknown_signal (signal : string)
| Exception_str (e : exn).

(** The result dictionaries; the formatted ['message'] strings are left out. *)
Inductive exec_result : Type :=
| R_enter (coin signal : string) (quantity price : Qc) (leverage : Z)
    (stop_loss take_profit : option Qc)
| R_close (coin : string) (quantity price pnl : Qc)
| R_auto_close (coin : string) (why : close_reason) (quantity price pnl : Qc)
| R_hold (coin : string)
| R_error (coin : string) (msg : error_msg).

(** ** The world of one cycle: the database and the trace of the calls that
    leave the engine, oldest first. *)
Inductive event : Type :=
| Ev_update_position (model_id : Z) (coin : string) (quantity avg_price : Qc) (leverage : Z)
    (s : side) (stop_loss take_profit : option Qc)
| Ev_close_position (model_id : Z) (coin : string) (s : side)
| Ev_add_trade (t : trade)
| Ev_make_decision
| Ev_add_conversation
| Ev_record_account_value (a : account_value).

Record world : Type := {
  w_db : Db;
  w_trace : list event
}.

Definition M (A : Type) : Type := world -> result A * world.

#[global] Instance M_ret : MRet M := fun A a w => (Ok a, w).
#[global] Instance M_bind : MBind M := fun A B f m w =>
  match m w with
  | (Ok a, w') => f a w'
  | (Raise e, w') => (Raise e, w')
  end.

(** [try: m  except Exception as e: h e] *)
Definition try_except {A : Type} (m : M A) (h : exn -> M A) : M A := fun w =>
  match m w with
  | (Ok a, w') => (Ok a, w')
  | (Raise e, w') => h e w'
  end.

Definition lift {A : Type} (r : result A) : M A := fun w => (r, w).

Definition db_update_position (model_id : Z) (coin : string) (quantity avg_price : Qc)
    (leverage : Z) (s : side) (stop_loss take_profit : option Qc) : M unit := fun w =>
  (Ok (),
   {| w_db := update_position (w_db w) model_id coin quantity avg_price leverage s
                stop_loss take_profit;
      w_trace := w_trace w ++ [Ev_update_position model_id coin quantity avg_price leverage s
                                 stop_loss take_profit] |}).

Definition db_close_position (model_id : Z) (coin : string) (s : side) : M unit := fun w =>
  (Ok (),
   {| w_db := close_position (w_db w) model_id coin s;
      w_trace := w_trace w ++ [Ev_close_position model_id coin s] |}).

Definition db_add_trade (model_id : Z) (coin signal : string) (quantity price : Qc)
    (leverage : Z) (s : side) (pnl : Qc) : M unit := fun w =>
  (Ok (),
   {| w_db := add_trade (w_db w) model_id coin signal quantity price leverage s pnl;
      w_trace := w_trace w ++
        [Ev_add_trade {| t_model_id := model_id; t_coin := coin; t_signal := signal;
                         t_quantity := quantity; t_price := price; t_leverage := leverage;
                         t_side := s; t_pnl := pnl |}] |}).

Definition db_add_conversation (model_id : Z) (user_prompt ai_response cot_trace : string)
    : M unit := fun w =>
  (Ok (),
   {| w_db := add_conversation (w_db w) model_id user_prompt ai_response cot_trace;
      w_trace := w_trace w ++ [Ev_add_conversation] |}).

Definition db_record_account_value (model_id : Z) (total_value cash positions_value : Qc)
    : M unit := fun w =>
  (Ok (),
   {| w_db := record_account_value (w_db w) model_id total_value cash positions_value;
      w_trace := w_trace w ++
        [Ev_record_account_value {| a_model_id := model_id; a_total_value := total_value;
                                    a_cash := cash; a_positions_value := positions_value |}] |}).

Definition db_get_portfolio (model_id : Z) (current_prices : gmap string Qc) : M portfolio :=
  fun w => (get_portfolio (w_db w) model_id (Some current_prices), w).

(** [str.lower] on the ASCII letters; the signal names are ASCII, and no
    other character lowercases into one of their letters. *)
Definition lower_ascii (c : ascii) : ascii :=
  let n := N_of_ascii c in
  if (65 <=? n)%N && (n <=? 90)%N then ascii_of_N (n + 32) else c.

Fixpoint lower (s : string) : string :=
  match s with
  | EmptyString => EmptyString
  | String c s' => String (lower_ascii c) (lower s')
  end.

(** [int(x)] of a float truncates towards zero. *)
Definition truncate (q : Qc) : Z := Z.quot (Qnum q) (Zpos (Qden q)).

Definition _validate_quantity (quantity : Qc) : result unit :=
  if Qc_leb quantity 0 then Raise ValueError
  else if Qc_ltb (Qc_of_Z 1000) quantity then Raise ValueError
  else Ok ().

Definition _validate_leverage (leverage : Z) : result unit :=
  if bool_decide (leverage < config.MIN_LEVERAGE)%Z || bool_decide (config.MAX_LEVERAGE < leverage)%Z
  then Raise ValueError
  else Ok ().

(** The stop-loss and take-profit tests of [_check_stop_loss_take_profit]. *)
Definition exit_trigger (s : side) (current_price : Qc) (stop_loss take_profit : option Qc)
    : option close_reason :=
  let stop_hit :=
    match stop_loss with
    | Some sl =>
        truthy stop_loss &&
        match s with
        | long => Qc_leb current_price sl
        | short => Qc_leb sl current_price
        end
    | None => false
    end in
  if stop_hit then Some stop_loss_triggered
  else
    match take_profit with
    | Some tp =>
        if truthy take_profit &&
           match s with
           | long => Qc_leb tp current_price
           | short => Qc_leb current_price tp
           end
        then Some take_profit_triggered
        else None
    | None => None
    end.

(** The loop of [_execute_close] that picks the position: the first one
    whose coin matches. *)
Fixpoint find_position (coin : string) (ps : list pos_view) : option pos_view :=
  match ps with
  | [] => None
  | v :: ps' => if bool_decide (p_coin (pos v) = coin) then Some v else find_position coin ps'
  end.

Section Engine.

(** [self.model_id] and the collaborators handed to the constructor. *)
Variable model_id : Z.
(** [float(s)] and [int(s)] on a string. *)
Variable parse_float : string -> option Qc.
Variable parse_int : string -> option Z.
(** [market_fetcher.get_current_prices] and [.calculate_technical_indicators]
    as they answer during this cycle. *)
Variable fetch_prices : list string -> result (gmap string MarketData.quote).
Variable fetch_indicators : string -> result (option MarketData.indicator_set).
(** [ai_trader.make_decision]; it catches its own failures. *)
Variable make_decision :
  gmap string market_entry -> portfolio -> account_info -> decisions * string.
Variable json_dumps : decisions -> string.
Variable get_current_beijing_time_str : string.

Definition to_float (v : pyval) : result Qc :=
  match v with
  | PNone => Raise TypeError
  | PBool b => Ok (if b then 1 else 0)
  | PInt z => Ok (Qc_of_Z z)
  | PFloat q => Ok q
  | PStr s => match parse_float s with Some q => Ok q | None => Raise ValueError end
  | POther => Raise TypeError
  end.

Definition to_int (v : pyval) : result Z :=
  match v with
  | PNone => Raise TypeError
  | PBool b => Ok (if b then 1 else 0)%Z
  | PInt z => Ok z
  | PFloat q => Ok (truncate q)
  | PStr s => match parse_int s with Some z => Ok z | None => Raise ValueError end
  | POther => Raise TypeError
  end.

Fixpoint _get_market_state_loop (coins : list string) (prices : gmap string MarketData.quote)
    (market_state : gmap string market_entry) : result (gmap string market_entry) :=
  match coins with
  | [] => Ok market_state
  | coin :: coins' =>
      match prices !! coin with
      | Some q =>
          indicators ← fetch_indicators coin;
          _get_market_state_loop coins' prices
            (<[coin := {| ms_price := MarketData.price q;
                          ms_change_24h := MarketData.change_24h q;
                          ms_indicators := indicators |}]> market_state)
      | None => _get_market_state_loop coins' prices market_state
      end
  end.

Definition _get_market_state : result (gmap string market_entry) :=
  prices ← fetch_prices config.SUPPORTED_COINS;
  _get_market_state_loop config.SUPPORTED_COINS prices ∅.

Definition _build_account_info (pf : portfolio) : M account_info := fun w =>
  match get_model (w_db w) model_id with
  | None => (Raise TypeError, w)
  | Some m =>
      let initial_capital := m_initial_capital m in
      if Qc_eqb initial_capital 0 then (Raise ZeroDivisionError, w)
      else (Ok {| current_time := get_current_beijing_time_str;
                  total_return := (total_value pf - initial_capital) / initial_capital
                                  * Qc_of_Z 100;
                  ai_initial_capital := initial_capital |}, w)
  end.

Definition _format_prompt (market_state : gmap string market_entry) (pf : portfolio) : string :=
  ("Market State: " ++ NilZero.string_of_uint (Nat.to_uint (size market_state))
   ++ " coins, Portfolio: " ++ NilZero.string_of_uint (Nat.to_uint (length (positions pf)))
   ++ " positions")%string.

Fixpoint _check_stop_loss_take_profit_loop (ps : list pos_view)
    (current_prices : gmap string Qc) (results : list exec_result) : M (list exec_result) :=
  match ps with
  | [] => mret results
  | position :: ps' =>
      let coin := p_coin (pos position) in
      match current_prices !! coin with
      | None => _check_stop_loss_take_profit_loop ps' current_prices results
      | Some current_price =>
          let side_ := p_side (pos position) in
          match exit_trigger side_ current_price (p_stop_loss (pos position))
                  (p_take_profit (pos position)) with
          | Some why =>
              let quantity := p_quantity (pos position) in
              let entry_price := p_avg_price (pos position) in
              let pnl_ := position_pnl side_ current_price entry_price quantity in
              _ ← db_close_position model_id coin side_;
              _ ← db_add_trade model_id coin "auto_close" quantity current_price
                    (p_leverage (pos position)) side_ pnl_;
              _check_stop_loss_take_profit_loop ps' current_prices
                (results ++ [R_auto_close coin why quantity current_price pnl_])
          | None => _check_stop_loss_take_profit_loop ps' current_prices results
          end
      end
  end.

Definition _check_stop_loss_take_profit (pf : portfolio) (current_prices : gmap string Qc)
    : M (list exec_result) :=
  _check_stop_loss_take_profit_loop (positions pf) current_prices [].

(** The [try] block shared by [_execute_buy] and [_execute_sell]:
    [Ok None] is the early return of the insufficient-cash error. *)
Definition entry_checks (coin : string) (d : decision) (market_state : gmap string market_entry)
    (pf : portfolio) : result (option (Qc * Z * Qc)) :=
  quantity ← to_float (default (PInt 0) (d_quantity d));
  leverage ← to_int (default (PInt 1) (d_leverage d));
  price ← match market_state !! coin with
          | Some e => Ok (ms_price e)
          | None => Raise (KeyError coin)
          end;
  _ ← _validate_quantity quantity;
  _ ← _validate_leverage leverage;
  let required_margin := quantity * price / Qc_of_Z leverage in
  if Qc_ltb (cash pf) required_margin then Ok None
  else Ok (Some (quantity, leverage, price)).

(** [_execute_buy] and [_execute_sell] differ in the signal and the side only. *)
Definition execute_enter (signal : string) (s : side) (coin : string) (d : decision)
    (market_state : gmap string market_entry) (pf : portfolio) : M exec_result :=
  match entry_checks coin d market_state pf with
  | Raise ValueError => mret (R_error coin (Validation_failed ValueError))
  | Raise TypeError => mret (R_error coin (Validation_failed TypeError))
  | Raise e => lift (Raise e)
  | Ok None => mret (R_error coin Insufficient_cash)
  | Ok (Some (quantity, leverage, price)) =>
      let stop_loss := d_stop_loss d in
      let take_profit := py_or (d_profit_target d) (d_take_profit d) in
      _ ← db_update_position model_id coin quantity price leverage s stop_loss take_profit;
      _ ← db_add_trade model_id coin signal quantity price leverage s 0;
      mret (R_enter coin signal quantity price leverage stop_loss take_profit)
  end.

Definition _execute_buy : string -> decision -> gmap string market_entry -> portfolio
    -> M exec_result := execute_enter "buy_to_enter" long.

Definition _execute_sell : string -> decision -> gmap string market_entry -> portfolio
    -> M exec_result := execute_enter "sell_to_enter" short.

Definition _execute_close (coin : string) (d : decision)
    (market_state : gmap string market_entry) (pf : portfolio) : M exec_result :=
  match find_position coin (positions pf) with
  | None => mret (R_error coin Position_not_found)
  | Some position =>
      match market_state !! coin with
      | None => lift (Raise (KeyError coin))
      | Some e =>
          let current_price := ms_price e in
          let entry_price := p_avg_price (pos position) in
          let quantity := p_quantity (pos position) in
          let side_ := p_side (pos position) in
          let pnl_ := position_pnl side_ current_price entry_price quantity in
          _ ← db_close_position model_id coin side_;
          _ ← db_add_trade model_id coin "close_position" quantity current_price
                (p_leverage (pos position)) side_ pnl_;
          mret (R_close coin quantity current_price pnl_)
      end
  end.

(** [decision.get('signal', '').lower()] *)
Definition signal_of (item : decision_item) : result string :=
  match item with
  | NotDict => Raise AttributeError
  | Dict d =>
      match d_signal d with
      | None => Ok EmptyString
      | Some (PStr s) => Ok (lower s)
      | Some _ => Raise AttributeError
      end
  end.

Definition dispatch (signal coin : string) (item : decision_item)
    (market_state : gmap string market_entry) (pf : portfolio) : M exec_result :=
  match item with
  | NotDict => lift (Raise AttributeError)
  | Dict d =>
      if bool_decide (signal = "buy_to_enter"%string)
      then _execute_buy coin d market_state pf
      else if bool_decide (signal = "sell_to_enter"%string)
      then _execute_sell coin d market_state pf
      else if bool_decide (signal = "close_position"%string)
      then _execute_close coin d market_state pf
      else if bool_decide (signal = "hold"%string)
      then mret (R_hold coin)
      else mret (R_error coin (Unknown_signal signal))
  end.

Fixpoint _execute_decisions_loop (ds : decisions) (market_state : gmap string market_entry)
    (pf : portfolio) (results : list exec_result) : M (list exec_result) :=
  match ds with
  | [] => mret results
  | (coin, item) :: ds' =>
      if bool_decide (coin ∈ config.SUPPORTED_COINS)
      then
        signal ← lift (signal_of item);
        r ← try_except (dispatch signal coin item market_state pf)
              (fun e => mret (R_error coin (Exception_str e)));
        _execute_decisions_loop ds' market_state pf (results ++ [r])
      else _execute_decisions_loop ds' market_state pf results
  end.

Definition _execute_decisions (ds : decisions) (market_state : gmap string market_entry)
    (pf : portfolio) : M (list exec_result) :=
  _execute_decisions_loop ds market_state pf [].

Inductive cycle_result : Type :=
| Success (ds : decisions) (executions : list exec_result) (pf : portfolio)
| Failure (e : exn).

Definition call_make_decision (market_state : gmap string market_entry) (pf : portfolio)
    (info : account_info) : M (decisions * string) := fun w =>
  (Ok (make_decision market_state pf info),
   {| w_db := w_db w; w_trace := w_trace w ++ [Ev_make_decision] |}).

(** The [try] block of [execute_trading_cycle]. *)
Definition trading_cycle_body : M cycle_result :=
  market_state ← lift _get_market_state;
  let current_prices := ms_price <$> market_state in
  pf ← db_get_portfolio model_id current_prices;
  stop_results ← _check_stop_loss_take_profit pf current_prices;
  info ← _build_account_info pf;
  '(ds, raw_response) ← call_make_decision market_state pf info;
  _ ← match ds with
      | [] => mret ()
      | _ => db_add_conversation model_id (_format_prompt market_state pf) (json_dumps ds)
               (String.substring 0 2000 raw_response)
      end;
  execution_results ← _execute_decisions ds market_state pf;
  let all_results := stop_results ++ execution_results in
  updated ← db_get_portfolio model_id current_prices;
  _ ← db_record_account_value model_id (total_value updated) (cash updated)
        (positions_value updated);
  mret (Success ds all_results updated).

Definition execute_trading_cycle (w : world) : cycle_result * world :=
  match trading_cycle_body w with
  | (Ok r, w') => (r, w')
  | (Raise e, w') => (Failure e, w')
  end.

End Engine.

End TradingEngine.

(* ===================================================================== *)
(** * Reference definitions used by the statements *)
(* ===================================================================== *)

Definition Qc_max (x y : Qc) : Qc := if Qc_ltb x y then y else x.

(** The running-peak method in the words of the specification: going from
    the oldest to the newest value, the peak is the largest value seen so
    far and the drawdown at a point is (peak - value) / peak.  At a peak of
    0 the quotient is 0, the convention of [Qcdiv]. *)
Fixpoint running_drawdowns (peak : Qc) (values : list Qc) : list Qc :=
  match values with
  | [] => []
  | value :: rest =>
      let peak' := Qc_max peak value in
      (peak' - value) / peak' :: running_drawdowns peak' rest
  end.

(** The maximum observed drawdown; [0] when there is no snapshot. *)
Definition MaxDrawdown_spec (values : list Qc) : Qc :=
  match values with
  | [] => 0
  | v0 :: _ => foldr Qc_max 0 (running_drawdowns v0 values)
  end.

(** A series that never decreases from one value to the next. *)
Fixpoint nondecreasing (values : list Qc) : bool :=
  match values with
  | x :: ((y :: _) as rest) => Qc_leb x y && nondecreasing rest
  | _ => true
  end.

(** +1 for a long position, -1 for a short one. *)
Definition sign (s : Database.side) : Qc :=
  match s with
  | Database.long => 1
  | Database.short => - (1)
  end.

(** The total values recorded for a model, oldest first. *)
Definition history_values (db : Database.Db) (model_id : Z) : list Qc :=
  map Database.a_total_value
    (filter (fun a => Database.a_model_id a = model_id) (Database.account_values db)).

Section StatementDefinitions.
Import Database MarketData TradingEngine.




(** No source returns a quote for every requested coin. *)
Definition all_sources_fail (e : env) (coins : list string) : Prop :=
  complete coins (_get_prices_from_binance e coins) = false /\
  complete coins (_get_prices_from_coingecko e coins) = false /\
  complete coins (_get_prices_from_coincap e coins) = false /\
  complete coins (_get_prices_from_cryptocompare e coins) = false.

(** Every cached entry has its time stamp; [store] keeps it so. *)
Definition cache_wf (self : MarketDataFetcher) : Prop :=
  forall k, is_Some (_cache self !! k) -> is_Some (_cache_time self !! k).

(** The quantity of a decision does not pass: it does not convert to a
    number, or the number is not strictly positive, or it exceeds 1000. *)
Definition quantity_fails (parse_float : string -> option Qc) (d : decision) : Prop :=
  match to_float parse_float (default (PInt 0) (d_quantity d)) with
  | Ok q => q <= 0 \/ Qc_of_Z 1000 < q
  | Raise _ => True
  end.

(** Every item of a supported coin is a dictionary whose signal is a string
    (or absent), so that reading the signal does not raise. *)
Definition signals_ok (ds : decisions) : Prop :=
  Forall (fun ci => ci.1 ∈ config.SUPPORTED_COINS -> exists s, signal_of ci.2 = Ok s) ds.

(** The directional trigger: a stop-loss or a take-profit level that is set
    (not null and not 0, as the code tests it) and reached by the price. *)
Definition triggered (s : side) (current_price : Qc) (stop_loss take_profit : option Qc)
    : Prop :=
  (exists sl, stop_loss = Some sl /\ sl <> 0 /\
     match s with long => current_price <= sl | short => sl <= current_price end) \/
  (exists tp, take_profit = Some tp /\ tp <> 0 /\
     match s with long => tp <= current_price | short => current_price <= tp end).

(** The trade that an automatic close of the position [p] at the price [cp]
    records. *)
Definition auto_close_trade (model_id : Z) (p : position) (cp : Qc) : trade :=
  {| t_model_id := model_id; t_coin := p_coin p; t_signal := "auto_close";
     t_quantity := p_quantity p; t_price := cp; t_leverage := p_leverage p;
     t_side := p_side p;
     t_pnl := sign (p_side p) * (cp - p_avg_price p) * p_quantity p |}.

(** A world [w'] that extends [w]: more events in the trace, more trades. *)
Definition grows (w w' : world) : Prop :=
  (exists evs, w_trace w' = w_trace w ++ evs) /\
  (exists ts, trades (w_db w') = trades (w_db w) ++ ts).

Definition growing {A : Type} (m : M A) : Prop := forall w, grows w (m w).2.

End StatementDefinitions.

Section LedgerStatements.
Import Database.

(** The key of a stored position. *)
Definition row_key (p : position) : Z * string * side :=
  (p_model_id p, p_coin p, p_side p).

(** The UNIQUE(model_id, coin, side) constraint of the table. *)
Definition keys_unique (rows : list position) : Prop := NoDup (map row_key rows).


End LedgerStatements.

Section EngineStatements.
Import Database TradingEngine.

(** The coin that a result dictionary names. *)
Definition result_coin (r : exec_result) : string :=
  match r with
  | R_enter coin _ _ _ _ _ _ => coin
  | R_close coin _ _ _ => coin
  | R_auto_close coin _ _ _ _ => coin
  | R_hold coin => coin
  | R_error coin _ => coin
  end.

(** A result that reports no execution: an error or a hold. *)
Definition no_execution (r : exec_result) : bool :=
  match r with
  | R_error _ _ | R_hold _ => true
  | _ => false
  end.

End EngineStatements.

Section CycleStatements.
Import Database TradingEngine.

(** A computation that leaves the account-value history as it found it. *)
Definition keeps_history {A : Type} (m : M A) : Prop :=
  forall w, account_values (w_db (m w).2) = account_values (w_db w).

(** The row that [record_account_value] writes for a portfolio. *)
Definition account_value_of (model_id : Z) (pf : portfolio) : account_value :=
  {| a_model_id := model_id; a_total_value := total_value pf; a_cash := cash pf;
     a_positions_value := positions_value pf |}.

End CycleStatements.

Section RiskStatements.
Import RiskManager.

(** The points that each rule of [calculate_risk_score] adds with its warning. *)
Definition warning_weight (w : warning) : Z :=
  match w with
  | W_concentration _ _ => 30
  | W_leverage _ => 25
  | W_position_count _ => 15
  | W_unrealized_loss _ => 20
  | W_drawdown _ => 30
  end.

Definition score_of_warnings (ws : list warning) : Z :=
  fold_left Z.add (map warning_weight ws) 0%Z.

Definition is_drawdown_warning (w : warning) : bool :=
  match w with W_drawdown _ => true | _ => false end.

End RiskStatements.

Section MarketStatements.
Import MarketData.

(** The answer of the first price source, in the order Binance, CoinGecko,
    CoinCap, CryptoCompare, that covers every requested coin. *)
Definition first_complete (e : env) (coins : list string) : option (gmap string quote) :=
  match filter (fun p => complete coins p = true)
          [_get_prices_from_binance e coins; _get_prices_from_coingecko e coins;
           _get_prices_from_coincap e coins; _get_prices_from_cryptocompare e coins] with
  | p :: _ => p
  | [] => None
  end.

(** The first non-empty history, in the order Binance, CoinGecko, CoinCap. *)
Definition first_history (e : env) (coin : string) (days : Z) : option (list price_point) :=
  match filter (fun p => nonempty p = true)
          [_get_historical_from_binance e coin days; _get_historical_from_coingecko e coin days;
           _get_historical_from_coincap e coin days] with
  | p :: _ => p
  | [] => None
  end.

(** The entry under [key] is younger than [duration] at the first clock
    reading of the call. *)
Definition fresh (e : env) (self : MarketDataFetcher) (key : string) (duration : Qc) : Prop :=
  exists t, _cache_time self !! key = Some t /\ time_at_check e - t < duration.

End MarketStatements.

(* ===================================================================== *)
(** * The decision provider (src/ai_trader.py)

    [make_decision] builds the prompt and then asks the model up to three
    times.  The model below is the retry loop; the prompt it sends is the
    same at every attempt, so a call is identified by its attempt number. *)
(* ===================================================================== *)

Module AITrader.

Section MakeDecision.

(** What [_call_llm(prompt)] does at the attempt with the given number, and
    [_parse_response]. *)
Variable _call_llm : nat -> result string.
Variable _parse_response : string -> result TradingEngine.decisions.

Definition max_retries : nat := 3.

(** [decisions and len(decisions) > 0] *)
Definition nonempty_decisions (ds : TradingEngine.decisions) : bool :=
  match ds with [] => false | _ :: _ => true end.

(** The [for attempt in range(max_retries)] loop; the last component counts
    the calls made to the model. *)
Fixpoint make_decision_loop (attempts : list nat) (last_raw_response : string) (calls : nat)
    : TradingEngine.decisions * string * nat :=
  match attempts with
  | [] => ([], last_raw_response, calls)
  | attempt :: rest =>
      match _call_llm attempt with
      | Ok response =>
          match _parse_response response with
          | Ok decisions =>
              if nonempty_decisions decisions then (decisions, response, S calls)
              else if bool_decide (attempt = max_retries - 1)%nat
              then ([], response, S calls)
              else make_decision_loop rest response (S calls)
          | Raise _ =>
              if bool_decide (attempt = max_retries - 1)%nat
              then ([], response, S calls)
              else make_decision_loop rest response (S calls)
          end
      | Raise _ =>
          if bool_decide (attempt = max_retries - 1)%nat
          then ([], last_raw_response, S calls)
          else make_decision_loop rest last_raw_response (S calls)
      end
  end.

Definition make_decision : TradingEngine.decisions * string * nat :=
  make_decision_loop (seq 0 max_retries) EmptyString 0.

End MakeDecision.

End AITrader.

Section ProviderStatements.

Variable _call_llm : nat -> result string.
Variable _parse_response : string -> result TradingEngine.decisions.

(** The decisions that an attempt yields: the call returns a response that
    parses to a non-empty map. *)
Definition attempt_yields (attempt : nat) : option (TradingEngine.decisions * string) :=
  match _call_llm attempt with
  | Ok response =>
      match _parse_response response with
      | Ok (d :: ds) => Some (d :: ds, response)
      | _ => None
      end
  | Raise _ => None
  end.

(** The response of the latest attempt below [n] whose call returned. *)
Fixpoint last_response (n : nat) : string :=
  match n with
  | O => EmptyString
  | S n' => match _call_llm n' with Ok response => response | Raise _ => last_response n' end
  end.

End ProviderStatements.

(* ===================================================================== *)
(** * Sample data *)
(* ===================================================================== *)

Module Samples.
Import Database MarketData.

Definition btc_quote : quote := {| price := Qc_of_Z 50000; change_24h := Q2Qc (12 # 10) |}.

Definition btc_history : list price_point :=
  map (fun i => {| hp_timestamp := 86400 * i; hp_price := Qc_of_Z (40000 + 100 * i) |})
    [1; 2; 3; 4; 5; 6; 7; 8; 9; 10; 11; 12; 13; 14]%Z.

(** Binance answers, the file can be written. *)
Definition env_binance_up : env :=
  {| _get_prices_from_binance := fun _ => Some {[ "BTC"%string := btc_quote ]};
     _get_prices_from_coingecko := fun _ => None;
     _get_prices_from_coincap := fun _ => None;
     _get_prices_from_cryptocompare := fun _ => None;
     _get_historical_from_binance := fun _ _ => Some btc_history;
     _get_historical_from_coingecko := fun _ _ => None;
     _get_historical_from_coincap := fun _ _ => None;
     time_at_check := Qc_of_Z 1000;
     time_at_store := Qc_of_Z 1001;
     time_at_fallback := Qc_of_Z 1002;
     disk_writable := true |}.

(** Every source is down, [seconds] after the sample above. *)
Definition env_all_down (seconds : Z) : env :=
  {| _get_prices_from_binance := fun _ => None;
     _get_prices_from_coingecko := fun _ => None;
     _get_prices_from_coincap := fun _ => None;
     _get_prices_from_cryptocompare := fun _ => None;
     _get_historical_from_binance := fun _ _ => None;
     _get_historical_from_coingecko := fun _ _ => None;
     _get_historical_from_coincap := fun _ _ => None;
     time_at_check := Qc_of_Z (1001 + seconds);
     time_at_store := Qc_of_Z (1001 + seconds);
     time_at_fallback := Qc_of_Z (1001 + seconds);
     disk_writable := true |}.

(** A fetcher holding one quote stored at time 1001. *)
Definition fetcher_with_btc : MarketDataFetcher :=
  store (_load_persistent_cache None) (prices_key ["BTC"%string])
    (CPrices {[ "BTC"%string := btc_quote ]}) (Qc_of_Z 1001).

(** One model with a capital of 10000, and two positions in BTC. *)
Definition model1 : model_row := {| m_id := 1; m_initial_capital := Qc_of_Z 10000 |}.

Definition btc_long : position :=
  {| p_model_id := 1; p_coin := "BTC"; p_quantity := Q2Qc (1 # 10);
     p_avg_price := Qc_of_Z 45000; p_leverage := 3; p_side := long;
     p_stop_loss := Some (Qc_of_Z 42000); p_take_profit := None |}.

Definition btc_short : position :=
  {| p_model_id := 1; p_coin := "BTC"; p_quantity := Q2Qc (1 # 5);
     p_avg_price := Qc_of_Z 40000; p_leverage := 2; p_side := short;
     p_stop_loss := None; p_take_profit := None |}.

Definition db_with (rows : list position) : Db :=
  {| models := [model1]; portfolios := rows; trades := []; conversations := [];
     account_values := [] |}.

Definition world_with (rows : list position) : TradingEngine.world :=
  {| TradingEngine.w_db := db_with rows; TradingEngine.w_trace := [] |}.

(** A market state in which BTC trades at [p] and ETH at 2000. *)
Definition market (p : Z) : gmap string TradingEngine.market_entry :=
  <["BTC"%string := {| TradingEngine.ms_price := Qc_of_Z p;
                       TradingEngine.ms_change_24h := 0;
                       TradingEngine.ms_indicators := None |}]>
    {[ "ETH"%string := {| TradingEngine.ms_price := Qc_of_Z 2000;
                          TradingEngine.ms_change_24h := 0;
                          TradingEngine.ms_indicators := None |} ]}.

Definition quotes (p : Z) : gmap string quote :=
  <["BTC"%string := {| price := Qc_of_Z p; change_24h := 0 |}]>
    {[ "ETH"%string := {| price := Qc_of_Z 2000; change_24h := 0 |} ]}.

(** The snapshot of model 1 that [get_portfolio] takes in a market. *)
Definition snapshot (db : Db) (ms : gmap string TradingEngine.market_entry) : portfolio :=
  match get_portfolio db 1 (Some (TradingEngine.ms_price <$> ms)) with
  | Ok pf => pf
  | Raise _ =>
      {| pf_model_id := 1; cash := 0; positions := []; positions_value := 0;
         margin_used := 0; total_value := 0; realized_pnl := 0; unrealized_pnl := 0 |}
  end.

Definition first_position (pf : portfolio) : pos_view :=
  List.hd {| pos := btc_long; current_price := None; pnl := 0 |} (positions pf).

(** Decisions: a purchase of 2000 BTC (over the cap of 1000), a purchase of
    half an ETH, a purchase of a tenth of a BTC, and a close. *)
Definition buy (quantity : TradingEngine.pyval) : TradingEngine.decision :=
  {| TradingEngine.d_signal := Some (TradingEngine.PStr "buy_to_enter");
     TradingEngine.d_quantity := Some quantity;
     TradingEngine.d_leverage := Some (TradingEngine.PInt 2);
     TradingEngine.d_stop_loss := None;
     TradingEngine.d_profit_target := None;
     TradingEngine.d_take_profit := None |}.

Definition too_much : TradingEngine.decision := buy (TradingEngine.PInt 2000).
Definition half : TradingEngine.decision := buy (TradingEngine.PFloat (Q2Qc (1 # 2))).
Definition tenth : TradingEngine.decision := buy (TradingEngine.PFloat (Q2Qc (1 # 10))).

Definition close : TradingEngine.decision :=
  {| TradingEngine.d_signal := Some (TradingEngine.PStr "close_position");
     TradingEngine.d_quantity := None; TradingEngine.d_leverage := None;
     TradingEngine.d_stop_loss := None; TradingEngine.d_profit_target := None;
     TradingEngine.d_take_profit := None |}.

(** Collaborators of a cycle: no string converts to a number, the fetcher
    reports BTC at [p], and the provider answers with the map [ds]. *)
Definition no_float (s : string) : option Qc := None.
Definition no_int (s : string) : option Z := None.
Definition fetcher_at (p : Z) (coins : list string) : result (gmap string quote) :=
  Ok (quotes p).
Definition no_indicators (coin : string) : result (option indicator_set) := Ok None.
Definition provider (ds : TradingEngine.decisions) (ms : gmap string TradingEngine.market_entry)
    (pf : portfolio) (info : TradingEngine.account_info)
    : TradingEngine.decisions * string := (ds, "{}"%string).
Definition dumps (ds : TradingEngine.decisions) : string := "{}"%string.

(** A rational stand-in for the square root: three Newton steps from 1. *)
Definition newton_sqrt (x : Qc) : Qc :=
  let step g := (g + x / g) / Qc_of_Z 2 in
  step (step (step 1)).

End Samples.

(* ===================================================================== *)
(** * Theorems *)
(* ===================================================================== *)

(** ** Comparisons and sums *)

Lemma Qc_ltb_true (x y : Qc) : Qc_ltb x y = true <-> x < y.
Proof. unfold Qc_ltb. apply bool_decide_eq_true. Qed.

Lemma Qc_ltb_false (x y : Qc) : Qc_ltb x y = false <-> y <= x.
Proof.
  unfold Qc_ltb. rewrite bool_decide_eq_false. split.
  - apply Qcnot_lt_le.
  - intros H1 H2. exact (Qcle_not_lt _ _ H1 H2).
Qed.

Lemma Qc_leb_true (x y : Qc) : Qc_leb x y = true <-> x <= y.
Proof. unfold Qc_leb. apply bool_decide_eq_true. Qed.

Lemma Qc_leb_false (x y : Qc) : Qc_leb x y = false <-> y < x.
Proof.
  unfold Qc_leb. rewrite bool_decide_eq_false. split.
  - apply Qcnot_le_lt.
  - intros H1 H2. exact (Qclt_not_le _ _ H1 H2).
Qed.

Lemma Qc_eqb_true (x y : Qc) : Qc_eqb x y = true <-> x = y.
Proof. unfold Qc_eqb. apply bool_decide_eq_true. Qed.

Lemma Qc_eqb_false (x y : Qc) : Qc_eqb x y = false <-> x <> y.
Proof. unfold Qc_eqb. apply bool_decide_eq_false. Qed.

(** Two hypotheses [x <= y] and [y < x] close any goal. *)
Ltac Qc_contra :=
  match goal with
  | H1 : ?x <= ?y, H2 : ?y < ?x |- _ => exfalso; exact (Qcle_not_lt _ _ H1 H2)
  end.

Lemma fold_left_Qcplus (xs : list Qc) (a : Qc) :
  fold_left Qcplus xs a = a + fold_left Qcplus xs 0.
Proof.
  revert a. induction xs as [|x xs IH]; intros a; simpl.
  - ring.
  - rewrite (IH (a + x)), (IH (0 + x)). ring.
Qed.


(** ** The ledger identity (src/database.py) *)

Section LedgerIdentity.
Import Database.









End LedgerIdentity.


(** ** Maximum drawdown (src/services/risk_manager.py) *)

Section Drawdown.
Import Database RiskManager.

Lemma Qc_max_py_max (a b : Qc) : Qc_max a b = py_max a b.
Proof. reflexivity. Qed.

Lemma Qc_max_ge_l (a b : Qc) : a <= Qc_max a b.
Proof.
  unfold Qc_max. destruct (Qc_ltb a b) eqn:E.
  - apply Qc_ltb_true in E. by apply Qclt_le_weak.
  - apply Qcle_refl.
Qed.

Lemma Qc_max_ge_r (a b : Qc) : b <= Qc_max a b.
Proof.
  unfold Qc_max. destruct (Qc_ltb a b) eqn:E.
  - apply Qcle_refl.
  - by apply Qc_ltb_false in E.
Qed.

Lemma Qc_max_l (a b : Qc) : b <= a -> Qc_max a b = a.
Proof. intros H. unfold Qc_max. apply Qc_ltb_false in H. by rewrite H. Qed.

Lemma Qc_max_r (a b : Qc) : a <= b -> Qc_max a b = b.
Proof.
  intros H. unfold Qc_max. destruct (Qc_ltb a b) eqn:E; [done|].
  apply Qc_ltb_false in E. by apply Qcle_antisym.
Qed.

Lemma Qc_max_assoc (a b c : Qc) : Qc_max (Qc_max a b) c = Qc_max a (Qc_max b c).
Proof.
  destruct (Qclt_le_dec a b) as [Hab|Hab]; destruct (Qclt_le_dec b c) as [Hbc|Hbc].
  - rewrite (Qc_max_r a b), (Qc_max_r b c), (Qc_max_r a c); try by apply Qclt_le_weak.
    + done.
    + apply Qclt_le_weak. by apply Qclt_trans with b.
  - rewrite (Qc_max_r a b) by (by apply Qclt_le_weak).
    rewrite (Qc_max_l b c) by done. by rewrite Qc_max_r by (by apply Qclt_le_weak).
  - rewrite (Qc_max_l a b) by done. by rewrite (Qc_max_r b c) by (by apply Qclt_le_weak).
  - rewrite (Qc_max_l a b) by done. rewrite (Qc_max_l b c) by done.
    rewrite (Qc_max_l a b) by done. apply Qc_max_l. by apply Qcle_trans with b.
Qed.

Lemma foldr_Qc_max_nonneg (ds : list Qc) : 0 <= foldr Qc_max 0 ds.
Proof.
  induction ds as [|d ds IH]; simpl.
  - apply Qcle_refl.
  - apply Qcle_trans with (foldr Qc_max 0 ds); [done|apply Qc_max_ge_r].
Qed.

(** A quotient with a non-negative numerator and a non-positive
    denominator is not positive (and [x / 0] is [0]). *)
Lemma Qcdiv_nonpos (a b : Qc) : 0 <= a -> b <= 0 -> a / b <= 0.
Proof.
  intros Ha Hb. destruct (Qc_eq_dec b 0) as [->|Hb0].
  - unfold Qcdiv. replace (a * / 0) with 0; [apply Qcle_refl|].
    replace (/ 0) with (Q2Qc 0); [ring|]. by apply Qc_is_canon.
  - assert (Hnb : 0 < - b).
    { apply Qcle_lt_or_eq in Hb as [Hb| ->]; [|done].
      apply Qclt_minus_iff in Hb. by replace (0 + - b) with (- b) in Hb by ring. }
    assert (Hi : 0 < / (- b)) by (by apply Qcinv_pos).
    replace (a / b) with (- (a * / (- b))).
    + assert (H0 : 0 * / (- b) <= a * / (- b)).
      { apply Qcmult_le_compat_r; [done|by apply Qclt_le_weak]. }
      replace (0 * / (- b)) with 0 in H0 by ring.
      apply Qcopp_le_compat in H0. by replace (- 0) with 0 in H0 by ring.
    + field. split; [done|]. intros E. apply Hb0.
      replace b with (- - b) by ring. rewrite E. ring.
Qed.

Lemma drawdown_loop_spec (values : list Qc) (peak md : Qc) :
  0 <= md ->
  drawdown_loop values peak md = Qc_max md (foldr Qc_max 0 (running_drawdowns peak values)).
Proof.
  revert peak md. induction values as [|value rest IH]; intros peak md Hmd.
  - symmetry. by apply Qc_max_l.
  - cbn [drawdown_loop running_drawdowns foldr].
    change py_max with Qc_max.
    change (if Qc_ltb peak value then value else peak) with (Qc_max peak value).
    set (peak' := Qc_max peak value).
    set (R := foldr Qc_max 0 (running_drawdowns peak' rest)).
    assert (HR : 0 <= R) by apply foldr_Qc_max_nonneg.
    rewrite IH.
    2:{ apply Qcle_trans with md; [done|]. apply Qc_max_ge_l. }
    fold R.
    destruct (Qc_ltb 0 peak') eqn:E.
    + apply Qc_max_assoc.
    + apply Qc_ltb_false in E.
      assert (Hd : (peak' - value) / peak' <= 0).
      { apply Qcdiv_nonpos; [|done].
        assert (Hv : value <= peak') by apply Qc_max_ge_r.
        apply Qcle_minus_iff in Hv.
        by replace (peak' + - value) with (peak' - value) in Hv by ring. }
      rewrite (Qc_max_l md 0) by done.
      f_equal. symmetry. apply Qc_max_r. by apply Qcle_trans with 0.
Qed.

Lemma max_drawdown_of_spec (values : list Qc) :
  max_drawdown_of values = MaxDrawdown_spec values.
Proof.
  destruct values as [|v0 rest]; [done|].
  unfold max_drawdown_of, MaxDrawdown_spec.
  rewrite drawdown_loop_spec by apply Qcle_refl.
  apply Qc_max_r, foldr_Qc_max_nonneg.
Qed.

Lemma drawdown_loop_nondecreasing (values : list Qc) (peak : Qc) :
  nondecreasing (peak :: values) = true -> drawdown_loop values peak 0 = 0.
Proof.
  revert peak. induction values as [|value rest IH]; intros peak H; [done|].
  cbn [nondecreasing] in H. apply andb_true_iff in H as [H1 H2].
  apply Qc_leb_true in H1. cbn [drawdown_loop].
  assert (Hp : (if Qc_ltb peak value then value else peak) = value).
  { destruct (Qc_ltb peak value) eqn:E; [done|].
    apply Qc_ltb_false in E. by apply Qcle_antisym. }
  rewrite Hp.
  assert (Hd : (if Qc_ltb 0 value then (value - value) / value else 0) = 0).
  { destruct (Qc_ltb 0 value); [|done]. unfold Qcdiv. ring. }
  rewrite Hd. replace (py_max 0 0) with (Q2Qc 0) by done. by apply IH.
Qed.

Lemma max_drawdown_of_nondecreasing (values : list Qc) :
  nondecreasing values = true -> max_drawdown_of values = 0.
Proof.
  destruct values as [|v0 rest]; [done|]. intros H. unfold max_drawdown_of.
  apply drawdown_loop_nondecreasing. cbn [nondecreasing].
  apply andb_true_iff. split; [|done]. apply Qc_leb_true, Qcle_refl.
Qed.

Lemma nondecreasing_tail (x : Qc) (values : list Qc) :
  nondecreasing (x :: values) = true -> nondecreasing values = true.
Proof.
  destruct values as [|y rest]; [done|]. cbn [nondecreasing].
  intros H. by apply andb_true_iff in H as [_ H].
Qed.

Lemma nondecreasing_drop (n : nat) (values : list Qc) :
  nondecreasing values = true -> nondecreasing (drop n values) = true.
Proof.
  revert values. induction n as [|n IH]; intros values H; [by rewrite drop_0|].
  destruct values as [|x rest]; [done|]. simpl. apply IH. by eapply nondecreasing_tail.
Qed.

(** The stored history is read newest first, cut at 1000 rows and reversed:
    the drawdown is computed on the newest 1000 values, oldest first. *)
Lemma calculate_max_drawdown_history (db : Db) (model_id : Z) :
  _calculate_max_drawdown db model_id
  = max_drawdown_of (last_n 1000 (history_values db model_id)).
Proof.
  unfold _calculate_max_drawdown, get_account_value_history, history_values, last_n.
  set (rows := filter _ (account_values db)).
  rewrite firstn_rev, length_map, skipn_map.
  destruct (rev (drop (length rows - 1000) rows)) as [|a l] eqn:E.
  - apply (f_equal (@rev _)) in E. rewrite rev_involutive in E. simpl in E.
    by rewrite E.
  - rewrite <- E, rev_involutive. done.
Qed.

End Drawdown.

(** C7.  The drawdown computation equals the running-peak method of the
    specification on every value series (where the peak is not positive the
    code takes the drawdown to be 0, which never changes the maximum); it is
    0 on every series that never decreases, 1/2 on [100, 50, 100], and 0 on
    the empty history.  On a database the series is the model's recorded
    total values, oldest first (the newest 1000 of them). *)
Theorem C7_max_drawdown :
  (forall values, RiskManager.max_drawdown_of values = MaxDrawdown_spec values) /\
  (forall values, nondecreasing values = true -> RiskManager.max_drawdown_of values = 0) /\
  RiskManager.max_drawdown_of [Qc_of_Z 100; Qc_of_Z 50; Qc_of_Z 100] = Q2Qc (1 # 2) /\
  RiskManager.max_drawdown_of [] = 0 /\
  (forall db model_id,
     RiskManager._calculate_max_drawdown db model_id
     = RiskManager.max_drawdown_of (last_n 1000 (history_values db model_id))) /\
  (forall db model_id,
     nondecreasing (history_values db model_id) = true ->
     RiskManager._calculate_max_drawdown db model_id = 0) /\
  (forall db model_id,
     history_values db model_id = [Qc_of_Z 100; Qc_of_Z 50; Qc_of_Z 100] ->
     RiskManager._calculate_max_drawdown db model_id = Q2Qc (1 # 2)) /\
  (forall db model_id,
     history_values db model_id = [] ->
     RiskManager._calculate_max_drawdown db model_id = 0).
Proof.
  split; [exact max_drawdown_of_spec|].
  split; [exact max_drawdown_of_nondecreasing|].
  split; [by apply Qc_is_canon|].
  split; [done|].
  split; [exact calculate_max_drawdown_history|].
  split; [|split].
  - intros db model_id H. rewrite calculate_max_drawdown_history.
    apply max_drawdown_of_nondecreasing. unfold last_n. by apply nondecreasing_drop.
  - intros db model_id H. rewrite calculate_max_drawdown_history, H.
    by apply Qc_is_canon.
  - intros db model_id H. by rewrite calculate_max_drawdown_history, H.
Qed.

(** ** The pause rules (src/services/risk_manager.py) *)

Section Pause.
Import Database RiskManager.



End Pause.


(** ** The price cache (src/market_data.py) *)

Section PriceCache.
Import MarketData.


Lemma store_wf (self : MarketDataFetcher) (key : string) (v : cache_val) (now : Qc) :
  cache_wf self -> cache_wf (store self key v now).
Proof.
  intros Hwf k. unfold store; simpl.
  destruct (decide (key = k)) as [->|Hne].
  - rewrite !lookup_insert_eq. eauto.
  - rewrite !lookup_insert_ne by done. apply Hwf.
Qed.

Lemma load_wf (f : cache_file) :
  (forall k, is_Some (file_cache f !! k) -> is_Some (file_cache_time f !! k)) ->
  cache_wf (_load_persistent_cache (Some f)).
Proof. done. Qed.

Lemma try_price_sources_fail (e : env) (self : MarketDataFetcher) (coins : list string)
    (key : string) :
  all_sources_fail e coins ->
  try_price_sources e self coins key = (stale_or_empty e self key (CPrices ∅), self).
Proof.
  intros (H1 & H2 & H3 & H4). unfold try_price_sources. by rewrite H1, H2, H3, H4.
Qed.

(** [get_current_prices] never touches the cache file. *)
Lemma get_current_prices_disk (e : env) (self : MarketDataFetcher) (coins : list string) :
  disk (get_current_prices e self coins).2 = disk self.
Proof.
  unfold get_current_prices.
  assert (H : disk (try_price_sources e self coins (prices_key coins)).2 = disk self).
  { unfold try_price_sources. repeat case_match; done. }
  repeat case_match; done.
Qed.

(** A history that a source delivers is written through to the file. *)
Lemma get_historical_prices_write_through (e : env) (self : MarketDataFetcher)
    (coin : string) (days : Z) :
  disk_writable e = true ->
  let self' := (get_historical_prices e self coin days).2 in
  self' = self \/
  disk self' = Some {| file_cache := _cache self'; file_cache_time := _cache_time self' |}.
Proof.
  intros Hw. unfold get_historical_prices.
  assert (H : let s := (try_historical_sources e self coin days (historical_key coin days)).2 in
              s = self \/
              disk s = Some {| file_cache := _cache s; file_cache_time := _cache_time s |}).
  { unfold try_historical_sources, _save_persistent_cache. rewrite Hw.
    repeat case_match; simpl; auto. }
  simpl in *. repeat case_match; simpl; auto.
Qed.

End PriceCache.

(** C3.  When no source returns a quote for every requested coin,
    [get_current_prices] leaves the fetcher as it was and answers from the
    cache alone: without an entry under the key of the sorted coins the
    answer is the empty map; an entry younger than the 5 s freshness bound
    at the first clock reading is returned as it is; otherwise the entry is
    returned as it is when its age at the fallback is below 2,592,000 s, and
    the empty map is returned when the age is 2,592,000 s or more.  The
    answer is always the cached entry or the empty map. *)
Theorem C3_all_sources_fail (e : MarketData.env) (self : MarketData.MarketDataFetcher)
    (coins : list string) :
  cache_wf self ->
  all_sources_fail e coins ->
  let key := MarketData.prices_key coins in
  let res := (MarketData.get_current_prices e self coins).1 in
  let self' := (MarketData.get_current_prices e self coins).2 in
  self' = self /\
  (MarketData._cache self !! key = None -> res = Ok (MarketData.CPrices ∅)) /\
  (forall v t,
     MarketData._cache self !! key = Some v ->
     MarketData._cache_time self !! key = Some t ->
     (MarketData.time_at_check e - t < Qc_of_Z 5 -> res = Ok v) /\
     (Qc_of_Z 5 <= MarketData.time_at_check e - t ->
      MarketData.time_at_fallback e - t < Qc_of_Z 2592000 -> res = Ok v) /\
     (Qc_of_Z 5 <= MarketData.time_at_check e - t ->
      Qc_of_Z 2592000 <= MarketData.time_at_fallback e - t ->
      res = Ok (MarketData.CPrices ∅))) /\
  (res = Ok (MarketData.CPrices ∅) \/
   exists v, MarketData._cache self !! key = Some v /\ res = Ok v).
Proof.
  intros Hwf Hfail key res self'. unfold res, self', MarketData.get_current_prices.
  fold key. rewrite !(try_price_sources_fail e self coins key Hfail).
  unfold MarketData.stale_or_empty.
  destruct (MarketData._cache self !! key) as [v|] eqn:Ec.
  2:{ simpl. repeat split; try done; auto. }
  destruct (Hwf key) as [t Et]; [by rewrite Ec|]. rewrite Et.
  change config.MARKET_API_CACHE_DURATION with (Qc_of_Z 5).
  destruct (Qc_ltb (MarketData.time_at_check e - t) (Qc_of_Z 5)) eqn:E5; simpl.
  - apply Qc_ltb_true in E5. split; [done|]. split; [done|]. split; [|right; eauto].
    intros v' t' [= <-] [= <-].
    repeat split; intros; try done; Qc_contra.
  - apply Qc_ltb_false in E5.
    destruct (Qc_ltb (MarketData.time_at_fallback e - t) (Qc_of_Z 2592000)) eqn:E30; simpl.
    + apply Qc_ltb_true in E30. split; [done|]. split; [done|]. split; [|right; eauto].
      intros v' t' [= <-] [= <-].
      repeat split; intros; try done; Qc_contra.
    + apply Qc_ltb_false in E30. split; [done|]. split; [done|]. split; [|by left].
      intros v' t' [= <-] [= <-].
      repeat split; intros; try done; Qc_contra.
Qed.

(** C3, at a concrete input: the entry of [Samples.fetcher_with_btc] is
    served ten days after it was stored. *)
Lemma C3_witness :
  cache_wf Samples.fetcher_with_btc /\
  all_sources_fail (Samples.env_all_down 864000) ["BTC"%string] /\
  (MarketData.get_current_prices (Samples.env_all_down 864000) Samples.fetcher_with_btc
     ["BTC"%string]).1
  = Ok (MarketData.CPrices {[ "BTC"%string := Samples.btc_quote ]}).
Proof.
  assert (Hwf : cache_wf Samples.fetcher_with_btc).
  { apply store_wf. intros k [v Hv]. simpl in Hv. by rewrite lookup_empty in Hv. }
  assert (Hfail : all_sources_fail (Samples.env_all_down 864000) ["BTC"%string]).
  { by repeat split. }
  split; [exact Hwf|]. split; [exact Hfail|].
  destruct (C3_all_sources_fail (Samples.env_all_down 864000) Samples.fetcher_with_btc
              ["BTC"%string] Hwf Hfail) as (_ & _ & H & _).
  destruct (H (MarketData.CPrices {[ "BTC"%string := Samples.btc_quote ]}) (Qc_of_Z 1001))
    as (_ & Hstale & _).
  - by vm_compute.
  - by vm_compute.
  - apply Hstale; by vm_compute.
Defined.

(** C4, at the failing input.  A new process without a cache file asks for
    the price of BTC and Binance answers: the quote is cached in memory but
    no cache file is written, so a restarted process whose sources are all
    down one minute later has nothing to serve.  The same request for the
    history is written to the file at once. *)
Theorem C4_current_prices_not_flushed :
  let self0 := MarketData._load_persistent_cache None in
  let self1 := (MarketData.get_current_prices Samples.env_binance_up self0 ["BTC"%string]).2 in
  let restarted := MarketData._load_persistent_cache (MarketData.disk self1) in
  let self2 := (MarketData.get_historical_prices Samples.env_binance_up self0 "BTC" 30).2 in
  MarketData._cache self1 !! MarketData.prices_key ["BTC"%string]
    = Some (MarketData.CPrices {[ "BTC"%string := Samples.btc_quote ]}) /\
  MarketData.disk self1 = None /\
  (MarketData.get_current_prices (Samples.env_all_down 60) self1 ["BTC"%string]).1
    = Ok (MarketData.CPrices {[ "BTC"%string := Samples.btc_quote ]}) /\
  (MarketData.get_current_prices (Samples.env_all_down 60) restarted ["BTC"%string]).1
    = Ok (MarketData.CPrices ∅) /\
  MarketData.disk self2
    = Some {| MarketData.file_cache := MarketData._cache self2;
              MarketData.file_cache_time := MarketData._cache_time self2 |} /\
  MarketData._cache self2 !! MarketData.historical_key "BTC" 30
    = Some (MarketData.CHistory Samples.btc_history).
Proof. repeat split; by vm_compute. Qed.

(** ** MACD (src/market_data.py) *)

Section Macd.
Import MarketData.



End Macd.



(** ** Closing a position (src/trading_engine.py) *)

Section Close.
Import Database TradingEngine.

Lemma position_pnl_sign (s : side) (current_price entry_price quantity : Qc) :
  position_pnl s current_price entry_price quantity
  = sign s * (current_price - entry_price) * quantity.
Proof. destruct s; simpl; ring. Qed.


Lemma find_position_first (coin : string) (before after : list pos_view) (v : pos_view) :
  Forall (fun u => p_coin (pos u) <> coin) before ->
  p_coin (pos v) = coin ->
  find_position coin (before ++ v :: after) = Some v.
Proof.
  intros Hb Hv. induction Hb as [|u before Hu Hb IH]; simpl.
  - by rewrite bool_decide_eq_true_2.
  - by rewrite bool_decide_eq_false_2.
Qed.

Lemma find_position_Some (coin : string) (ps : list pos_view) (v : pos_view) :
  find_position coin ps = Some v ->
  exists before after,
    ps = before ++ v :: after /\
    Forall (fun u => p_coin (pos u) <> coin) before /\ p_coin (pos v) = coin.
Proof.
  induction ps as [|u ps IH]; simpl; [done|].
  case_bool_decide as Hu.
  - intros [= ->]. exists [], ps. by repeat split.
  - intros H. destruct (IH H) as (before & after & -> & Hb & Hv).
    exists (u :: before), after. repeat split; [|done]. by constructor.
Qed.

(** What [_execute_close] does once it has picked a position. *)
Lemma execute_close_found (model_id : Z) (coin : string) (d : decision)
    (ms : gmap string market_entry) (pf : portfolio) (w : world) (v : pos_view)
    (e : market_entry) :
  find_position coin (positions pf) = Some v ->
  ms !! coin = Some e ->
  let s := p_side (pos v) in
  let q := p_quantity (pos v) in
  let pnl_ := position_pnl s (ms_price e) (p_avg_price (pos v)) q in
  _execute_close model_id coin d ms pf w
  = (Ok (R_close coin q (ms_price e) pnl_),
     {| w_db := add_trade (close_position (w_db w) model_id coin s) model_id coin
                  "close_position" q (ms_price e) (p_leverage (pos v)) s pnl_;
        w_trace := w_trace w ++
          [Ev_close_position model_id coin s;
           Ev_add_trade {| t_model_id := model_id; t_coin := coin;
                           t_signal := "close_position"; t_quantity := q;
                           t_price := ms_price e; t_leverage := p_leverage (pos v);
                           t_side := s; t_pnl := pnl_ |}] |}).
Proof.
  intros Hf He. unfold _execute_close. rewrite Hf, He. simpl.
  unfold mbind, M_bind, db_close_position, db_add_trade, mret, M_ret. simpl.
  by rewrite <- app_assoc.
Qed.

Lemma close_position_keeps (db : Db) (model_id : Z) (coin : string) (s : side)
    (r : position) :
  r ∈ portfolios (close_position db model_id coin s) <->
  r ∈ portfolios db /\ same_key model_id coin s r = false.
Proof. unfold close_position; simpl. rewrite list_elem_of_filter. tauto. Qed.

Lemma same_key_false (model_id : Z) (coin : string) (s : side) (r : position) :
  same_key model_id coin s r = false <->
  p_model_id r <> model_id \/ p_coin r <> coin \/ p_side r <> s.
Proof.
  unfold same_key. rewrite !andb_false_iff, !bool_decide_eq_false. tauto.
Qed.

End Close.

(** C10.  [_execute_close] takes the first position of the snapshot whose
    coin matches, whatever its side.  It deletes the stored row with that
    position's side, records a [close_position] trade whose pnl is
    sign(side) * (price - avg_price) * quantity for that side, and leaves
    every other stored row in place: when the model holds a long and a short
    position in the coin, the one listed first is closed and the other one
    stays open. *)
Theorem C10_close_takes_first_match (model_id : Z) (coin : string)
    (d : TradingEngine.decision) (ms : gmap string TradingEngine.market_entry)
    (pf : Database.portfolio) (w : TradingEngine.world)
    (before after : list Database.pos_view) (v : Database.pos_view)
    (e : TradingEngine.market_entry) :
  Database.positions pf = before ++ v :: after ->
  Forall (fun u => Database.p_coin (Database.pos u) <> coin) before ->
  Database.p_coin (Database.pos v) = coin ->
  ms !! coin = Some e ->
  let s := Database.p_side (Database.pos v) in
  let q := Database.p_quantity (Database.pos v) in
  let pnl_ := sign s * (TradingEngine.ms_price e - Database.p_avg_price (Database.pos v)) * q in
  let closing := {| Database.t_model_id := model_id; Database.t_coin := coin;
                    Database.t_signal := "close_position"; Database.t_quantity := q;
                    Database.t_price := TradingEngine.ms_price e;
                    Database.t_leverage := Database.p_leverage (Database.pos v);
                    Database.t_side := s; Database.t_pnl := pnl_ |} in
  exists w',
    TradingEngine._execute_close model_id coin d ms pf w
      = (Ok (TradingEngine.R_close coin q (TradingEngine.ms_price e) pnl_), w') /\
    TradingEngine.find_position coin (Database.positions pf) = Some v /\
    Database.trades (TradingEngine.w_db w')
      = Database.trades (TradingEngine.w_db w) ++ [closing] /\
    (forall r, r ∈ Database.portfolios (TradingEngine.w_db w') ->
       ~ (Database.p_model_id r = model_id /\ Database.p_coin r = coin /\
          Database.p_side r = s)) /\
    (forall r, r ∈ Database.portfolios (TradingEngine.w_db w) ->
       Database.p_model_id r <> model_id \/ Database.p_coin r <> coin \/
       Database.p_side r <> s ->
       r ∈ Database.portfolios (TradingEngine.w_db w')) /\
    (forall u, u ∈ after ->
       Database.p_coin (Database.pos u) = coin ->
       Database.p_side (Database.pos u) <> s ->
       Database.pos u ∈ Database.portfolios (TradingEngine.w_db w) ->
       Database.pos u ∈ Database.portfolios (TradingEngine.w_db w')).
Proof.
  intros Hpos Hbefore Hv He s q pnl_ closing.
  assert (Hf : TradingEngine.find_position coin (Database.positions pf) = Some v).
  { rewrite Hpos. by apply find_position_first. }
  pose proof (execute_close_found model_id coin d ms pf w v e Hf He) as Hx.
  simpl in Hx. rewrite position_pnl_sign in Hx. fold s q pnl_ in Hx.
  eexists. split; [exact Hx|]. split; [done|]. simpl.
  split; [done|]. split; [|split].
  - intros r Hr (H1 & H2 & H3). apply close_position_keeps in Hr as [_ Hr].
    apply same_key_false in Hr. tauto.
  - intros r Hr Hk. apply close_position_keeps. split; [done|]. by apply same_key_false.
  - intros u _ Hu Hs Hr. apply close_position_keeps. split; [done|].
    apply same_key_false. tauto.
Qed.

(** ** Opening a position, and the round trip (src/trading_engine.py) *)

Section RoundTrip.
Import Database TradingEngine.

Variable model_id : Z.
Variable parse_float : string -> option Qc.
Variable parse_int : string -> option Z.

Lemma validate_quantity_Ok (q : Qc) :
  _validate_quantity q = Ok () <-> 0 < q /\ q <= Qc_of_Z 1000.
Proof.
  unfold _validate_quantity.
  destruct (Qc_leb q 0) eqn:E1.
  { apply Qc_leb_true in E1. split; [done|]. intros [H _]. Qc_contra. }
  apply Qc_leb_false in E1.
  destruct (Qc_ltb (Qc_of_Z 1000) q) eqn:E2.
  { apply Qc_ltb_true in E2. split; [done|]. intros [_ H]. Qc_contra. }
  apply Qc_ltb_false in E2. done.
Qed.

Lemma validate_leverage_Ok (lev : Z) :
  _validate_leverage lev = Ok () <-> (1 <= lev <= 20)%Z.
Proof.
  unfold _validate_leverage, config.MIN_LEVERAGE, config.MAX_LEVERAGE.
  repeat case_bool_decide; simpl; split; try done; lia.
Qed.

(** The entry checks pass exactly when the fields convert, the coin has a
    price, quantity and leverage are within their bounds and the margin is
    covered by the cash of the snapshot. *)
Lemma entry_checks_Some (coin : string) (d : decision) (ms : gmap string market_entry)
    (pf : portfolio) (q : Qc) (lev : Z) (price : Qc) :
  entry_checks parse_float parse_int coin d ms pf = Ok (Some (q, lev, price)) <->
  to_float parse_float (default (PInt 0) (d_quantity d)) = Ok q /\
  to_int parse_int (default (PInt 1) (d_leverage d)) = Ok lev /\
  (exists e, ms !! coin = Some e /\ ms_price e = price) /\
  (0 < q /\ q <= Qc_of_Z 1000) /\
  (1 <= lev <= 20)%Z /\
  q * price / Qc_of_Z lev <= cash pf.
Proof.
  unfold entry_checks.
  destruct (to_float _ _) as [q'|]; simpl; [|split; [done|by intros [? _]]].
  destruct (to_int _ _) as [lev'|]; simpl; [|split; [done|by intros (_ & ? & _)]].
  destruct (ms !! coin) as [e|]; simpl;
    [|split; [done|by intros (_ & _ & (? & ? & _) & _)]].
  rewrite <- validate_quantity_Ok, <- validate_leverage_Ok.
  destruct (_validate_quantity q') as [[]|] eqn:Eq; simpl.
  2:{ split; [done|]. intros ([= <-] & _ & _ & Hq & _). by rewrite Eq in Hq. }
  destruct (_validate_leverage lev') as [[]|] eqn:El; simpl.
  2:{ split; [done|]. intros (_ & [= <-] & _ & _ & Hl & _). by rewrite El in Hl. }
  destruct (Qc_ltb (cash pf) (q' * ms_price e / Qc_of_Z lev')) eqn:Ec.
  - apply Qc_ltb_true in Ec. split; [done|].
    intros ([= <-] & [= <-] & (e' & [= <-] & <-) & _ & _ & Hc). Qc_contra.
  - apply Qc_ltb_false in Ec. split.
    + intros [= <- <- <-]. repeat split; eauto.
    + intros ([= <-] & [= <-] & (e' & [= <-] & <-) & _). done.
Qed.

(** What [_execute_buy] and [_execute_sell] do once the checks pass. *)
Lemma execute_enter_ok (signal : string) (s : side) (coin : string) (d : decision)
    (ms : gmap string market_entry) (pf : portfolio) (w : world)
    (q : Qc) (lev : Z) (price : Qc) :
  entry_checks parse_float parse_int coin d ms pf = Ok (Some (q, lev, price)) ->
  let sl := d_stop_loss d in
  let tp := py_or (d_profit_target d) (d_take_profit d) in
  execute_enter model_id parse_float parse_int signal s coin d ms pf w
  = (Ok (R_enter coin signal q price lev sl tp),
     {| w_db := add_trade (update_position (w_db w) model_id coin q price lev s sl tp)
                  model_id coin signal q price lev s 0;
        w_trace := w_trace w ++
          [Ev_update_position model_id coin q price lev s sl tp;
           Ev_add_trade {| t_model_id := model_id; t_coin := coin; t_signal := signal;
                           t_quantity := q; t_price := price; t_leverage := lev;
                           t_side := s; t_pnl := 0 |}] |}).
Proof.
  intros Hc. unfold execute_enter. rewrite Hc. simpl.
  unfold mbind, M_bind, db_update_position, db_add_trade, mret, M_ret. simpl.
  by rewrite <- app_assoc.
Qed.






End RoundTrip.


(** ** Executing a decision map (src/trading_engine.py) *)

Section Decisions.
Import Database TradingEngine.

Variable model_id : Z.
Variable parse_float : string -> option Qc.
Variable parse_int : string -> option Z.

Local Abbreviation loop := (_execute_decisions_loop model_id parse_float parse_int).
Local Abbreviation step signal coin item ms pf :=
  (try_except (dispatch model_id parse_float parse_int signal coin item ms pf)
     (fun e => mret (R_error coin (Exception_str e)))).


Lemma quantity_fails_rejected (coin : string) (d : decision)
    (ms : gmap string market_entry) (pf : portfolio) (x : Qc * Z * Qc) :
  quantity_fails parse_float d -> entry_checks parse_float parse_int coin d ms pf <> Ok (Some x).
Proof.
  unfold quantity_fails. intros Hq Hc. destruct x as [[q lev] price].
  apply entry_checks_Some in Hc as (Hf & _ & _ & [H1 H2] & _).
  rewrite Hf in Hq. destruct Hq; Qc_contra.
Qed.

(** A rejected entry yields an error result and leaves the world alone. *)
Lemma enter_rejected (signal : string) (s : side) (coin : string) (d : decision)
    (ms : gmap string market_entry) (pf : portfolio) :
  (forall x, entry_checks parse_float parse_int coin d ms pf <> Ok (Some x)) ->
  exists msg, forall w,
    try_except (execute_enter model_id parse_float parse_int signal s coin d ms pf)
      (fun e => mret (R_error coin (Exception_str e))) w
    = (Ok (R_error coin msg), w).
Proof.
  intros Hrej. unfold try_except, execute_enter.
  destruct (entry_checks parse_float parse_int coin d ms pf) as [[x|]|[]] eqn:E;
    try (by eexists).
  by destruct (Hrej x).
Qed.

Lemma step_bad_quantity (signal coin : string) (d : decision)
    (ms : gmap string market_entry) (pf : portfolio) :
  signal = "buy_to_enter"%string \/ signal = "sell_to_enter"%string ->
  quantity_fails parse_float d ->
  exists msg, forall w, step signal coin (Dict d) ms pf w = (Ok (R_error coin msg), w).
Proof.
  intros [-> | ->] Hq; simpl; apply enter_rejected; intros x;
    by apply quantity_fails_rejected.
Qed.

(** One decision never raises out of the [try], and only adds trades. *)
Lemma step_total (signal coin : string) (item : decision_item)
    (ms : gmap string market_entry) (pf : portfolio) (w : world) :
  exists r w1 ts,
    step signal coin item ms pf w = (Ok r, w1) /\
    trades (w_db w1) = trades (w_db w) ++ ts.
Proof.
  unfold try_except.
  destruct (dispatch model_id parse_float parse_int signal coin item ms pf w)
    as [[r|e] w1] eqn:E.
  2:{ unfold dispatch, execute_enter, _execute_buy, _execute_sell, execute_enter,
        _execute_close in E.
      unfold mbind, M_bind, mret, M_ret, lift, db_update_position, db_add_trade,
        db_close_position in E.
      repeat case_match; simplify_eq; simpl;
        eexists _, _, []; by rewrite app_nil_r. }
  exists r, w1.
  unfold dispatch, execute_enter, _execute_buy, _execute_sell, execute_enter,
    _execute_close in E.
  unfold mbind, M_bind, mret, M_ret, lift, db_update_position, db_add_trade,
    db_close_position in E.
  repeat case_match; simplify_eq; simpl;
    first [ by eexists [] ; rewrite app_nil_r | by eexists [_] ].
Qed.

Lemma step_valid_buy (coin : string) (d : decision) (ms : gmap string market_entry)
    (pf : portfolio) (w : world) (q : Qc) (lev : Z) (price : Qc) :
  entry_checks parse_float parse_int coin d ms pf = Ok (Some (q, lev, price)) ->
  exists w1,
    step "buy_to_enter"%string coin (Dict d) ms pf w
    = (Ok (R_enter coin "buy_to_enter" q price lev (d_stop_loss d)
             (py_or (d_profit_target d) (d_take_profit d))), w1) /\
    trades (w_db w1)
    = trades (w_db w) ++
      [{| t_model_id := model_id; t_coin := coin; t_signal := "buy_to_enter";
          t_quantity := q; t_price := price; t_leverage := lev; t_side := long;
          t_pnl := 0 |}].
Proof.
  intros Hc. unfold try_except. simpl. unfold _execute_buy.
  rewrite (execute_enter_ok model_id parse_float parse_int _ _ _ _ _ _ w q lev price Hc).
  eexists. split; [done|]. done.
Qed.

(** The loop over a concatenation is the loop over the first part followed
    by the loop over the second part. *)
Lemma loop_app (ds1 ds2 : decisions) (ms : gmap string market_entry) (pf : portfolio)
    (acc : list exec_result) (w : world) :
  loop (ds1 ++ ds2) ms pf acc w
  = match loop ds1 ms pf acc w with
    | (Ok rs1, w1) => loop ds2 ms pf rs1 w1
    | (Raise e, w1) => (Raise e, w1)
    end.
Proof.
  revert acc w. induction ds1 as [|[coin item] ds1 IH]; intros acc w; [done|].
  cbn [app _execute_decisions_loop]. case_bool_decide; [|apply IH].
  unfold mbind at 1 3, M_bind at 1 3, lift.
  destruct (signal_of item) as [signal|]; [|done].
  destruct (step_total signal coin item ms pf w) as (r & w1 & ts & Hs & _).
  unfold mbind, M_bind. rewrite Hs. apply IH.
Qed.

(** The results found so far are a prefix of the final results. *)
Lemma loop_acc (ds : decisions) (ms : gmap string market_entry) (pf : portfolio)
    (acc : list exec_result) (w : world) :
  loop ds ms pf acc w
  = match loop ds ms pf [] w with
    | (Ok rs, w') => (Ok (acc ++ rs), w')
    | (Raise e, w') => (Raise e, w')
    end.
Proof.
  revert acc w. induction ds as [|[coin item] ds IH]; intros acc w.
  - simpl. unfold mret, M_ret. by rewrite app_nil_r.
  - cbn [_execute_decisions_loop]. case_bool_decide; [|apply IH].
    unfold mbind at 1 3, M_bind at 1 3, lift.
    destruct (signal_of item) as [signal|]; [|done].
    destruct (step_total signal coin item ms pf w) as (r & w1 & ts & Hs & _).
    unfold mbind, M_bind. rewrite Hs.
    rewrite (IH (acc ++ [r])), (IH ([] ++ [r])).
    destruct (loop ds ms pf [] w1) as [[rs|e] w']; [|done].
    by rewrite <- app_assoc.
Qed.

Lemma loop_total (ds : decisions) (ms : gmap string market_entry) (pf : portfolio)
    (acc : list exec_result) (w : world) :
  signals_ok ds -> exists rs w', loop ds ms pf acc w = (Ok rs, w').
Proof.
  intros Hok. revert acc w. induction Hok as [|[coin item] ds Hci Hok IH]; intros acc w.
  - by eexists _, _.
  - cbn [_execute_decisions_loop]. case_bool_decide as Hin; [|apply IH].
    destruct (Hci Hin) as [signal Hs]. simpl in Hs.
    unfold mbind, M_bind, lift. rewrite Hs.
    destruct (step_total signal coin item ms pf w) as (r & w1 & ts & Hst & _).
    rewrite Hst. apply IH.
Qed.

(** A run that returns has only added trades, and has executed every valid
    [buy_to_enter] of the map. *)
Lemma loop_executes_buys (ds : decisions) (ms : gmap string market_entry) (pf : portfolio)
    (acc : list exec_result) (w : world) (rs : list exec_result) (w' : world) :
  loop ds ms pf acc w = (Ok rs, w') ->
  exists ts,
    trades (w_db w') = trades (w_db w) ++ ts /\
    forall coin d q lev price,
      (coin, Dict d) ∈ ds ->
      coin ∈ config.SUPPORTED_COINS ->
      signal_of (Dict d) = Ok "buy_to_enter"%string ->
      entry_checks parse_float parse_int coin d ms pf = Ok (Some (q, lev, price)) ->
      {| t_model_id := model_id; t_coin := coin; t_signal := "buy_to_enter";
         t_quantity := q; t_price := price; t_leverage := lev; t_side := long;
         t_pnl := 0 |} ∈ ts /\
      R_enter coin "buy_to_enter" q price lev (d_stop_loss d)
        (py_or (d_profit_target d) (d_take_profit d)) ∈ rs.
Proof.
  revert acc w. induction ds as [|[coin item] ds IH]; intros acc w Hrun.
  - exists []. split; [simpl in Hrun; injection Hrun as _ <-; by rewrite app_nil_r|].
    intros ? ? ? ? ? Hin. by apply elem_of_nil in Hin.
  - cbn [_execute_decisions_loop] in Hrun. case_bool_decide as Hsup.
    2:{ destruct (IH acc w Hrun) as (ts & Hts & Hbuys). exists ts. split; [done|].
        intros c d q lev price Hin Hc. apply elem_of_cons in Hin as [[= -> <-]|Hin]; [done|].
        by apply Hbuys. }
    unfold mbind at 1, M_bind at 1, lift in Hrun.
    destruct (signal_of item) as [signal|] eqn:Hsig; [|done].
    destruct (step_total signal coin item ms pf w) as (r & w1 & ts1 & Hs & Hts1).
    unfold mbind, M_bind in Hrun. rewrite Hs in Hrun.
    destruct (IH _ _ Hrun) as (ts & Hts & Hbuys).
    exists (ts1 ++ ts). split; [by rewrite Hts, Hts1, app_assoc|].
    intros c d q lev price Hin Hc Hsg Hchk.
    apply elem_of_cons in Hin as [[= -> <-]|Hin].
    + rewrite Hsg in Hsig. injection Hsig as <-.
      destruct (step_valid_buy coin d ms pf w q lev price Hchk) as (w1' & Hs' & Ht').
      rewrite Hs in Hs'. injection Hs' as -> <-.
      rewrite Hts1 in Ht'. apply app_inv_head in Ht'. subst ts1.
      split; [apply elem_of_app; left; apply list_elem_of_here|].
      rewrite loop_acc in Hrun. destruct (loop ds ms pf [] w1) as [[rs'|] w2]; [|done].
      injection Hrun as <- _. rewrite !elem_of_app. left. right. apply list_elem_of_here.
    + destruct (Hbuys c d q lev price Hin Hc Hsg Hchk) as [H1 H2].
      split; [|done]. apply elem_of_app. by right.
Qed.

End Decisions.

(** C5.  Let the decision map hold, for a supported coin X, a
    [buy_to_enter] or [sell_to_enter] decision whose quantity does not pass
    (not a number, not strictly positive, or above 1000), between the
    decisions [ds1] before it and [ds2] after it.  Then X contributes one
    error result and no change of the world, and the other decisions are
    processed exactly as in the map without X: the results are those of
    [ds1], the error for X, and those of [ds2] run from the world that [ds1]
    left.  When the signals of the other decisions can be read the run
    returns; and whenever it returns, every valid [buy_to_enter] of another
    coin in the map has produced its result and appended its trade. *)
Theorem C5_validation_failure_is_isolated (model_id : Z)
    (parse_float : string -> option Qc) (parse_int : string -> option Z)
    (ds1 ds2 : TradingEngine.decisions) (X : string) (d : TradingEngine.decision)
    (ms : gmap string TradingEngine.market_entry) (pf : Database.portfolio)
    (w : TradingEngine.world) :
  X ∈ config.SUPPORTED_COINS ->
  TradingEngine.signal_of (TradingEngine.Dict d) = Ok "buy_to_enter"%string \/
  TradingEngine.signal_of (TradingEngine.Dict d) = Ok "sell_to_enter"%string ->
  quantity_fails parse_float d ->
  let run := TradingEngine._execute_decisions model_id parse_float parse_int in
  (exists msg,
     run (ds1 ++ (X, TradingEngine.Dict d) :: ds2) ms pf w
     = match run ds1 ms pf w with
       | (Ok rs1, w1) =>
           match run ds2 ms pf w1 with
           | (Ok rs2, w2) => (Ok (rs1 ++ TradingEngine.R_error X msg :: rs2), w2)
           | (Raise e, w2) => (Raise e, w2)
           end
       | (Raise e, w1) => (Raise e, w1)
       end) /\
  run (ds1 ++ ds2) ms pf w
  = match run ds1 ms pf w with
    | (Ok rs1, w1) =>
        match run ds2 ms pf w1 with
        | (Ok rs2, w2) => (Ok (rs1 ++ rs2), w2)
        | (Raise e, w2) => (Raise e, w2)
        end
    | (Raise e, w1) => (Raise e, w1)
    end /\
  (signals_ok (ds1 ++ ds2) ->
   exists rs w', run (ds1 ++ (X, TradingEngine.Dict d) :: ds2) ms pf w = (Ok rs, w')) /\
  (forall rs w',
     run (ds1 ++ (X, TradingEngine.Dict d) :: ds2) ms pf w = (Ok rs, w') ->
     exists ts,
       Database.trades (TradingEngine.w_db w')
         = Database.trades (TradingEngine.w_db w) ++ ts /\
       forall Y dY q lev price,
         (Y, TradingEngine.Dict dY) ∈ ds1 ++ ds2 ->
         Y ∈ config.SUPPORTED_COINS ->
         TradingEngine.signal_of (TradingEngine.Dict dY) = Ok "buy_to_enter"%string ->
         TradingEngine.entry_checks parse_float parse_int Y dY ms pf
           = Ok (Some (q, lev, price)) ->
         {| Database.t_model_id := model_id; Database.t_coin := Y;
            Database.t_signal := "buy_to_enter"; Database.t_quantity := q;
            Database.t_price := price; Database.t_leverage := lev;
            Database.t_side := Database.long; Database.t_pnl := 0 |} ∈ ts /\
         TradingEngine.R_enter Y "buy_to_enter" q price lev (TradingEngine.d_stop_loss dY)
           (py_or (TradingEngine.d_profit_target dY) (TradingEngine.d_take_profit dY)) ∈ rs).
Proof.
  intros HX Hsig Hq run.
  assert (Hstep : exists msg, forall acc w0,
            TradingEngine._execute_decisions_loop model_id parse_float parse_int
              ((X, TradingEngine.Dict d) :: ds2) ms pf acc w0
            = TradingEngine._execute_decisions_loop model_id parse_float parse_int
                ds2 ms pf (acc ++ [TradingEngine.R_error X msg]) w0).
  { assert (Hm : exists msg, forall w0, exists signal,
              TradingEngine.signal_of (TradingEngine.Dict d) = Ok signal /\
              TradingEngine.try_except
                (TradingEngine.dispatch model_id parse_float parse_int signal X
                   (TradingEngine.Dict d) ms pf)
                (fun e => mret (TradingEngine.R_error X (TradingEngine.Exception_str e))) w0
              = (Ok (TradingEngine.R_error X msg), w0)).
    { destruct Hsig as [Hs|Hs].
      - destruct (step_bad_quantity model_id parse_float parse_int "buy_to_enter" X d ms pf)
          as [msg Hmsg]; [by left|done|].
        exists msg. intros w0. exists "buy_to_enter"%string. by split.
      - destruct (step_bad_quantity model_id parse_float parse_int "sell_to_enter" X d ms pf)
          as [msg Hmsg]; [by right|done|].
        exists msg. intros w0. exists "sell_to_enter"%string. by split. }
    destruct Hm as [msg Hm]. exists msg. intros acc w0.
    destruct (Hm w0) as (signal & Hs & Hst).
    cbn [TradingEngine._execute_decisions_loop]. rewrite bool_decide_eq_true_2 by done.
    unfold mbind at 1, TradingEngine.M_bind at 1, TradingEngine.lift. rewrite Hs.
    unfold mbind, TradingEngine.M_bind. by rewrite Hst. }
  destruct Hstep as [msg Hstep].
  assert (Hrun : run (ds1 ++ (X, TradingEngine.Dict d) :: ds2) ms pf w
     = match run ds1 ms pf w with
       | (Ok rs1, w1) =>
           match run ds2 ms pf w1 with
           | (Ok rs2, w2) => (Ok (rs1 ++ TradingEngine.R_error X msg :: rs2), w2)
           | (Raise e, w2) => (Raise e, w2)
           end
       | (Raise e, w1) => (Raise e, w1)
       end).
  { unfold run, TradingEngine._execute_decisions. rewrite loop_app.
    destruct (TradingEngine._execute_decisions_loop _ _ _ ds1 ms pf [] w) as [[rs1|e] w1];
      [|done].
    rewrite Hstep, loop_acc.
    destruct (TradingEngine._execute_decisions_loop _ _ _ ds2 ms pf [] w1) as [[rs2|e] w2];
      [|done].
    by rewrite <- app_assoc. }
  assert (Hwithout : run (ds1 ++ ds2) ms pf w
     = match run ds1 ms pf w with
       | (Ok rs1, w1) =>
           match run ds2 ms pf w1 with
           | (Ok rs2, w2) => (Ok (rs1 ++ rs2), w2)
           | (Raise e, w2) => (Raise e, w2)
           end
       | (Raise e, w1) => (Raise e, w1)
       end).
  { unfold run, TradingEngine._execute_decisions. rewrite loop_app.
    destruct (TradingEngine._execute_decisions_loop _ _ _ ds1 ms pf [] w) as [[rs1|e] w1];
      [|done].
    by rewrite loop_acc. }
  split; [by exists msg|]. split; [exact Hwithout|]. split.
  - intros Hok. rewrite Hrun.
    apply Forall_app in Hok as [Hok1 Hok2].
    destruct (loop_total model_id parse_float parse_int ds1 ms pf [] w Hok1)
      as (rs1 & w1 & H1).
    destruct (loop_total model_id parse_float parse_int ds2 ms pf [] w1 Hok2)
      as (rs2 & w2 & H2).
    unfold run, TradingEngine._execute_decisions. rewrite H1, H2. by eexists _, _.
  - intros rs w' Hret. rewrite Hrun in Hret.
    destruct (run ds1 ms pf w) as [[rs1|e] w1] eqn:E1; [|done].
    destruct (run ds2 ms pf w1) as [[rs2|e] w2] eqn:E2; [|done].
    injection Hret as <- <-.
    destruct (loop_executes_buys model_id parse_float parse_int ds1 ms pf [] w rs1 w1 E1)
      as (ts1 & Ht1 & Hb1).
    destruct (loop_executes_buys model_id parse_float parse_int ds2 ms pf [] w1 rs2 w2 E2)
      as (ts2 & Ht2 & Hb2).
    exists (ts1 ++ ts2). split; [by rewrite Ht2, Ht1, app_assoc|].
    intros Y dY q lev price Hin HY Hs Hc. apply elem_of_app in Hin as [Hin|Hin].
    + destruct (Hb1 Y dY q lev price Hin HY Hs Hc) as [Ha Hb].
      split; apply elem_of_app; by left.
    + destruct (Hb2 Y dY q lev price Hin HY Hs Hc) as [Ha Hb].
      split; [apply elem_of_app; by right|].
      apply elem_of_app. right. by apply list_elem_of_further.
Qed.

(** ** The protective exits and the order of the cycle (src/trading_engine.py) *)

Section Exits.
Import Database TradingEngine.

Variable model_id : Z.


Lemma exit_trigger_triggered (s : side) (cp : Qc) (stop_loss take_profit : option Qc) :
  triggered s cp stop_loss take_profit <->
  exists why, exit_trigger s cp stop_loss take_profit = Some why.
Proof.
  unfold triggered, exit_trigger, truthy. split.
  - intros [(sl & -> & Hsl & Hdir)|(tp & -> & Htp & Hdir)].
    + apply Qc_eqb_false in Hsl. rewrite Hsl. simpl.
      destruct s; apply Qc_leb_true in Hdir; rewrite Hdir; eauto.
    + apply Qc_eqb_false in Htp. rewrite Htp. simpl.
      destruct s; apply Qc_leb_true in Hdir; rewrite Hdir; repeat case_match; eauto.
  - intros [why H].
    destruct s, stop_loss as [sl|], take_profit as [tp|]; simpl in H;
      repeat (match type of H with
              | context [Qc_eqb ?a ?b] => destruct (Qc_eqb a b) eqn:?
              | context [Qc_leb ?a ?b] => destruct (Qc_leb a b) eqn:?
              end; simpl in H);
      try done;
      first [ left; eexists; split; [reflexivity|]; split;
                [by apply Qc_eqb_false|by apply Qc_leb_true]
            | right; eexists; split; [reflexivity|]; split;
                [by apply Qc_eqb_false|by apply Qc_leb_true] ].
Qed.

Lemma check_loop_spec (ps : list pos_view) (prices : gmap string Qc)
    (acc : list exec_result) (w : world) :
  exists rs w' evs ts,
    _check_stop_loss_take_profit_loop model_id ps prices acc w = (Ok rs, w') /\
    w_trace w' = w_trace w ++ evs /\
    (Ev_make_decision ∉ evs) /\
    trades (w_db w') = trades (w_db w) ++ ts /\
    models (w_db w') = models (w_db w) /\
    (forall r, r ∈ portfolios (w_db w') -> r ∈ portfolios (w_db w)) /\
    forall v cp,
      v ∈ ps ->
      prices !! p_coin (pos v) = Some cp ->
      triggered (p_side (pos v)) cp (p_stop_loss (pos v)) (p_take_profit (pos v)) ->
      (exists pre post,
         evs = pre ++ (Ev_close_position model_id (p_coin (pos v)) (p_side (pos v))
                       :: Ev_add_trade (auto_close_trade model_id (pos v) cp) :: post)) /\
      auto_close_trade model_id (pos v) cp ∈ ts /\
      (forall r, r ∈ portfolios (w_db w') ->
         ~ (p_model_id r = model_id /\ p_coin r = p_coin (pos v) /\
            p_side r = p_side (pos v))).
Proof.
  revert acc w. induction ps as [|v0 ps IH]; intros acc w.
  - exists acc, w, [], []. simpl. rewrite !app_nil_r.
    split; [done|]. split; [done|]. split; [apply not_elem_of_nil|].
    do 3 (split; [done|]). intros v cp Hv. by apply elem_of_nil in Hv.
  - cbn [_check_stop_loss_take_profit_loop].
    destruct (prices !! p_coin (pos v0)) as [cp0|] eqn:Ep.
    2:{ destruct (IH acc w) as (rs & w' & evs & ts & Hrun & Htr & Hnd & Hts & Hm & Hsub & Hall).
        exists rs, w', evs, ts. do 6 (split; [done|]).
        intros v cp Hv Hp Ht. apply elem_of_cons in Hv as [->|Hv]; [congruence|].
        by apply Hall. }
    destruct (exit_trigger (p_side (pos v0)) cp0 (p_stop_loss (pos v0))
                (p_take_profit (pos v0))) as [why|] eqn:Et.
    2:{ destruct (IH acc w) as (rs & w' & evs & ts & Hrun & Htr & Hnd & Hts & Hm & Hsub & Hall).
        exists rs, w', evs, ts. do 6 (split; [done|]).
        intros v cp Hv Hp Ht. apply elem_of_cons in Hv as [->|Hv]; [|by apply Hall].
        apply exit_trigger_triggered in Ht as [why' Ht]. congruence. }
    unfold mbind, M_bind, db_close_position, db_add_trade. simpl.
    rewrite position_pnl_sign. fold (auto_close_trade model_id (pos v0) cp0).
    match goal with
    | |- context [_check_stop_loss_take_profit_loop _ _ _ ?acc1 ?w1] =>
        destruct (IH acc1 w1)
          as (rs & w' & evs & ts & Hrun & Htr & Hnd & Hts & Hm & Hsub & Hall)
    end.
    simpl in Htr, Hts, Hm, Hsub.
    exists rs, w',
      (Ev_close_position model_id (p_coin (pos v0)) (p_side (pos v0))
       :: Ev_add_trade (auto_close_trade model_id (pos v0) cp0) :: evs),
      (auto_close_trade model_id (pos v0) cp0 :: ts).
    split; [exact Hrun|].
    split; [by rewrite Htr, <- !app_assoc|].
    split; [rewrite !not_elem_of_cons; by repeat split|].
    split; [by rewrite Hts, <- app_assoc|].
    split; [done|].
    assert (Hsub' : forall r, r ∈ portfolios (w_db w') ->
              r ∈ portfolios (w_db w) /\
              same_key model_id (p_coin (pos v0)) (p_side (pos v0)) r = false).
    { intros r Hr. apply Hsub in Hr. by apply list_elem_of_filter in Hr as [? ?]. }
    split; [intros r Hr; by apply Hsub'|].
    intros v cp Hv Hp Ht. apply elem_of_cons in Hv as [->|Hv].
    + rewrite Ep in Hp. injection Hp as <-. split; [by exists [], evs|].
      split; [apply list_elem_of_here|].
      intros r Hr (H1 & H2 & H3). apply Hsub' in Hr as [_ Hr].
      apply same_key_false in Hr. tauto.
    + destruct (Hall v cp Hv Hp Ht) as ((pre & post & ->) & Hin & Hno).
      split; [|split; [by apply list_elem_of_further|done]].
      by exists (Ev_close_position model_id (p_coin (pos v0)) (p_side (pos v0))
                 :: Ev_add_trade (auto_close_trade model_id (pos v0) cp0) :: pre), post.
Qed.


End Exits.

Section Cycle.
Import Database TradingEngine.

Variable model_id : Z.
Variable parse_float : string -> option Qc.
Variable parse_int : string -> option Z.
Variable fetch_prices : list string -> result (gmap string MarketData.quote).
Variable fetch_indicators : string -> result (option MarketData.indicator_set).
Variable make_decision :
  gmap string market_entry -> portfolio -> account_info -> decisions * string.
Variable json_dumps : decisions -> string.
Variable get_current_beijing_time_str : string.

Lemma grows_refl (w : world) : grows w w.
Proof. split; exists []; by rewrite app_nil_r. Qed.

Lemma grows_trans (w1 w2 w3 : world) : grows w1 w2 -> grows w2 w3 -> grows w1 w3.
Proof.
  intros [[e1 H1] [t1 H1']] [[e2 H2] [t2 H2']]. split.
  - exists (e1 ++ e2). by rewrite H2, H1, app_assoc.
  - exists (t1 ++ t2). by rewrite H2', H1', app_assoc.
Qed.

Lemma growing_bind {A B : Type} (m : M A) (f : A -> M B) :
  growing m -> (forall a, growing (f a)) -> growing (m ≫= f).
Proof.
  intros Hm Hf w. unfold mbind, M_bind. specialize (Hm w).
  destruct (m w) as [[a|e] w1]; simpl in *; [|done].
  eapply grows_trans; [exact Hm|apply Hf].
Qed.

Lemma growing_ret {A : Type} (a : A) : growing (mret a : M A).
Proof. intros w. apply grows_refl. Qed.

Lemma growing_lift {A : Type} (r : result A) : growing (lift r).
Proof. intros w. apply grows_refl. Qed.

Lemma growing_step (signal coin : string) (item : decision_item)
    (ms : gmap string market_entry) (pf : portfolio) :
  growing (try_except (dispatch model_id parse_float parse_int signal coin item ms pf)
             (fun e => mret (R_error coin (Exception_str e)))).
Proof.
  intros w. unfold try_except, dispatch, _execute_buy, _execute_sell, execute_enter,
    _execute_close.
  unfold mbind, M_bind, mret, M_ret, lift, db_update_position, db_add_trade,
    db_close_position.
  repeat case_match; simplify_eq; simpl;
    first [ apply grows_refl
          | split; simpl; eexists; rewrite <- ?app_assoc; reflexivity ].
Qed.

Lemma growing_loop (ds : decisions) (ms : gmap string market_entry) (pf : portfolio)
    (acc : list exec_result) :
  growing (_execute_decisions_loop model_id parse_float parse_int ds ms pf acc).
Proof.
  revert acc. induction ds as [|[coin item] ds IH]; intros acc.
  - apply growing_ret.
  - cbn [_execute_decisions_loop]. case_bool_decide; [|apply IH].
    apply growing_bind; [apply growing_lift|]. intros signal.
    apply growing_bind; [apply growing_step|]. intros r. apply IH.
Qed.

Lemma growing_add_conversation (user_prompt ai_response cot_trace : string) :
  growing (db_add_conversation model_id user_prompt ai_response cot_trace).
Proof. intros w. split; simpl; [by eexists|]. exists []. by rewrite app_nil_r. Qed.

Lemma growing_get_portfolio (prices : gmap string Qc) :
  growing (db_get_portfolio model_id prices).
Proof. intros w. apply grows_refl. Qed.

Lemma growing_record_account_value (total cash_ pv : Qc) :
  growing (db_record_account_value model_id total cash_ pv).
Proof. intros w. split; simpl; [by eexists|]. exists []. by rewrite app_nil_r. Qed.

(** The cycle up to the decision step: the exits are evaluated from the
    first snapshot, then the provider is called unless building the account
    information fails, and from there on the world only grows. *)
Lemma cycle_shape (w : world) (ms : gmap string market_entry) (pf : portfolio) :
  _get_market_state fetch_prices fetch_indicators = Ok ms ->
  get_portfolio (w_db w) model_id (Some (ms_price <$> ms)) = Ok pf ->
  let w' := (execute_trading_cycle model_id parse_float parse_int fetch_prices
               fetch_indicators make_decision json_dumps get_current_beijing_time_str w).2 in
  let w1 := (_check_stop_loss_take_profit model_id pf (ms_price <$> ms) w).2 in
  exists rest,
    w_trace w' = w_trace w1 ++ rest /\
    (rest = [] \/ exists rest', rest = Ev_make_decision :: rest') /\
    (forall m, get_model (w_db w) model_id = Some m -> m_initial_capital m <> 0 ->
       exists rest', rest = Ev_make_decision :: rest') /\
    (exists ts, trades (w_db w') = trades (w_db w1) ++ ts).
Proof.
  intros Hms Hpf w' w1.
  assert (Hw' : w' = (trading_cycle_body model_id parse_float parse_int fetch_prices
                        fetch_indicators make_decision json_dumps
                        get_current_beijing_time_str w).2).
  { unfold w', execute_trading_cycle. by destruct (trading_cycle_body _ _ _ _ _ _ _ _ w)
      as [[r|e] wf]. }
  rewrite Hw'. clear Hw' w'. unfold w1, _check_stop_loss_take_profit. clear w1.
  destruct (check_loop_spec model_id (positions pf) (ms_price <$> ms) [] w)
    as (rs & w2 & evs & ts & Hrun & Htr & Hnd & Hts & Hm & Hsub & Hall).
  rewrite Hrun. simpl.
  destruct (trading_cycle_body _ _ _ _ _ _ _ _ w) as [res wf] eqn:E. simpl.
  unfold trading_cycle_body in E.
  unfold mbind at 1, M_bind at 1, lift in E. rewrite Hms in E.
  unfold mbind at 1, M_bind at 1, db_get_portfolio in E. rewrite Hpf in E.
  unfold mbind at 1, M_bind at 1, _check_stop_loss_take_profit in E. rewrite Hrun in E.
  unfold mbind at 1, M_bind at 1, _build_account_info in E.
  unfold get_model in *. rewrite Hm in E.
  destruct (head (filter (fun m => m_id m = model_id) (models (w_db w)))) as [m|] eqn:Em.
  2:{ injection E as _ <-. exists []. rewrite app_nil_r. split; [done|]. split; [by left|].
      split; [done|]. exists []. by rewrite app_nil_r. }
  destruct (Qc_eqb (m_initial_capital m) 0) eqn:E0.
  { injection E as _ <-. exists []. rewrite app_nil_r. split; [done|]. split; [by left|].
    split; [|exists []; by rewrite app_nil_r].
    intros m' [= <-] Hne. by apply Qc_eqb_true in E0. }
  unfold mbind at 1, M_bind at 1, call_make_decision in E.
  destruct (make_decision _ _ _) as [ds raw].
  match type of E with
  | (mbind ?f ?m) ?w3 = _ =>
      assert (Hg : grows w3 ((mbind f m) w3).2);
      [ apply growing_bind;
        [ destruct ds; [apply growing_ret|apply growing_add_conversation] | ];
        intros _; apply growing_bind; [apply growing_loop|];
        intros ?; apply growing_bind; [apply growing_get_portfolio|];
        intros ?; apply growing_bind; [apply growing_record_account_value|];
        intros ?; apply growing_ret
      | rewrite E in Hg ]
  end.
  simpl in Hg. destruct Hg as [[evs' He] [ts' Ht]]. simpl in He, Ht.
  exists (Ev_make_decision :: evs').
  split; [by rewrite He, <- app_assoc|].
  split; [right; by eexists|].
  split; [intros; by eexists|by exists ts'].
Qed.

End Cycle.

(** C2.  In a cycle whose market state and first snapshot are obtained, take
    any position of the snapshot that has a current price and whose
    stop-loss or take-profit level is set and reached (long: price <=
    stop_loss or price >= take_profit; short: the mirror image).  Then the
    exits stage deletes the stored position and records an [auto_close] trade
    with pnl = sign(side) * (price - avg_price) * quantity, the two calls
    follow one another in the trace, the exits stage contains no call of the
    decision provider, and the provider call, when the cycle gets to it, is
    the next event after that stage.  The provider is called whenever the
    model's initial capital is not 0. *)
Theorem C2_auto_close_before_decision (model_id : Z)
    (parse_float : string -> option Qc) (parse_int : string -> option Z)
    (fetch_prices : list string -> result (gmap string MarketData.quote))
    (fetch_indicators : string -> result (option MarketData.indicator_set))
    (make_decision : gmap string TradingEngine.market_entry -> Database.portfolio ->
                     TradingEngine.account_info -> TradingEngine.decisions * string)
    (json_dumps : TradingEngine.decisions -> string) (now : string)
    (w : TradingEngine.world) (ms : gmap string TradingEngine.market_entry)
    (pf : Database.portfolio) (v : Database.pos_view) (cp : Qc) :
  TradingEngine._get_market_state fetch_prices fetch_indicators = Ok ms ->
  Database.get_portfolio (TradingEngine.w_db w) model_id
    (Some (TradingEngine.ms_price <$> ms)) = Ok pf ->
  v ∈ Database.positions pf ->
  (TradingEngine.ms_price <$> ms) !! Database.p_coin (Database.pos v) = Some cp ->
  triggered (Database.p_side (Database.pos v)) cp
    (Database.p_stop_loss (Database.pos v)) (Database.p_take_profit (Database.pos v)) ->
  let w' := (TradingEngine.execute_trading_cycle model_id parse_float parse_int fetch_prices
               fetch_indicators make_decision json_dumps now w).2 in
  let w1 := (TradingEngine._check_stop_loss_take_profit model_id pf
               (TradingEngine.ms_price <$> ms) w).2 in
  let t := auto_close_trade model_id (Database.pos v) cp in
  let closing := TradingEngine.Ev_close_position model_id
                   (Database.p_coin (Database.pos v)) (Database.p_side (Database.pos v)) in
  exists pre post rest,
    TradingEngine.w_trace w1
      = TradingEngine.w_trace w ++ pre ++ (closing :: TradingEngine.Ev_add_trade t :: post) /\
    TradingEngine.w_trace w' = TradingEngine.w_trace w1 ++ rest /\
    (TradingEngine.Ev_make_decision ∉ pre ++ (closing :: TradingEngine.Ev_add_trade t :: post)) /\
    (rest = [] \/ exists rest', rest = TradingEngine.Ev_make_decision :: rest') /\
    (forall m, Database.get_model (TradingEngine.w_db w) model_id = Some m ->
       Database.m_initial_capital m <> 0 ->
       exists rest', rest = TradingEngine.Ev_make_decision :: rest') /\
    (forall r, r ∈ Database.portfolios (TradingEngine.w_db w1) ->
       ~ (Database.p_model_id r = model_id /\
          Database.p_coin r = Database.p_coin (Database.pos v) /\
          Database.p_side r = Database.p_side (Database.pos v))) /\
    t ∈ Database.trades (TradingEngine.w_db w1) /\
    t ∈ Database.trades (TradingEngine.w_db w') /\
    Database.t_signal t = "auto_close"%string /\
    Database.t_pnl t
      = sign (Database.p_side (Database.pos v))
        * (cp - Database.p_avg_price (Database.pos v))
        * Database.p_quantity (Database.pos v).
Proof.
  intros Hms Hpf Hv Hcp Htrig w' w1 t closing.
  destruct (cycle_shape model_id parse_float parse_int fetch_prices fetch_indicators
              make_decision json_dumps now w ms pf Hms Hpf)
    as (rest & Hrest & Hshape & Hcalled & ts' & Hts').
  fold w' w1 in Hrest, Hts'.
  destruct (check_loop_spec model_id (Database.positions pf)
              (TradingEngine.ms_price <$> ms) [] w)
    as (rs & w2 & evs & ts & Hrun & Htr & Hnd & Hts & Hm & Hsub & Hall).
  assert (Hw1 : w1 = w2).
  { unfold w1, TradingEngine._check_stop_loss_take_profit. by rewrite Hrun. }
  rewrite <- Hw1 in *.
  destruct (Hall v cp Hv Hcp Htrig) as ((pre & post & Hevs) & Hin & Hno).
  exists pre, post, rest. subst t closing.
  split; [by rewrite Htr, Hevs|].
  split; [done|].
  split; [by rewrite <- Hevs|].
  split; [done|]. split; [done|]. split; [done|].
  split; [rewrite Hts; apply elem_of_app; by right|].
  split; [rewrite Hts', Hts; apply elem_of_app; left; apply elem_of_app; by right|].
  done.
Qed.

(** ** The theorems at concrete inputs *)



(** C7 at a concrete input: a series that only rises has no drawdown. *)
Lemma C7_witness :
  RiskManager.max_drawdown_of [Qc_of_Z 100; Qc_of_Z 120; Qc_of_Z 120; Qc_of_Z 150] = 0.
Proof.
  destruct C7_max_drawdown as (_ & Hmono & _).
  apply Hmono. by vm_compute.
Defined.

(** C10 at a concrete input: model 1 holds a short and a long position in
    BTC, the short one listed first; closing BTC at 41000 closes the short
    one and leaves the long one. *)
Lemma C10_witness :
  let w := Samples.world_with [Samples.btc_short; Samples.btc_long] in
  let pf := Samples.snapshot (TradingEngine.w_db w) (Samples.market 41000) in
  exists w',
    (TradingEngine._execute_close 1 "BTC" Samples.close (Samples.market 41000) pf w).2 = w' /\
    Database.portfolios (TradingEngine.w_db w') = [Samples.btc_long] /\
    Database.t_side <$> last (Database.trades (TradingEngine.w_db w')) = Some Database.short.
Proof.
  intros w pf.
  destruct (C10_close_takes_first_match 1 "BTC" Samples.close (Samples.market 41000) pf w
              [] (List.tl (Database.positions pf)) (Samples.first_position pf)
              {| TradingEngine.ms_price := Qc_of_Z 41000; TradingEngine.ms_change_24h := 0;
                 TradingEngine.ms_indicators := None |})
    as (w' & Hrun & _ & Htrades & _).
  - by vm_compute.
  - constructor.
  - by vm_compute.
  - by vm_compute.
  - exists w'. rewrite Hrun. split; [done|]. split.
    + apply (f_equal snd) in Hrun. simpl in Hrun. rewrite <- Hrun. by vm_compute.
    + rewrite Htrades, last_snoc. reflexivity.
Defined.

(** C2 at the input of the specification: a long position with a stop-loss
    at 42000 and a price of 41000.  The position is closed and the trade is
    recorded with the pnl of the fall from 45000 to 41000 on a tenth of a
    coin before the provider is called. *)
Lemma C2_witness :
  let w := Samples.world_with [Samples.btc_long] in
  let cycle := TradingEngine.execute_trading_cycle 1 Samples.no_float Samples.no_int
                 (Samples.fetcher_at 41000) Samples.no_indicators (Samples.provider [])
                 Samples.dumps "12:00" in
  let t := auto_close_trade 1 Samples.btc_long (Qc_of_Z 41000) in
  triggered Database.long (Qc_of_Z 41000) (Some (Qc_of_Z 42000)) None /\
  Database.t_pnl t = Qc_of_Z (-400) /\
  exists pre mid rest,
    TradingEngine.w_trace (cycle w).2
      = pre ++ TradingEngine.Ev_add_trade t :: mid
            ++ TradingEngine.Ev_make_decision :: rest /\
    (TradingEngine.Ev_make_decision ∉ pre ++ mid).
Proof.
  intros w cycle t.
  assert (Htrig : triggered Database.long (Qc_of_Z 41000) (Some (Qc_of_Z 42000)) None).
  { left. exists (Qc_of_Z 42000). split; [done|]. split; [done|]. by vm_compute. }
  split; [exact Htrig|]. split; [by apply Qc_is_canon|].
  destruct (C2_auto_close_before_decision 1 Samples.no_float Samples.no_int
              (Samples.fetcher_at 41000) Samples.no_indicators (Samples.provider [])
              Samples.dumps "12:00" w (Samples.market 41000)
              (Samples.snapshot (TradingEngine.w_db w) (Samples.market 41000))
              (Samples.first_position
                 (Samples.snapshot (TradingEngine.w_db w) (Samples.market 41000)))
              (Qc_of_Z 41000))
    as (pre & post & rest & Hw1 & Hw' & Hno & _ & Hcalled & _).
  - by vm_compute.
  - by vm_compute.
  - vm_compute. apply list_elem_of_here.
  - by vm_compute.
  - exact Htrig.
  - destruct (Hcalled Samples.model1) as [rest' ->]; [by vm_compute|done|].
    exists (pre ++ [TradingEngine.Ev_close_position 1 "BTC" Database.long]), post, rest'.
    split.
    + etrans; [exact Hw'|]. etrans; [apply (f_equal (fun l => l ++ _)), Hw1|].
      simpl. by rewrite <- !app_assoc.
    + intros Hin. apply Hno. rewrite !elem_of_app in Hin. rewrite elem_of_app.
      destruct Hin as [[Hin|Hin]|Hin].
      * by left.
      * apply list_elem_of_singleton in Hin. done.
      * right. by do 2 apply list_elem_of_further.
Defined.

(** C5 at the input of the specification: BTC asks for 2000 coins, ETH for
    half a coin.  BTC gets an error, ETH is bought and its trade recorded. *)
Lemma C5_witness :
  let w := Samples.world_with [] in
  let ms := Samples.market 50000 in
  let pf := Samples.snapshot (TradingEngine.w_db w) ms in
  let ds := [("BTC"%string, TradingEngine.Dict Samples.too_much);
             ("ETH"%string, TradingEngine.Dict Samples.half)] in
  quantity_fails Samples.no_float Samples.too_much /\
  exists msg rs w',
    TradingEngine._execute_decisions 1 Samples.no_float Samples.no_int ds ms pf w
      = (Ok (TradingEngine.R_error "BTC" msg :: rs), w') /\
    {| Database.t_model_id := 1; Database.t_coin := "ETH";
       Database.t_signal := "buy_to_enter"; Database.t_quantity := Q2Qc (1 # 2);
       Database.t_price := Qc_of_Z 2000; Database.t_leverage := 2;
       Database.t_side := Database.long; Database.t_pnl := 0 |}
      ∈ Database.trades (TradingEngine.w_db w').
Proof.
  intros w ms pf ds.
  assert (Hq : quantity_fails Samples.no_float Samples.too_much).
  { right. by vm_compute. }
  split; [exact Hq|].
  destruct (C5_validation_failure_is_isolated 1 Samples.no_float Samples.no_int
              [] [("ETH"%string, TradingEngine.Dict Samples.half)] "BTC" Samples.too_much
              ms pf w) as ([msg Hrun] & _ & Htotal & Hbuys).
  - unfold config.SUPPORTED_COINS. apply list_elem_of_here.
  - by left.
  - exact Hq.
  - destruct Htotal as (rs & w' & Hret).
    { repeat constructor. intros _. by eexists. }
    destruct (Hbuys rs w' Hret) as (ts & Hts & Hall).
    destruct (Hall "ETH"%string Samples.half (Q2Qc (1 # 2)) 2%Z (Qc_of_Z 2000))
      as [Hin _].
    + apply list_elem_of_here.
    + unfold config.SUPPORTED_COINS. apply list_elem_of_further, list_elem_of_here.
    + reflexivity.
    + by vm_compute.
    + pose proof (eq_trans (eq_sym Hrun) Hret) as Heq. cbv zeta in Heq, Hret.
      change (TradingEngine._execute_decisions 1 Samples.no_float Samples.no_int [] ms pf w)
        with (Ok (@nil TradingEngine.exec_result), w) in Heq.
      cbv iota beta in Heq. injection Heq as Hrs _. simpl in Hrs.
      eexists msg, _, w'. split.
      * etrans; [exact Hret|]. by rewrite <- Hrs.
      * rewrite Hts. apply elem_of_app. by right.
Defined.


(* ===================================================================== *)
(** * Further properties of the ledger (src/database.py) *)
(* ===================================================================== *)

Section LedgerMore.
Import Database.

Lemma same_key_row_key (model_id : Z) (coin : string) (s : side) (r : position) :
  same_key model_id coin s r = true <-> row_key r = (model_id, coin, s).
Proof.
  unfold same_key, row_key. rewrite !andb_true_iff, !bool_decide_eq_true. split.
  - by intros [[-> ->] ->].
  - by intros [= -> -> ->].
Qed.

Lemma same_key_new (new r : position) :
  same_key (p_model_id new) (p_coin new) (p_side new) r = true <-> row_key r = row_key new.
Proof. apply same_key_row_key. Qed.

(** An upsert keeps the list of keys, or adds the new key at its end. *)
Lemma upsert_keys (new : position) (rows : list position) :
  map row_key (upsert new rows)
  = if bool_decide (row_key new ∈ map row_key rows)
    then map row_key rows
    else map row_key rows ++ [row_key new].
Proof.
  induction rows as [|r rows IH].
  - cbn [upsert map]. destruct (bool_decide_reflect (row_key new ∈ [])) as [H|H];
      [by apply elem_of_nil in H|done].
  - cbn [upsert map]. destruct (same_key _ _ _ r) eqn:E; cbn [map].
    + apply same_key_new in E.
      destruct (bool_decide_reflect (row_key new ∈ row_key r :: map row_key rows)) as [H|H];
        [by rewrite E|].
      destruct H. rewrite E. apply list_elem_of_here.
    + assert (Hne : row_key r <> row_key new).
      { intros Hk. apply same_key_new in Hk. congruence. }
      rewrite IH.
      destruct (bool_decide_reflect (row_key new ∈ map row_key rows)) as [Hin|Hin];
        destruct (bool_decide_reflect (row_key new ∈ row_key r :: map row_key rows))
          as [Hin'|Hin']; try done.
      * destruct Hin'. by apply list_elem_of_further.
      * apply elem_of_cons in Hin' as [H|H]; [congruence|done].
Qed.

Lemma upsert_new_elem (new : position) (rows : list position) : new ∈ upsert new rows.
Proof.
  induction rows as [|r rows IH]; simpl; [apply list_elem_of_here|].
  destruct (same_key _ _ _ r); [apply list_elem_of_here|by apply list_elem_of_further].
Qed.

Lemma upsert_other (new r : position) (rows : list position) :
  row_key r <> row_key new -> r ∈ upsert new rows <-> r ∈ rows.
Proof.
  intros Hne. induction rows as [|x rows IH]; simpl.
  - rewrite list_elem_of_singleton. split; [by intros ->|].
    intros H. by apply elem_of_nil in H.
  - destruct (same_key _ _ _ x) eqn:E.
    + apply same_key_new in E. rewrite !elem_of_cons. split.
      * intros [->|H]; [done|by right].
      * intros [->|H]; [congruence|by right].
    + rewrite !elem_of_cons, IH. done.
Qed.

Lemma unique_key_eq (rows : list position) (x y : position) :
  keys_unique rows -> x ∈ rows -> y ∈ rows -> row_key x = row_key y -> x = y.
Proof.
  unfold keys_unique. induction rows as [|r rows IH]; simpl; intros Hnd Hx Hy Hk.
  - by apply elem_of_nil in Hx.
  - apply NoDup_cons in Hnd as [Hr Hnd].
    apply elem_of_cons in Hx as [->|Hx]; apply elem_of_cons in Hy as [->|Hy].
    + done.
    + exfalso. apply Hr. rewrite Hk. by apply list_elem_of_fmap_2.
    + exfalso. apply Hr. rewrite <- Hk. by apply list_elem_of_fmap_2.
    + by apply IH.
Qed.

Lemma upsert_unique (new : position) (rows : list position) :
  keys_unique rows -> keys_unique (upsert new rows).
Proof.
  unfold keys_unique. intros Hnd. rewrite upsert_keys. case_bool_decide as Hin; [done|].
  apply NoDup_app. split; [done|]. split; [|apply NoDup_singleton].
  intros k Hk Hk'. apply list_elem_of_singleton in Hk'. by subst k.
Qed.

Lemma filter_all {A : Type} (P : A -> Prop) `{!forall x, Decision (P x)} (l : list A) :
  Forall P l -> filter P l = l.
Proof.
  induction 1 as [|x l Hx Hl IH]; [done|].
  rewrite filter_cons_True by done. by rewrite IH.
Qed.

Lemma filter_filter_same {A : Type} (P : A -> Prop) `{!forall x, Decision (P x)}
    (l : list A) :
  filter P (filter P l) = filter P l.
Proof.
  apply filter_all, Forall_forall. intros x Hx. by apply list_elem_of_filter in Hx as [? _].
Qed.

Lemma upsert_then_delete (new : position) (rows : list position) :
  filter (fun p => same_key (p_model_id new) (p_coin new) (p_side new) p = false)
    (upsert new rows)
  = filter (fun p => same_key (p_model_id new) (p_coin new) (p_side new) p = false) rows.
Proof.
  assert (Hnew : same_key (p_model_id new) (p_coin new) (p_side new) new = true)
    by (by apply same_key_new).
  induction rows as [|r rows IH]; simpl.
  - rewrite filter_cons_False; [done|]. by rewrite Hnew.
  - destruct (same_key _ _ _ r) eqn:E.
    + rewrite filter_cons_False by (by rewrite Hnew).
      rewrite filter_cons_False by (by rewrite E). done.
    + rewrite !filter_cons_True by done. by rewrite IH.
Qed.

End LedgerMore.

(** X1.  [update_position] on a table with unique keys keeps the keys
    unique; afterwards the only row under the key (model, coin, side) is the
    row just written, with the new quantity, price, leverage and levels
    (the former row is replaced, nothing is blended), and the rows under
    every other key are the same as before. *)
Theorem X1_update_position_replaces (db : Database.Db) (model_id : Z) (coin : string)
    (quantity avg_price : Qc) (leverage : Z) (s : Database.side)
    (stop_loss take_profit : option Qc) :
  keys_unique (Database.portfolios db) ->
  let new := {| Database.p_model_id := model_id; Database.p_coin := coin;
                Database.p_quantity := quantity; Database.p_avg_price := avg_price;
                Database.p_leverage := leverage; Database.p_side := s;
                Database.p_stop_loss := stop_loss;
                Database.p_take_profit := take_profit |} in
  let db' := Database.update_position db model_id coin quantity avg_price leverage s
               stop_loss take_profit in
  keys_unique (Database.portfolios db') /\
  new ∈ Database.portfolios db' /\
  (forall r, r ∈ Database.portfolios db' -> row_key r = (model_id, coin, s) -> r = new) /\
  (forall r, row_key r <> (model_id, coin, s) ->
     r ∈ Database.portfolios db' <-> r ∈ Database.portfolios db) /\
  Database.trades db' = Database.trades db /\
  Database.models db' = Database.models db.
Proof.
  intros Hu new db'. simpl.
  assert (Hu' : keys_unique (Database.upsert new (Database.portfolios db)))
    by (by apply upsert_unique).
  split; [exact Hu'|]. split; [apply upsert_new_elem|]. split; [|split; [|done]].
  - intros r Hr Hk. apply (unique_key_eq _ r new Hu' Hr); [apply upsert_new_elem|done].
  - intros r Hk. by apply upsert_other.
Qed.

Lemma X1_witness :
  let new := {| Database.p_model_id := 1; Database.p_coin := "BTC"%string;
                Database.p_quantity := Q2Qc (1 # 2); Database.p_avg_price := Qc_of_Z 50000;
                Database.p_leverage := 5; Database.p_side := Database.long;
                Database.p_stop_loss := None; Database.p_take_profit := None |} in
  let db' := Database.update_position (Samples.db_with [Samples.btc_short; Samples.btc_long])
               1 "BTC" (Q2Qc (1 # 2)) (Qc_of_Z 50000) 5 Database.long None None in
  keys_unique [Samples.btc_short; Samples.btc_long] /\
  keys_unique (Database.portfolios db') /\
  new ∈ Database.portfolios db' /\
  (Samples.btc_long ∉ Database.portfolios db').
Proof.
  intros new db'.
  assert (Hu : keys_unique [Samples.btc_short; Samples.btc_long]).
  { unfold keys_unique. simpl. apply NoDup_cons. split.
    - rewrite list_elem_of_singleton. discriminate.
    - apply NoDup_singleton. }
  split; [exact Hu|].
  destruct (X1_update_position_replaces
              (Samples.db_with [Samples.btc_short; Samples.btc_long])
              1 "BTC" (Q2Qc (1 # 2)) (Qc_of_Z 50000) 5 Database.long None None Hu)
    as (Hu' & Hin & Honly & _).
  split; [exact Hu'|]. split; [exact Hin|].
  intros Hold. specialize (Honly Samples.btc_long Hold eq_refl). discriminate Honly.
Defined.

(** X2.  [close_position] removes exactly the rows under the key (model,
    coin, side).  Closing a position that does not exist changes nothing,
    closing twice is closing once, and writing a position and then closing
    its key leaves the table as closing alone would. *)
Theorem X2_close_position (db : Database.Db) (model_id : Z) (coin : string)
    (s : Database.side) :
  (forall r, r ∈ Database.portfolios (Database.close_position db model_id coin s) <->
             r ∈ Database.portfolios db /\ row_key r <> (model_id, coin, s)) /\
  ((forall r, r ∈ Database.portfolios db -> row_key r <> (model_id, coin, s)) ->
   Database.portfolios (Database.close_position db model_id coin s)
   = Database.portfolios db) /\
  Database.close_position (Database.close_position db model_id coin s) model_id coin s
  = Database.close_position db model_id coin s /\
  (forall quantity avg_price leverage stop_loss take_profit,
     Database.portfolios
       (Database.close_position
          (Database.update_position db model_id coin quantity avg_price leverage s
             stop_loss take_profit) model_id coin s)
     = Database.portfolios (Database.close_position db model_id coin s)) /\
  Database.trades (Database.close_position db model_id coin s) = Database.trades db.
Proof.
  split; [|split; [|split; [|split]]].
  - intros r. rewrite close_position_keeps, same_key_false. unfold row_key. split.
    + intros [Hr Hk]. split; [done|]. intros [= H1 H2 H3]. tauto.
    + intros [Hr Hk]. split; [done|].
      destruct (decide (Database.p_model_id r = model_id)) as [H1|H1]; [|by left].
      destruct (decide (Database.p_coin r = coin)) as [H2|H2]; [|by right; left].
      destruct (decide (Database.p_side r = s)) as [H3|H3]; [|by right; right].
      exfalso. apply Hk. by rewrite H1, H2, H3.
  - intros Habsent. simpl. apply filter_all, Forall_forall. intros r Hr.
    destruct (Database.same_key model_id coin s r) eqn:E; [|done].
    apply same_key_row_key in E. by destruct (Habsent r Hr).
  - unfold Database.close_position. simpl. by rewrite filter_filter_same.
  - intros quantity avg_price leverage stop_loss take_profit. simpl.
    apply (upsert_then_delete
             {| Database.p_model_id := model_id; Database.p_coin := coin;
                Database.p_quantity := quantity; Database.p_avg_price := avg_price;
                Database.p_leverage := leverage; Database.p_side := s;
                Database.p_stop_loss := stop_loss;
                Database.p_take_profit := take_profit |}).
  - done.
Qed.

Section ValuationMore.
Import Database.


Lemma py_sum_head (x : Qc) (xs : list Qc) : py_sum (x :: xs) = x + py_sum xs.
Proof. unfold py_sum. simpl. rewrite fold_left_Qcplus. ring. Qed.


Lemma py_sum_zero (xs : list Qc) : Forall (fun x => x = 0) xs -> py_sum xs = 0.
Proof.
  induction 1 as [|x xs Hx Hxs IH]; [done|]. rewrite py_sum_head, Hx, IH. ring.
Qed.

End ValuationMore.



Section HistoryMore.
Import Database.





End HistoryMore.


Section DeleteMore.
Import Database.

Lemma filter_other {A : Type} (f : A -> Z) (id other : Z) (l : list A) :
  other <> id ->
  filter (fun x => f x = other) (filter (fun x => f x <> id) l)
  = filter (fun x => f x = other) l.
Proof.
  intros Hne. induction l as [|x l IH]; [done|].
  destruct (decide (f x = id)) as [E|E].
  - rewrite (filter_cons_False (fun x => f x <> id)) by (intros H; by apply H).
    rewrite (filter_cons_False (fun x => f x = other)) by congruence. done.
  - rewrite (filter_cons_True (fun x => f x <> id)) by done.
    destruct (decide (f x = other)) as [E'|E'].
    + rewrite !(filter_cons_True (fun x => f x = other)) by done. by rewrite IH.
    + rewrite !(filter_cons_False (fun x => f x = other)) by done. done.
Qed.

Lemma filter_self {A : Type} (f : A -> Z) (id : Z) (l : list A) :
  filter (fun x => f x = id) (filter (fun x => f x <> id) l) = [].
Proof.
  induction l as [|x l IH]; [done|].
  destruct (decide (f x = id)) as [E|E].
  - by rewrite (filter_cons_False (fun x => f x <> id)) by (intros H; by apply H).
  - rewrite (filter_cons_True (fun x => f x <> id)) by done.
    by rewrite (filter_cons_False (fun x => f x = id)) by done.
Qed.

Lemma open_positions_delete_other (db : Db) (id other : Z) :
  other <> id -> open_positions (delete_model db id) other = open_positions db other.
Proof.
  intros Hne. unfold open_positions, delete_model. simpl.
  induction (portfolios db) as [|p l IH]; [done|].
  destruct (decide (p_model_id p = id)) as [E|E].
  - rewrite (filter_cons_False (fun p => p_model_id p <> id)) by (intros H; by apply H).
    rewrite (filter_cons_False _ p l) by (intros [? _]; congruence). done.
  - rewrite (filter_cons_True (fun p => p_model_id p <> id)) by done.
    destruct (decide (p_model_id p = other /\ 0 < p_quantity p)) as [E'|E'].
    + rewrite !(filter_cons_True _ p) by done. by rewrite IH.
    + rewrite !(filter_cons_False _ p) by done. done.
Qed.

End DeleteMore.

(** X5.  After [delete_model] the model is gone: [get_model] finds nothing,
    [get_portfolio] raises for it, and no trade or snapshot of it is left.
    Every other model still has the same portfolio view, trades and
    history. *)
Theorem X5_delete_model (db : Database.Db) (model_id : Z) :
  let db' := Database.delete_model db model_id in
  Database.get_model db' model_id = None /\
  (forall prices, Database.get_portfolio db' model_id prices = Raise TypeError) /\
  (forall n, Database.get_trades db' model_id n = [] /\
             Database.get_account_value_history db' model_id n = []) /\
  (forall other prices n,
     other <> model_id ->
     Database.get_model db' other = Database.get_model db other /\
     Database.get_portfolio db' other prices = Database.get_portfolio db other prices /\
     Database.get_trades db' other n = Database.get_trades db other n /\
     Database.get_account_value_history db' other n
       = Database.get_account_value_history db other n).
Proof.
  intros db'.
  assert (Hgone : Database.get_model db' model_id = None).
  { unfold Database.get_model, db', Database.delete_model. simpl.
    by rewrite (filter_self Database.m_id). }
  split; [exact Hgone|]. split; [|split].
  - intros prices. unfold Database.get_portfolio. by rewrite Hgone.
  - intros n. unfold Database.get_trades, Database.get_account_value_history, db',
      Database.delete_model. simpl.
    rewrite (filter_self Database.t_model_id), (filter_self Database.a_model_id).
    simpl. split; apply take_nil.
  - intros other prices n Hne.
    assert (Hm : Database.get_model db' other = Database.get_model db other).
    { unfold Database.get_model, db', Database.delete_model. simpl.
      by rewrite (filter_other Database.m_id). }
    assert (Ht : filter (fun t => Database.t_model_id t = other) (Database.trades db')
                 = filter (fun t => Database.t_model_id t = other) (Database.trades db)).
    { unfold db', Database.delete_model. simpl. by apply (filter_other Database.t_model_id). }
    split; [exact Hm|]. split; [|split].
    + unfold Database.get_portfolio, Database.sum_pnl. rewrite Hm, Ht.
      unfold db'. by rewrite open_positions_delete_other.
    + unfold Database.get_trades. by rewrite Ht.
    + unfold Database.get_account_value_history, db', Database.delete_model. simpl.
      by rewrite (filter_other Database.a_model_id).
Qed.

(* ===================================================================== *)
(** * Further properties of the engine (src/trading_engine.py) *)
(* ===================================================================== *)

Section EntryAccounting.
Import Database TradingEngine.

Variable model_id : Z.
Variable parse_float : string -> option Qc.
Variable parse_int : string -> option Z.






End EntryAccounting.




Section DecisionsMore.
Import Database TradingEngine.

Variable model_id : Z.
Variable parse_float : string -> option Qc.
Variable parse_int : string -> option Z.

(** One decision names its own coin in the result; an error or a hold
    changes nothing, any other result comes with exactly one new trade. *)
Lemma step_shape (signal coin : string) (item : decision_item)
    (ms : gmap string market_entry) (pf : portfolio) (w : world)
    (r : exec_result) (w1 : world) :
  try_except (dispatch model_id parse_float parse_int signal coin item ms pf)
    (fun e => mret (R_error coin (Exception_str e))) w = (Ok r, w1) ->
  result_coin r = coin /\
  (if no_execution r then w1 = w
   else exists t, trades (w_db w1) = trades (w_db w) ++ [t]).
Proof.
  intros E.
  unfold try_except, dispatch, execute_enter, _execute_buy, _execute_sell, execute_enter,
    _execute_close in E.
  unfold mbind, M_bind, mret, M_ret, lift, db_update_position, db_add_trade,
    db_close_position in E.
  repeat case_match; simplify_eq; simpl; (split; [done|]); first [done | by eexists].
Qed.

Lemma loop_shape (ds : decisions) (ms : gmap string market_entry) (pf : portfolio)
    (acc : list exec_result) (w : world) (rs : list exec_result) (w' : world) :
  _execute_decisions_loop model_id parse_float parse_int ds ms pf acc w = (Ok rs, w') ->
  exists rs',
    rs = acc ++ rs' /\
    map result_coin rs' = filter (fun c => c ∈ config.SUPPORTED_COINS) (map fst ds) /\
    length (trades (w_db w'))
    = (length (trades (w_db w)) + length (filter (fun r => no_execution r = false) rs'))%nat /\
    (Forall (fun r => no_execution r = true) rs' -> w' = w).
Proof.
  revert acc w. induction ds as [|[coin item] ds IH]; intros acc w Hrun.
  - simpl in Hrun. injection Hrun as <- <-. exists []. rewrite app_nil_r.
    split; [done|]. split; [done|]. split; [simpl; lia|done].
  - cbn [_execute_decisions_loop] in Hrun. cbn [map fst].
    case_bool_decide as Hsup.
    2:{ rewrite filter_cons_False by done. by apply IH. }
    rewrite filter_cons_True by done.
    unfold mbind at 1, M_bind at 1, lift in Hrun.
    destruct (signal_of item) as [signal|] eqn:Hsig; [|done].
    unfold mbind, M_bind in Hrun.
    destruct (try_except _ _ w) as [[r|e] w1] eqn:Hs.
    2:{ destruct (step_total model_id parse_float parse_int signal coin item ms pf w)
          as (r' & w1' & ts & Hs' & _). congruence. }
    destruct (IH _ _ Hrun) as (rs' & -> & Hcoins & Hlen & Hsame).
    apply step_shape in Hs as [Hcoin Hw1].
    exists (r :: rs'). split; [by rewrite <- app_assoc|].
    split; [simpl; by rewrite Hcoin, Hcoins|].
    destruct (no_execution r) eqn:Hr.
    + subst w1. rewrite filter_cons_False by (rewrite Hr; done).
      split; [done|]. intros Hall. apply Hsame. by inversion Hall.
    + destruct Hw1 as [t Ht]. rewrite filter_cons_True by done.
      split; [rewrite Hlen, Ht, length_app; simpl; lia|].
      intros Hall. inversion Hall; congruence.
Qed.

End DecisionsMore.

(** X7.  When [_execute_decisions] returns, its results are one per entry of
    the decision map whose coin is supported, in the order of the map and
    each naming its coin; entries for other coins give no result.  Every
    result that is neither an error nor a hold has recorded exactly one
    trade, and if all results are errors or holds the database is as it
    was. *)
Theorem X7_one_result_per_supported_coin (model_id : Z)
    (parse_float : string -> option Qc) (parse_int : string -> option Z)
    (ds : TradingEngine.decisions) (ms : gmap string TradingEngine.market_entry)
    (pf : Database.portfolio) (w w' : TradingEngine.world)
    (rs : list TradingEngine.exec_result) :
  TradingEngine._execute_decisions model_id parse_float parse_int ds ms pf w = (Ok rs, w') ->
  map result_coin rs = filter (fun c => c ∈ config.SUPPORTED_COINS) (map fst ds) /\
  length (Database.trades (TradingEngine.w_db w'))
  = (length (Database.trades (TradingEngine.w_db w))
     + length (filter (fun r => no_execution r = false) rs))%nat /\
  (Forall (fun r => no_execution r = true) rs -> w' = w).
Proof.
  intros Hrun. apply loop_shape in Hrun as (rs' & -> & H). exact H.
Qed.

Lemma X7_witness :
  let w := Samples.world_with [] in
  let ms := Samples.market 50000 in
  let pf := Samples.snapshot (TradingEngine.w_db w) ms in
  let ds := [("BTC"%string, TradingEngine.Dict Samples.too_much);
             ("LTC"%string, TradingEngine.NotDict);
             ("ETH"%string, TradingEngine.Dict Samples.half)] in
  exists rs w',
    TradingEngine._execute_decisions 1 Samples.no_float Samples.no_int ds ms pf w
      = (Ok rs, w') /\
    map result_coin rs = ["BTC"; "ETH"]%string /\
    length (Database.trades (TradingEngine.w_db w')) = 1%nat.
Proof.
  intros w ms pf ds.
  destruct (TradingEngine._execute_decisions 1 Samples.no_float Samples.no_int ds ms pf w)
    as [[rs|e] w'] eqn:Hrun; [|by vm_compute in Hrun].
  exists rs, w'. split; [done|].
  destruct (X7_one_result_per_supported_coin 1 Samples.no_float Samples.no_int ds ms pf
              w w' rs Hrun) as (Hcoins & Hlen & _).
  split.
  - rewrite Hcoins. by vm_compute.
  - rewrite Hlen. vm_compute in Hrun. injection Hrun as <- _. by vm_compute.
Defined.

(** X8.  The signal of a decision is read outside the [try] block.  When
    the entry of a supported coin is not a dictionary, or its signal is not
    a string, [_execute_decisions] raises AttributeError at that entry: no
    result list is returned, the entries after it are not processed, and
    what the entries before it wrote to the database stays written. *)
Theorem X8_unreadable_signal_aborts (model_id : Z)
    (parse_float : string -> option Qc) (parse_int : string -> option Z)
    (ds1 ds2 : TradingEngine.decisions) (coin : string) (item : TradingEngine.decision_item)
    (ms : gmap string TradingEngine.market_entry) (pf : Database.portfolio)
    (w : TradingEngine.world) :
  signals_ok ds1 ->
  coin ∈ config.SUPPORTED_COINS ->
  (item = TradingEngine.NotDict \/
   exists d v, item = TradingEngine.Dict d /\ TradingEngine.d_signal d = Some v /\
               forall s, v <> TradingEngine.PStr s) ->
  exists rs1 w1,
    TradingEngine._execute_decisions model_id parse_float parse_int ds1 ms pf w
      = (Ok rs1, w1) /\
    TradingEngine._execute_decisions model_id parse_float parse_int
      (ds1 ++ (coin, item) :: ds2) ms pf w
      = (Raise AttributeError, w1).
Proof.
  intros Hok Hsup Hitem. unfold TradingEngine._execute_decisions.
  destruct (loop_total model_id parse_float parse_int ds1 ms pf [] w Hok)
    as (rs1 & w1 & Hrun1).
  exists rs1, w1. split; [done|].
  rewrite loop_app, Hrun1. cbn [TradingEngine._execute_decisions_loop].
  rewrite bool_decide_eq_true_2 by done.
  assert (Hsig : TradingEngine.signal_of item = Raise AttributeError).
  { destruct Hitem as [->|(d & v & -> & Hv & Hns)]; [done|].
    simpl. rewrite Hv. destruct v; try done. by destruct (Hns s). }
  unfold mbind at 1, TradingEngine.M_bind at 1, TradingEngine.lift. by rewrite Hsig.
Qed.

Lemma X8_witness :
  let w := Samples.world_with [] in
  let ms := Samples.market 50000 in
  let pf := Samples.snapshot (TradingEngine.w_db w) ms in
  exists rs1 w1,
    TradingEngine._execute_decisions 1 Samples.no_float Samples.no_int
      [("ETH"%string, TradingEngine.Dict Samples.half)] ms pf w = (Ok rs1, w1) /\
    TradingEngine._execute_decisions 1 Samples.no_float Samples.no_int
      [("ETH"%string, TradingEngine.Dict Samples.half);
       ("BTC"%string, TradingEngine.NotDict);
       ("SOL"%string, TradingEngine.Dict Samples.tenth)] ms pf w
      = (Raise AttributeError, w1) /\
    length (Database.trades (TradingEngine.w_db w1)) = 1%nat.
Proof.
  intros w ms pf.
  destruct (X8_unreadable_signal_aborts 1 Samples.no_float Samples.no_int
              [("ETH"%string, TradingEngine.Dict Samples.half)]
              [("SOL"%string, TradingEngine.Dict Samples.tenth)]
              "BTC" TradingEngine.NotDict ms pf w) as (rs1 & w1 & H1 & H2).
  - repeat constructor. intros _. by eexists.
  - unfold config.SUPPORTED_COINS. apply list_elem_of_here.
  - by left.
  - exists rs1, w1. split; [exact H1|]. split; [exact H2|].
    vm_compute in H1. injection H1 as _ <-. reflexivity.
Defined.


Section ExitsMore.
Import Database TradingEngine.

Variable model_id : Z.

Lemma check_loop_untouched (ps : list pos_view) (prices : gmap string Qc)
    (acc : list exec_result) (w : world) :
  (forall r,
     r ∈ portfolios (w_db w) ->
     (forall v cp, v ∈ ps -> p_coin (pos v) = p_coin r -> p_side (pos v) = p_side r ->
        prices !! p_coin r = Some cp ->
        exit_trigger (p_side r) cp (p_stop_loss (pos v)) (p_take_profit (pos v)) = None) ->
     r ∈ portfolios (w_db (_check_stop_loss_take_profit_loop model_id ps prices acc w).2)) /\
  ((forall v cp, v ∈ ps -> prices !! p_coin (pos v) = Some cp ->
      exit_trigger (p_side (pos v)) cp (p_stop_loss (pos v)) (p_take_profit (pos v)) = None) ->
   _check_stop_loss_take_profit_loop model_id ps prices acc w = (Ok acc, w)).
Proof.
  revert acc w. induction ps as [|v0 ps IH]; intros acc w; [done|].
  cbn [_check_stop_loss_take_profit_loop].
  destruct (prices !! p_coin (pos v0)) as [cp0|] eqn:Ep.
  2:{ destruct (IH acc w) as [IH1 IH2]. split.
      - intros r Hr Hno. apply IH1; [done|]. intros v cp Hv. apply Hno. by right.
      - intros Hno. apply IH2. intros v cp Hv. apply Hno. by right. }
  destruct (exit_trigger (p_side (pos v0)) cp0 (p_stop_loss (pos v0))
              (p_take_profit (pos v0))) as [why|] eqn:Et.
  2:{ destruct (IH acc w) as [IH1 IH2]. split.
      - intros r Hr Hno. apply IH1; [done|]. intros v cp Hv. apply Hno. by right.
      - intros Hno. apply IH2. intros v cp Hv. apply Hno. by right. }
  split.
  - intros r Hr Hno. unfold mbind, M_bind, db_close_position, db_add_trade. simpl.
    match goal with
    | |- context [_check_stop_loss_take_profit_loop _ _ _ ?acc1 ?w1] =>
        destruct (IH acc1 w1) as [IH1 _]
    end.
    apply IH1; simpl.
    + apply list_elem_of_filter. split; [|done].
      destruct (same_key model_id (p_coin (pos v0)) (p_side (pos v0)) r) eqn:Ek; [|done].
      unfold same_key in Ek. apply andb_prop in Ek as [Ek Hs]. apply andb_prop in Ek as [_ Hc].
      apply bool_decide_eq_true in Hc, Hs.
      assert (Hcp : prices !! p_coin r = Some cp0) by (by rewrite Hc).
      specialize (Hno v0 cp0 (list_elem_of_here _ _) (eq_sym Hc) (eq_sym Hs) Hcp).
      rewrite Hs in Hno. congruence.
    + intros v cp Hv. apply Hno. by right.
  - intros Hno. specialize (Hno v0 cp0 (list_elem_of_here _ _) Ep). congruence.
Qed.

End ExitsMore.

(** X9.  When no position of the snapshot that has a current price meets
    its stop-loss or take-profit test, [_check_stop_loss_take_profit]
    returns the empty list and calls nothing: the database and the trace of
    calls are unchanged. *)
Theorem X9_exits_without_trigger (model_id : Z) (pf : Database.portfolio)
    (prices : gmap string Qc) (w : TradingEngine.world) :
  (forall v cp,
     v ∈ Database.positions pf ->
     prices !! Database.p_coin (Database.pos v) = Some cp ->
     TradingEngine.exit_trigger (Database.p_side (Database.pos v)) cp
       (Database.p_stop_loss (Database.pos v)) (Database.p_take_profit (Database.pos v))
     = None) ->
  TradingEngine._check_stop_loss_take_profit model_id pf prices w = (Ok [], w).
Proof.
  intros Hno. unfold TradingEngine._check_stop_loss_take_profit.
  by apply check_loop_untouched.
Qed.

Lemma X9_witness :
  let w := Samples.world_with [Samples.btc_long] in
  let ms := Samples.market 50000 in
  let pf := Samples.snapshot (TradingEngine.w_db w) ms in
  TradingEngine._check_stop_loss_take_profit 1 pf (TradingEngine.ms_price <$> ms) w
  = (Ok [], w).
Proof.
  intros w ms pf. apply X9_exits_without_trigger.
  intros v cp Hv Hp.
  assert (Hpf : Database.positions pf
                = [{| Database.pos := Samples.btc_long;
                      Database.current_price := Some (Qc_of_Z 50000);
                      Database.pnl := (Qc_of_Z 50000 - Qc_of_Z 45000) * Q2Qc (1 # 10) |}]).
  { by vm_compute. }
  rewrite Hpf in Hv. apply list_elem_of_singleton in Hv. subst v.
  assert (Hcp : (TradingEngine.ms_price <$> ms) !! "BTC"%string = Some (Qc_of_Z 50000))
    by (by vm_compute).
  cbn [Database.pos Database.p_coin Samples.btc_long] in Hp. rewrite Hcp in Hp.
  injection Hp as <-. by vm_compute.
Defined.

(** X10.  The exits stage deletes only rows of triggered positions: a stored
    row stays in the portfolio table unless some position of the snapshot
    with the same coin and side has a current price and meets its stop-loss
    or take-profit test. *)
Theorem X10_exits_keep_untriggered_rows (model_id : Z) (pf : Database.portfolio)
    (prices : gmap string Qc) (w : TradingEngine.world) (r : Database.position) :
  r ∈ Database.portfolios (TradingEngine.w_db w) ->
  (forall v cp,
     v ∈ Database.positions pf ->
     Database.p_coin (Database.pos v) = Database.p_coin r ->
     Database.p_side (Database.pos v) = Database.p_side r ->
     prices !! Database.p_coin r = Some cp ->
     TradingEngine.exit_trigger (Database.p_side r) cp
       (Database.p_stop_loss (Database.pos v)) (Database.p_take_profit (Database.pos v))
     = None) ->
  r ∈ Database.portfolios
        (TradingEngine.w_db
           (TradingEngine._check_stop_loss_take_profit model_id pf prices w).2).
Proof.
  intros Hr Hno. unfold TradingEngine._check_stop_loss_take_profit.
  by apply check_loop_untouched.
Qed.

Lemma X10_witness :
  let w := Samples.world_with [Samples.btc_long; Samples.btc_short] in
  let ms := Samples.market 41000 in
  let pf := Samples.snapshot (TradingEngine.w_db w) ms in
  Database.portfolios
    (TradingEngine.w_db
       (TradingEngine._check_stop_loss_take_profit 1 pf (TradingEngine.ms_price <$> ms) w).2)
  = [Samples.btc_short] /\
  Samples.btc_short ∈
    Database.portfolios
      (TradingEngine.w_db
         (TradingEngine._check_stop_loss_take_profit 1 pf (TradingEngine.ms_price <$> ms) w).2).
Proof.
  intros w ms pf. split; [by vm_compute|].
  apply X10_exits_keep_untriggered_rows.
  - apply list_elem_of_further, list_elem_of_here.
  - intros v cp Hv Hc Hs Hp.
    assert (Hcp : (TradingEngine.ms_price <$> ms) !! "BTC"%string = Some (Qc_of_Z 41000))
      by (by vm_compute).
    cbn [Database.p_coin Samples.btc_short] in Hp. rewrite Hcp in Hp. injection Hp as <-.
    assert (Hps : map Database.pos (Database.positions pf)
                  = [Samples.btc_long; Samples.btc_short]) by (by vm_compute).
    apply (list_elem_of_fmap_2 Database.pos) in Hv.
    change (Database.pos <$> Database.positions pf)
      with (map Database.pos (Database.positions pf)) in Hv.
    rewrite Hps in Hv.
    apply elem_of_cons in Hv as [Hv|Hv].
    + rewrite Hv in Hs. done.
    + apply list_elem_of_singleton in Hv. rewrite Hv. by vm_compute.
Defined.


Section CycleMore.
Import Database TradingEngine.

Variable model_id : Z.
Variable parse_float : string -> option Qc.
Variable parse_int : string -> option Z.
Variable fetch_prices : list string -> result (gmap string MarketData.quote).
Variable fetch_indicators : string -> result (option MarketData.indicator_set).
Variable make_decision :
  gmap string market_entry -> portfolio -> account_info -> decisions * string.
Variable json_dumps : decisions -> string.
Variable get_current_beijing_time_str : string.

Lemma bind_inv {A B : Type} (m : M A) (f : A -> M B) (w : world) (r : result B)
    (w' : world) :
  (m ≫= f) w = (r, w') ->
  (exists a w1, m w = (Ok a, w1) /\ f a w1 = (r, w')) \/
  (exists e, m w = (Raise e, w') /\ r = Raise e).
Proof.
  unfold mbind, M_bind. destruct (m w) as [[a|e] w1]; intros H.
  - left. by exists a, w1.
  - right. exists e. by injection H as <- <-.
Qed.

Lemma keeps_bind {A B : Type} (m : M A) (f : A -> M B) :
  keeps_history m -> (forall a, keeps_history (f a)) -> keeps_history (m ≫= f).
Proof.
  intros Hm Hf w. unfold mbind, M_bind. specialize (Hm w).
  destruct (m w) as [[a|e] w1]; simpl in *; [|done].
  by rewrite Hf.
Qed.

Lemma keeps_ret {A : Type} (a : A) : keeps_history (mret a : M A).
Proof. done. Qed.

Lemma keeps_lift {A : Type} (r : result A) : keeps_history (lift r).
Proof. done. Qed.

Lemma keeps_step (signal coin : string) (item : decision_item)
    (ms : gmap string market_entry) (pf : portfolio) :
  keeps_history (try_except (dispatch model_id parse_float parse_int signal coin item ms pf)
                   (fun e => mret (R_error coin (Exception_str e)))).
Proof.
  intros w. unfold try_except, dispatch, _execute_buy, _execute_sell, execute_enter,
    _execute_close.
  unfold mbind, M_bind, mret, M_ret, lift, db_update_position, db_add_trade,
    db_close_position.
  repeat case_match; simplify_eq; done.
Qed.

Lemma keeps_loop (ds : decisions) (ms : gmap string market_entry) (pf : portfolio)
    (acc : list exec_result) :
  keeps_history (_execute_decisions_loop model_id parse_float parse_int ds ms pf acc).
Proof.
  revert acc. induction ds as [|[coin item] ds IH]; intros acc.
  - apply keeps_ret.
  - cbn [_execute_decisions_loop]. case_bool_decide; [|apply IH].
    apply keeps_bind; [apply keeps_lift|]. intros signal.
    apply keeps_bind; [apply keeps_step|]. intros r. apply IH.
Qed.

Lemma keeps_exits (ps : list pos_view) (prices : gmap string Qc) (acc : list exec_result) :
  keeps_history (_check_stop_loss_take_profit_loop model_id ps prices acc).
Proof.
  revert acc. induction ps as [|v ps IH]; intros acc; [apply keeps_ret|].
  cbn [_check_stop_loss_take_profit_loop].
  destruct (prices !! p_coin (pos v)); [|apply IH].
  destruct (exit_trigger _ _ _ _); [|apply IH].
  apply keeps_bind; [done|]. intros _. apply keeps_bind; [done|]. intros _. apply IH.
Qed.

Lemma keeps_build_account_info (pf : portfolio) :
  keeps_history (_build_account_info model_id get_current_beijing_time_str pf).
Proof. intros w. unfold _build_account_info. by repeat case_match. Qed.

Lemma get_portfolio_after_record (db : Db) (total cash_ pv : Qc)
    (prices : option (gmap string Qc)) :
  get_portfolio (record_account_value db model_id total cash_ pv) model_id prices
  = get_portfolio db model_id prices.
Proof. done. Qed.

(** The cycle records an account value exactly when it succeeds. *)
Lemma cycle_history (w : world) (res : cycle_result) (w' : world) :
  execute_trading_cycle model_id parse_float parse_int fetch_prices fetch_indicators
    make_decision json_dumps get_current_beijing_time_str w = (res, w') ->
  match res with
  | Success ds executions pf' =>
      account_values (w_db w') = account_values (w_db w) ++ [account_value_of model_id pf'] /\
      exists ms,
        _get_market_state fetch_prices fetch_indicators = Ok ms /\
        get_portfolio (w_db w') model_id (Some (ms_price <$> ms)) = Ok pf'
  | Failure e => account_values (w_db w') = account_values (w_db w)
  end.
Proof.
  unfold execute_trading_cycle.
  destruct (trading_cycle_body _ _ _ _ _ _ _ _ w) as [r wf] eqn:B.
  assert (Hgoal :
    match r with
    | Ok (Success ds executions pf') =>
        account_values (w_db wf) = account_values (w_db w) ++ [account_value_of model_id pf'] /\
        exists ms,
          _get_market_state fetch_prices fetch_indicators = Ok ms /\
          get_portfolio (w_db wf) model_id (Some (ms_price <$> ms)) = Ok pf'
    | Ok (Failure _) => False
    | Raise _ => account_values (w_db wf) = account_values (w_db w)
    end).
  2:{ destruct r as [[ds ex pf'|e]|e]; intros [= <- <-]; done. }
  unfold trading_cycle_body in B.
  apply bind_inv in B as [(ms & w1 & H1 & B)|(e & H1 & ->)].
  2:{ unfold lift in H1. by injection H1 as _ <-. }
  unfold lift in H1. injection H1 as Hms <-.
  apply bind_inv in B as [(pf & w2 & H2 & B)|(e & H2 & ->)].
  2:{ unfold db_get_portfolio in H2. by injection H2 as _ <-. }
  unfold db_get_portfolio in H2. injection H2 as Hpf <-.
  apply bind_inv in B as [(stop_results & w3 & H3 & B)|(e & H3 & ->)].
  2:{ pose proof (keeps_exits (positions pf) (ms_price <$> ms) [] w) as K.
      unfold _check_stop_loss_take_profit in H3. by rewrite H3 in K. }
  assert (K3 : account_values (w_db w3) = account_values (w_db w)).
  { pose proof (keeps_exits (positions pf) (ms_price <$> ms) [] w) as K.
    unfold _check_stop_loss_take_profit in H3. by rewrite H3 in K. }
  apply bind_inv in B as [(info & w4 & H4 & B)|(e & H4 & ->)].
  2:{ pose proof (keeps_build_account_info pf w3) as K. rewrite H4 in K.
      simpl in K. congruence. }
  assert (K4 : account_values (w_db w4) = account_values (w_db w)).
  { pose proof (keeps_build_account_info pf w3) as K. rewrite H4 in K.
    simpl in K. congruence. }
  apply bind_inv in B as [([ds raw] & w5 & H5 & B)|(e & H5 & ->)].
  2:{ unfold call_make_decision in H5. done. }
  assert (K5 : account_values (w_db w5) = account_values (w_db w)).
  { unfold call_make_decision in H5. injection H5 as _ <-. done. }
  apply bind_inv in B as [([] & w6 & H6 & B)|(e & H6 & ->)].
  2:{ destruct ds; [done|]. unfold db_add_conversation in H6. done. }
  assert (K6 : account_values (w_db w6) = account_values (w_db w)).
  { destruct ds; [by injection H6 as <-|].
    unfold db_add_conversation in H6. injection H6 as <-. done. }
  apply bind_inv in B as [(execution_results & w7 & H7 & B)|(e & H7 & ->)].
  2:{ pose proof (keeps_loop ds ms pf [] w6) as K. unfold _execute_decisions in H7.
      rewrite H7 in K. simpl in K. congruence. }
  assert (K7 : account_values (w_db w7) = account_values (w_db w)).
  { pose proof (keeps_loop ds ms pf [] w6) as K. unfold _execute_decisions in H7.
    rewrite H7 in K. simpl in K. congruence. }
  apply bind_inv in B as [(updated & w8 & H8 & B)|(e & H8 & ->)].
  2:{ unfold db_get_portfolio in H8. injection H8 as _ <-. done. }
  unfold db_get_portfolio in H8. injection H8 as Hup <-.
  apply bind_inv in B as [([] & w9 & H9 & B)|(e & H9 & ->)].
  2:{ unfold db_record_account_value in H9. done. }
  unfold db_record_account_value in H9. injection H9 as <-.
  unfold mret, M_ret in B. injection B as <- <-.
  cbn [w_db]. split.
  - unfold record_account_value, account_value_of. cbn [account_values]. by rewrite K7.
  - exists ms. split; [done|]. by rewrite get_portfolio_after_record.
Qed.

(** A failure before the exits stage leaves the world as it was. *)
Lemma cycle_early_failure (w : world) (e : exn) :
  _get_market_state fetch_prices fetch_indicators = Raise e \/
  (exists ms, _get_market_state fetch_prices fetch_indicators = Ok ms /\
              get_portfolio (w_db w) model_id (Some (ms_price <$> ms)) = Raise e) ->
  execute_trading_cycle model_id parse_float parse_int fetch_prices fetch_indicators
    make_decision json_dumps get_current_beijing_time_str w = (Failure e, w).
Proof.
  unfold execute_trading_cycle, trading_cycle_body.
  intros [Hms|(ms & Hms & Hpf)].
  - unfold mbind at 1, M_bind at 1, lift. by rewrite Hms.
  - unfold mbind at 1, M_bind at 1, lift. rewrite Hms.
    unfold mbind at 1, M_bind at 1, db_get_portfolio. by rewrite Hpf.
Qed.

(** With an initial capital of 0 the cycle fails in [_build_account_info],
    after the exits stage has run. *)
Lemma cycle_zero_capital (w : world) (ms : gmap string market_entry) (pf : portfolio)
    (m : model_row) :
  _get_market_state fetch_prices fetch_indicators = Ok ms ->
  get_portfolio (w_db w) model_id (Some (ms_price <$> ms)) = Ok pf ->
  get_model (w_db w) model_id = Some m ->
  m_initial_capital m = 0 ->
  execute_trading_cycle model_id parse_float parse_int fetch_prices fetch_indicators
    make_decision json_dumps get_current_beijing_time_str w
  = (Failure ZeroDivisionError,
     (_check_stop_loss_take_profit model_id pf (ms_price <$> ms) w).2).
Proof.
  intros Hms Hpf Hm H0. unfold execute_trading_cycle, trading_cycle_body.
  unfold mbind at 1, M_bind at 1, lift. rewrite Hms.
  unfold mbind at 1, M_bind at 1, db_get_portfolio. rewrite Hpf.
  unfold _check_stop_loss_take_profit.
  destruct (check_loop_spec model_id (positions pf) (ms_price <$> ms) [] w)
    as (rs & w2 & evs & ts & Hrun & _ & _ & _ & Hmod & _).
  unfold mbind at 1, M_bind at 1. rewrite Hrun.
  unfold mbind at 1, M_bind at 1, _build_account_info.
  unfold get_model in *. rewrite Hmod, Hm, H0.
  assert (Hz : Qc_eqb 0 0 = true) by (by vm_compute). by rewrite Hz.
Qed.

End CycleMore.

(** X11.  A trading cycle appends an account-value row exactly when it
    succeeds.  On success the history grows by one row, which holds the
    total value, cash and positions value of the returned portfolio, and the
    returned portfolio is the valuation of the final database at the prices
    of the cycle's market state.  On failure the history is unchanged. *)
Theorem X11_account_value_iff_success (model_id : Z)
    (parse_float : string -> option Qc) (parse_int : string -> option Z)
    (fetch_prices : list string -> result (gmap string MarketData.quote))
    (fetch_indicators : string -> result (option MarketData.indicator_set))
    (make_decision : gmap string TradingEngine.market_entry -> Database.portfolio ->
                     TradingEngine.account_info -> TradingEngine.decisions * string)
    (json_dumps : TradingEngine.decisions -> string) (now : string)
    (w w' : TradingEngine.world) (res : TradingEngine.cycle_result) :
  TradingEngine.execute_trading_cycle model_id parse_float parse_int fetch_prices
    fetch_indicators make_decision json_dumps now w = (res, w') ->
  match res with
  | TradingEngine.Success ds executions pf' =>
      Database.account_values (TradingEngine.w_db w')
      = Database.account_values (TradingEngine.w_db w) ++ [account_value_of model_id pf'] /\
      exists ms,
        TradingEngine._get_market_state fetch_prices fetch_indicators = Ok ms /\
        Database.get_portfolio (TradingEngine.w_db w') model_id
          (Some (TradingEngine.ms_price <$> ms)) = Ok pf'
  | TradingEngine.Failure e =>
      Database.account_values (TradingEngine.w_db w')
      = Database.account_values (TradingEngine.w_db w)
  end.
Proof. apply cycle_history. Qed.

Lemma X11_witness :
  let w := Samples.world_with [Samples.btc_long] in
  let run := TradingEngine.execute_trading_cycle 1 Samples.no_float Samples.no_int
               (Samples.fetcher_at 50000) Samples.no_indicators
               (Samples.provider [("ETH"%string, TradingEngine.Dict Samples.half)])
               Samples.dumps "now" w in
  exists ds executions pf',
    run.1 = TradingEngine.Success ds executions pf' /\
    Database.account_values (TradingEngine.w_db run.2) = [account_value_of 1 pf'].
Proof.
  intros w run.
  destruct run as [res w'] eqn:Hrun.
  pose proof (X11_account_value_iff_success 1 Samples.no_float Samples.no_int
                (Samples.fetcher_at 50000) Samples.no_indicators
                (Samples.provider [("ETH"%string, TradingEngine.Dict Samples.half)])
                Samples.dumps "now" w w' res Hrun) as H.
  destruct res as [ds ex pf'|e].
  - destruct H as [H _]. exists ds, ex, pf'. split; [done|]. exact H.
  - exfalso. unfold run in Hrun. vm_compute in Hrun. discriminate Hrun.
Defined.

(** X12.  A cycle that fails while reading the market state or while taking
    the first portfolio snapshot reports the failure and has changed
    nothing: no table is written and no collaborator is called after the
    failing step. *)
Theorem X12_early_failure_changes_nothing (model_id : Z)
    (parse_float : string -> option Qc) (parse_int : string -> option Z)
    (fetch_prices : list string -> result (gmap string MarketData.quote))
    (fetch_indicators : string -> result (option MarketData.indicator_set))
    (make_decision : gmap string TradingEngine.market_entry -> Database.portfolio ->
                     TradingEngine.account_info -> TradingEngine.decisions * string)
    (json_dumps : TradingEngine.decisions -> string) (now : string)
    (w : TradingEngine.world) (e : exn) :
  TradingEngine._get_market_state fetch_prices fetch_indicators = Raise e \/
  (exists ms, TradingEngine._get_market_state fetch_prices fetch_indicators = Ok ms /\
              Database.get_portfolio (TradingEngine.w_db w) model_id
                (Some (TradingEngine.ms_price <$> ms)) = Raise e) ->
  TradingEngine.execute_trading_cycle model_id parse_float parse_int fetch_prices
    fetch_indicators make_decision json_dumps now w = (TradingEngine.Failure e, w).
Proof. apply cycle_early_failure. Qed.

Lemma X12_witness :
  let w := Samples.world_with [Samples.btc_long] in
  TradingEngine.execute_trading_cycle 2 Samples.no_float Samples.no_int
    (Samples.fetcher_at 50000) Samples.no_indicators
    (Samples.provider [("ETH"%string, TradingEngine.Dict Samples.half)])
    Samples.dumps "now" w = (TradingEngine.Failure TypeError, w).
Proof.
  intros w. apply X12_early_failure_changes_nothing. right.
  exists (Samples.market 50000). split; by vm_compute.
Defined.

(** X13.  For a model whose initial capital is 0 the cycle fails with
    ZeroDivisionError in [_build_account_info], which runs after the exits
    stage: the automatic closes of the exits stage stay in the database, the
    decision provider is not called, and nothing else is written. *)
Theorem X13_zero_capital_fails_after_exits (model_id : Z)
    (parse_float : string -> option Qc) (parse_int : string -> option Z)
    (fetch_prices : list string -> result (gmap string MarketData.quote))
    (fetch_indicators : string -> result (option MarketData.indicator_set))
    (make_decision : gmap string TradingEngine.market_entry -> Database.portfolio ->
                     TradingEngine.account_info -> TradingEngine.decisions * string)
    (json_dumps : TradingEngine.decisions -> string) (now : string)
    (w : TradingEngine.world) (ms : gmap string TradingEngine.market_entry)
    (pf : Database.portfolio) (m : Database.model_row) :
  TradingEngine._get_market_state fetch_prices fetch_indicators = Ok ms ->
  Database.get_portfolio (TradingEngine.w_db w) model_id
    (Some (TradingEngine.ms_price <$> ms)) = Ok pf ->
  Database.get_model (TradingEngine.w_db w) model_id = Some m ->
  Database.m_initial_capital m = 0 ->
  TradingEngine.execute_trading_cycle model_id parse_float parse_int fetch_prices
    fetch_indicators make_decision json_dumps now w
  = (TradingEngine.Failure ZeroDivisionError,
     (TradingEngine._check_stop_loss_take_profit model_id pf
        (TradingEngine.ms_price <$> ms) w).2).
Proof. apply cycle_zero_capital. Qed.

Lemma X13_witness :
  let w := {| TradingEngine.w_db :=
                {| Database.models := [{| Database.m_id := 1;
                                          Database.m_initial_capital := 0 |}];
                   Database.portfolios := [Samples.btc_long];
                   Database.trades := []; Database.conversations := [];
                   Database.account_values := [] |};
              TradingEngine.w_trace := [] |} in
  let run := TradingEngine.execute_trading_cycle 1 Samples.no_float Samples.no_int
               (Samples.fetcher_at 41000) Samples.no_indicators
               (Samples.provider [("ETH"%string, TradingEngine.Dict Samples.half)])
               Samples.dumps "now" w in
  run.1 = TradingEngine.Failure ZeroDivisionError /\
  Database.portfolios (TradingEngine.w_db run.2) = [] /\
  length (Database.trades (TradingEngine.w_db run.2)) = 1%nat.
Proof.
  intros w run. unfold run.
  rewrite (X13_zero_capital_fails_after_exits 1 Samples.no_float Samples.no_int
             (Samples.fetcher_at 41000) Samples.no_indicators
             (Samples.provider [("ETH"%string, TradingEngine.Dict Samples.half)])
             Samples.dumps "now" w (Samples.market 41000)
             (Samples.snapshot (TradingEngine.w_db w) (Samples.market 41000))
             {| Database.m_id := 1; Database.m_initial_capital := 0 |}).
  - split; [done|]. split; by vm_compute.
  - by vm_compute.
  - by vm_compute.
  - by vm_compute.
  - done.
Defined.


Section MarketStateMore.
Import Database TradingEngine.

Variable fetch_indicators : string -> result (option MarketData.indicator_set).

(** The entry that [_get_market_state] builds from a quote. *)
Lemma market_state_loop_spec (coins : list string) (prices : gmap string MarketData.quote)
    (ms0 ms : gmap string market_entry) :
  _get_market_state_loop fetch_indicators coins prices ms0 = Ok ms ->
  forall coin e,
    ms !! coin = Some e <->
    (coin ∈ coins /\
     exists q, prices !! coin = Some q /\
               ms_price e = MarketData.price q /\
               ms_change_24h e = MarketData.change_24h q /\
               fetch_indicators coin = Ok (ms_indicators e)) \/
    ((coin ∉ coins \/ prices !! coin = None) /\ ms0 !! coin = Some e).
Proof.
  revert ms0. induction coins as [|c coins IH]; intros ms0 Hrun coin e.
  - simpl in Hrun. injection Hrun as <-. split.
    + intros H. right. split; [left; apply not_elem_of_nil|done].
    + intros [[Hin _]|[_ H]]; [by apply elem_of_nil in Hin|done].
  - cbn [_get_market_state_loop] in Hrun.
    destruct (prices !! c) as [q|] eqn:Ep.
    + destruct (fetch_indicators c) as [ind|] eqn:Ei; [|done]. simpl in Hrun.
      rewrite (IH _ Hrun coin e). clear IH Hrun. split.
      * intros [(Hin & q' & H)|[Hout Hl]].
        { left. split; [by right|by exists q']. }
        destruct (decide (coin = c)) as [->|Hne].
        { rewrite lookup_insert_eq in Hl. injection Hl as <-. left.
          split; [by left|]. exists q. by simpl. }
        rewrite lookup_insert_ne in Hl by done. right. split; [|done].
        destruct Hout as [Hout|Hout]; [|by right]. left.
        rewrite not_elem_of_cons. by split.
      * intros [(Hin & q' & Hq' & Hp & Hc & Hi)|[Hout Hl]].
        { destruct (decide (coin ∈ coins)) as [Hin'|Hout'].
          - left. split; [done|]. by exists q'.
          - apply elem_of_cons in Hin as [->|Hin]; [|done].
            right. split; [by left|]. rewrite lookup_insert_eq. f_equal.
            rewrite Ep in Hq'. injection Hq' as <-. rewrite Ei in Hi. injection Hi as Hi.
            destruct e; simpl in *; by subst. }
        right. destruct Hout as [Hout|Hout].
        { apply not_elem_of_cons in Hout as [Hne Hout]. split; [by left|].
          by rewrite lookup_insert_ne. }
        split; [by right|]. rewrite lookup_insert_ne; [done|]. intros ->. congruence.
    + rewrite (IH _ Hrun coin e). clear IH Hrun. split.
      * intros [(Hin & H)|[Hout Hl]].
        { left. split; [by right|done]. }
        right. split; [|done]. destruct Hout as [Hout|Hout]; [|by right].
        destruct (decide (coin = c)) as [->|Hne]; [by right|].
        left. rewrite not_elem_of_cons. by split.
      * intros [(Hin & q' & Hq' & H)|[Hout Hl]].
        { left. apply elem_of_cons in Hin as [->|Hin]; [congruence|].
          split; [done|]. by exists q'. }
        right. split; [|done]. destruct Hout as [Hout|Hout]; [|by right].
        left. apply not_elem_of_cons in Hout. tauto.
Qed.

Lemma market_state_loop_priced (coins : list string) (prices : gmap string MarketData.quote)
    (ms0 ms : gmap string market_entry) (coin : string) (q : MarketData.quote) :
  _get_market_state_loop fetch_indicators coins prices ms0 = Ok ms ->
  coin ∈ coins -> prices !! coin = Some q ->
  exists ind, fetch_indicators coin = Ok ind.
Proof.
  revert ms0. induction coins as [|c coins IH]; intros ms0 Hrun Hin Hq;
    [by apply elem_of_nil in Hin|].
  cbn [_get_market_state_loop] in Hrun.
  apply elem_of_cons in Hin as [->|Hin].
  - rewrite Hq in Hrun. destruct (fetch_indicators c) as [ind|]; [by exists ind|done].
  - destruct (prices !! c); [|by eapply IH].
    destruct (fetch_indicators c); [|done]. by eapply IH.
Qed.

End MarketStateMore.

(** X14.  The market state that [_get_market_state] returns has an entry
    exactly for the supported coins that the price answer contains; the
    entry carries the price and the 24-hour change of the quote and the
    indicators computed for that coin.  Coins outside the supported list
    never appear, whatever the price answer holds. *)
Theorem X14_market_state_entries
    (fetch_prices : list string -> result (gmap string MarketData.quote))
    (fetch_indicators : string -> result (option MarketData.indicator_set))
    (prices : gmap string MarketData.quote)
    (ms : gmap string TradingEngine.market_entry) :
  fetch_prices config.SUPPORTED_COINS = Ok prices ->
  TradingEngine._get_market_state fetch_prices fetch_indicators = Ok ms ->
  forall coin,
    (is_Some (ms !! coin) <-> coin ∈ config.SUPPORTED_COINS /\ is_Some (prices !! coin)) /\
    (forall e, ms !! coin = Some e ->
       exists q, prices !! coin = Some q /\
                 TradingEngine.ms_price e = MarketData.price q /\
                 TradingEngine.ms_change_24h e = MarketData.change_24h q /\
                 fetch_indicators coin = Ok (TradingEngine.ms_indicators e)).
Proof.
  intros Hp Hrun coin. unfold TradingEngine._get_market_state in Hrun.
  rewrite Hp in Hrun. cbn [mbind result_bind] in Hrun.
  pose proof (market_state_loop_spec fetch_indicators _ _ _ _ Hrun coin) as Hspec.
  assert (Hentry : forall e, ms !! coin = Some e ->
            coin ∈ config.SUPPORTED_COINS /\
            exists q, prices !! coin = Some q /\
                      TradingEngine.ms_price e = MarketData.price q /\
                      TradingEngine.ms_change_24h e = MarketData.change_24h q /\
                      fetch_indicators coin = Ok (TradingEngine.ms_indicators e)).
  { intros e He. apply Hspec in He as [H|[_ H]]; [done|].
    by rewrite lookup_empty in H. }
  split.
  - split.
    + intros [e He]. destruct (Hentry e He) as (Hin & q & Hq & _). by split; [|exists q].
    + intros [Hin [q Hq]].
      destruct (market_state_loop_priced fetch_indicators _ _ _ _ _ _ Hrun Hin Hq)
        as [ind Hi].
      exists {| TradingEngine.ms_price := MarketData.price q;
                TradingEngine.ms_change_24h := MarketData.change_24h q;
                TradingEngine.ms_indicators := ind |}.
      apply Hspec. left. split; [done|]. by exists q.
  - intros e He. by destruct (Hentry e He) as [_ H].
Qed.

Lemma X14_witness :
  exists ms,
    TradingEngine._get_market_state (Samples.fetcher_at 50000) Samples.no_indicators = Ok ms /\
    is_Some (ms !! "BTC"%string) /\ ms !! "SOL"%string = None.
Proof.
  destruct (TradingEngine._get_market_state (Samples.fetcher_at 50000) Samples.no_indicators)
    as [ms|e] eqn:Hrun; [|by vm_compute in Hrun].
  exists ms. split; [done|].
  pose proof (X14_market_state_entries (Samples.fetcher_at 50000) Samples.no_indicators
                (Samples.quotes 50000) ms eq_refl Hrun) as H.
  split.
  - apply (H "BTC"%string). split.
    + unfold config.SUPPORTED_COINS. apply list_elem_of_here.
    + unfold Samples.quotes. rewrite lookup_insert_eq. by eexists.
  - destruct (ms !! "SOL"%string) as [e|] eqn:He; [|done]. exfalso.
    destruct (H "SOL"%string) as [Hiff _].
    destruct Hiff as [Hto _]. destruct (Hto (ex_intro _ e He)) as [_ [q Hq]].
    by vm_compute in Hq.
Defined.


(* ===================================================================== *)
(** * Further properties of the risk manager (src/services/risk_manager.py) *)
(* ===================================================================== *)

Section RiskMore.
Import Database RiskManager.

Lemma py_max_lt (a b c : Qc) : a < c -> b < c -> py_max a b < c.
Proof. unfold py_max. by destruct (Qc_ltb a b). Qed.

Lemma py_max_nonneg (a b : Qc) : 0 <= a -> 0 <= py_max a b.
Proof.
  unfold py_max. destruct (Qc_ltb a b) eqn:E; [|done].
  intros Ha. apply Qc_ltb_true in E. apply Qclt_le_weak. by eapply Qcle_lt_trans.
Qed.

Lemma drawdown_loop_nonneg (values : list Qc) (peak md : Qc) :
  0 <= md -> 0 <= drawdown_loop values peak md.
Proof.
  revert peak md. induction values as [|value rest IH]; intros peak md Hmd; [done|].
  cbn [drawdown_loop]. apply IH. by apply py_max_nonneg.
Qed.

Lemma Qcdiv_lt_1 (p v : Qc) : 0 < p -> 0 < v -> (p - v) / p < 1.
Proof.
  intros Hp Hv. apply Qclt_minus_iff.
  assert (Hp0 : p <> 0) by (intros ->; by apply (Qclt_not_eq 0 0)).
  replace (1 + - ((p - v) / p)) with (v * / p) by (field; done).
  assert (Hi : 0 < / p) by (by apply Qcinv_pos).
  pose proof (Qcmult_lt_compat_r 0 v (/ p) Hi Hv) as H.
  by replace (0 * / p) with 0 in H by ring.
Qed.

Lemma drawdown_loop_lt_1 (values : list Qc) (peak md : Qc) :
  md < 1 -> Forall (fun v => 0 < v) values -> drawdown_loop values peak md < 1.
Proof.
  revert peak md. induction values as [|value rest IH]; intros peak md Hmd Hpos; [done|].
  inversion Hpos as [|? ? Hv Hrest]; subst. cbn [drawdown_loop]. apply IH; [|done].
  apply py_max_lt; [done|].
  set (peak' := if Qc_ltb peak value then value else peak).
  destruct (Qc_ltb 0 peak') eqn:E; [|done].
  apply Qc_ltb_true in E. by apply Qcdiv_lt_1.
Qed.

Lemma max_drawdown_of_bounds (values : list Qc) :
  0 <= max_drawdown_of values /\
  (Forall (fun v => 0 < v) values -> max_drawdown_of values < 1).
Proof.
  destruct values as [|v0 rest]; [done|]. unfold max_drawdown_of. split.
  - by apply drawdown_loop_nonneg.
  - intros H. by apply drawdown_loop_lt_1.
Qed.

Lemma Forall_drop {A : Type} (P : A -> Prop) (n : nat) (l : list A) :
  Forall P l -> Forall P (skipn n l).
Proof.
  revert n. induction l as [|x l IH]; intros [|n] H; try done.
  simpl. apply IH. by inversion H.
Qed.

(** The warnings of the first four rules, then the drawdown warning. *)
Lemma risk_score_warnings (db : Db) (model_id : Z) (pf : portfolio) :
  let dd := _calculate_max_drawdown db model_id in
  exists w4,
    Forall (fun w => is_drawdown_warning w = false) w4 /\
    warnings (calculate_risk_score db model_id pf)
    = w4 ++ (if Qc_ltb config.MAX_DRAWDOWN_WARNING dd then [W_drawdown dd] else []) /\
    score (calculate_risk_score db model_id pf)
    = Z.min (score_of_warnings w4
             + (if Qc_ltb config.MAX_DRAWDOWN_WARNING dd then 30 else 0)) 100.
Proof.
  intros dd. unfold calculate_risk_score. fold dd.
  destruct (Qc_ltb config.MAX_DRAWDOWN_WARNING dd) eqn:E;
    destruct (positions pf) as [|v ps] eqn:Hps;
    repeat (case_bool_decide || case_match); simplify_eq; cbn [warnings score];
    eexists; (split; [|split; [first [reflexivity|symmetry; apply app_nil_r]|]]);
    rewrite ?Forall_app; repeat split; repeat constructor.
Qed.

Lemma risk_score_drawdown (db : Db) (model_id : Z) (pf : portfolio) :
  rs_drawdown (calculate_risk_score db model_id pf) = _calculate_max_drawdown db model_id.
Proof. unfold calculate_risk_score. by repeat case_match. Qed.

Lemma score_of_warnings_nonneg (ws : list warning) : (0 <= score_of_warnings ws)%Z.
Proof.
  unfold score_of_warnings.
  assert (H : forall a, (0 <= a)%Z -> (0 <= fold_left Z.add (map warning_weight ws) a)%Z).
  { induction ws as [|w ws IH]; intros a Ha; [done|]. simpl. apply IH.
    destruct w; simpl; lia. }
  by apply H.
Qed.

End RiskMore.

(** X15.  The maximum drawdown is never negative, and it is below 1 (100
    percent) whenever every recorded total value of the model is positive. *)
Theorem X15_max_drawdown_bounds (db : Database.Db) (model_id : Z) :
  0 <= RiskManager._calculate_max_drawdown db model_id /\
  (Forall (fun v => 0 < v) (history_values db model_id) ->
   RiskManager._calculate_max_drawdown db model_id < 1).
Proof.
  rewrite calculate_max_drawdown_history. split.
  - apply max_drawdown_of_bounds.
  - intros H. apply max_drawdown_of_bounds. unfold last_n. by apply Forall_drop.
Qed.

(** X16.  The risk score is the sum of the points of the warnings it
    reports (30 concentration, 25 leverage, 15 position count, 20 unrealized
    loss, 30 drawdown), capped at 100; it lies between 0 and 100; the level
    is high exactly from 70 points and low exactly below 40; at most five
    warnings are reported; and an account without open positions scores at
    most 50 and is never rated high. *)
Theorem X16_risk_score_consistent (db : Database.Db) (model_id : Z)
    (pf : Database.portfolio) :
  let r := RiskManager.calculate_risk_score db model_id pf in
  RiskManager.score r = Z.min (score_of_warnings (RiskManager.warnings r)) 100 /\
  (0 <= RiskManager.score r <= 100)%Z /\
  (RiskManager.level r = RiskManager.high_risk <-> (70 <= RiskManager.score r)%Z) /\
  (RiskManager.level r = RiskManager.low_risk <-> (RiskManager.score r < 40)%Z) /\
  (length (RiskManager.warnings r) <= 5)%nat /\
  (Database.positions pf = [] ->
   (RiskManager.score r <= 50)%Z /\ RiskManager.level r <> RiskManager.high_risk).
Proof.
  unfold RiskManager.calculate_risk_score.
  destruct (Database.positions pf) as [|v ps] eqn:Hps; cbn [length];
    repeat (case_bool_decide || case_match); simplify_eq;
    cbn [RiskManager.score RiskManager.level RiskManager.warnings score_of_warnings
         warning_weight map app fold_left length];
    repeat split; intros; try done; try lia.
Qed.

(** X17.  In the report of [get_risk_metrics] the two verdicts agree on the
    drawdown: the reported maximum drawdown is the one both were computed
    from, a drawdown warning is reported exactly when it exceeds 15 percent,
    and whenever trading is paused for a critical drawdown (above 25
    percent) the drawdown warning is among the warnings and the score is at
    least 30. *)
Theorem X17_risk_metrics_agree (db : Database.Db) (model_id : Z)
    (pf : Database.portfolio) :
  let m := RiskManager.get_risk_metrics db model_id pf in
  let dd := RiskManager._calculate_max_drawdown db model_id in
  RiskManager.rm_max_drawdown m = dd /\
  (RiskManager.W_drawdown dd ∈ RiskManager.rm_warnings m <-> config.MAX_DRAWDOWN_WARNING < dd) /\
  (existsb is_drawdown_warning (RiskManager.rm_warnings m) = true
   <-> config.MAX_DRAWDOWN_WARNING < dd) /\
  (RiskManager.rm_pause_reason m = RiskManager.critical_drawdown <->
   config.MAX_DRAWDOWN_CRITICAL < dd) /\
  (RiskManager.rm_pause_reason m = RiskManager.critical_drawdown ->
   RiskManager.rm_should_pause m = true /\
   RiskManager.W_drawdown dd ∈ RiskManager.rm_warnings m /\
   (30 <= RiskManager.rm_risk_score m)%Z).
Proof.
  intros m dd.
  destruct (risk_score_warnings db model_id pf) as (w4 & Hw4 & Hws & Hsc). fold dd in Hws, Hsc.
  assert (Hm : RiskManager.rm_warnings m
               = w4 ++ (if Qc_ltb config.MAX_DRAWDOWN_WARNING dd
                        then [RiskManager.W_drawdown dd] else [])) by exact Hws.
  assert (Hnot : RiskManager.W_drawdown dd ∉ w4).
  { intros Hin. rewrite Forall_forall in Hw4. by specialize (Hw4 _ Hin). }
  assert (Hex : existsb is_drawdown_warning w4 = false).
  { clear -Hw4. induction Hw4 as [|w ws Hw _ IH]; [done|]. simpl. by rewrite Hw, IH. }
  assert (Hin : RiskManager.W_drawdown dd ∈ RiskManager.rm_warnings m
                <-> config.MAX_DRAWDOWN_WARNING < dd).
  { rewrite Hm, elem_of_app, <- Qc_ltb_true.
    destruct (Qc_ltb config.MAX_DRAWDOWN_WARNING dd).
    - split; [done|]. intros _. right. apply list_elem_of_here.
    - split; [|done]. intros [H|H]; [done|by apply elem_of_nil in H]. }
  assert (Hwarn : existsb is_drawdown_warning (RiskManager.rm_warnings m) = true
                  <-> config.MAX_DRAWDOWN_WARNING < dd).
  { rewrite Hm, existsb_app, Hex, <- Qc_ltb_true.
    by destruct (Qc_ltb config.MAX_DRAWDOWN_WARNING dd). }
  assert (Hscore : config.MAX_DRAWDOWN_WARNING < dd ->
                   (30 <= RiskManager.rm_risk_score m)%Z).
  { intros Hdd. apply Qc_ltb_true in Hdd.
    change (RiskManager.rm_risk_score m)
      with (RiskManager.score (RiskManager.calculate_risk_score db model_id pf)).
    rewrite Hsc, Hdd. pose proof (score_of_warnings_nonneg w4). lia. }
  assert (Hcrit : RiskManager.rm_pause_reason m = RiskManager.critical_drawdown <->
                  config.MAX_DRAWDOWN_CRITICAL < dd).
  { unfold m, RiskManager.get_risk_metrics, RiskManager.should_pause_trading. fold dd.
    cbn [RiskManager.rm_pause_reason].
    destruct (Qc_ltb config.MAX_DRAWDOWN_CRITICAL dd) eqn:E.
    - apply Qc_ltb_true in E. done.
    - apply Qc_ltb_false in E.
      repeat case_match; cbn [RiskManager.reason]; (split; [done|intros; Qc_contra]). }
  split; [apply risk_score_drawdown|]. split; [done|]. split; [done|]. split; [done|].
  intros Hr. apply Hcrit in Hr.
  assert (Hw : config.MAX_DRAWDOWN_WARNING < dd).
  { eapply Qclt_trans; [|exact Hr]. by vm_compute. }
  split.
  - unfold m, RiskManager.get_risk_metrics, RiskManager.should_pause_trading. fold dd.
    apply Qc_ltb_true in Hr. by rewrite Hr.
  - split; [by apply Hin|by apply Hscore].
Qed.


Section SizeMore.
Import Database RiskManager.

Lemma Qc_pos_neq (c : Qc) : 0 < c -> c <> 0.
Proof. intros H ->. by apply (Qclt_not_eq 0 0). Qed.

Lemma Qcdiv_lt_l (a b c : Qc) : 0 < c -> (a / c < b <-> a < b * c).
Proof.
  intros Hc. pose proof (Qc_pos_neq c Hc) as Hc0.
  assert (Hi : 0 < / c) by (by apply Qcinv_pos). split; intros H.
  - pose proof (Qcmult_lt_compat_r _ _ c Hc H) as H'.
    by replace (a / c * c) with a in H' by (field; done).
  - pose proof (Qcmult_lt_compat_r _ _ (/ c) Hi H) as H'.
    by replace (b * c * / c) with b in H' by (field; done).
Qed.

Lemma Qcdiv_lt_r (a b c : Qc) : 0 < c -> (b < a / c <-> b * c < a).
Proof.
  intros Hc. pose proof (Qc_pos_neq c Hc) as Hc0.
  assert (Hi : 0 < / c) by (by apply Qcinv_pos). split; intros H.
  - pose proof (Qcmult_lt_compat_r _ _ c Hc H) as H'.
    by replace (a / c * c) with a in H' by (field; done).
  - pose proof (Qcmult_lt_compat_r _ _ (/ c) Hi H) as H'.
    by replace (b * c * / c) with b in H' by (field; done).
Qed.

Lemma Qcdiv_le_l (a b c : Qc) : 0 < c -> (a / c <= b <-> a <= b * c).
Proof.
  intros Hc. split; intros H.
  - apply Qcnot_lt_le. intros H'. apply (Qcdiv_lt_r a b c Hc) in H'. Qc_contra.
  - apply Qcnot_lt_le. intros H'. apply (Qcdiv_lt_r a b c Hc) in H'. Qc_contra.
Qed.



End SizeMore.




(* ===================================================================== *)
(** * Further properties of the market data fetcher (src/market_data.py) *)
(* ===================================================================== *)

Section CacheMore.
Import MarketData.

Lemma complete_Some (coins : list string) (p : option (gmap string quote)) :
  complete coins p = true -> exists m, p = Some m.
Proof. destruct p as [m|]; [by exists m|done]. Qed.

Lemma nonempty_Some (p : option (list price_point)) :
  nonempty p = true -> exists h, p = Some h /\ h <> [].
Proof. destruct p as [[|x h]|]; try done. intros _. by eexists. Qed.

(** The cascade of [get_current_prices] returns the first complete answer
    and stores it. *)
Lemma try_price_sources_first (e : env) (self : MarketDataFetcher) (coins : list string)
    (key : string) (m : gmap string quote) :
  first_complete e coins = Some m ->
  try_price_sources e self coins key
  = (Ok (CPrices m), store self key (CPrices m) (time_at_store e)).
Proof.
  unfold first_complete, try_price_sources.
  destruct (complete coins (_get_prices_from_binance e coins)) eqn:E1.
  { rewrite filter_cons_True by done. by intros ->. }
  rewrite filter_cons_False by (by rewrite E1).
  destruct (complete coins (_get_prices_from_coingecko e coins)) eqn:E2.
  { rewrite filter_cons_True by done. by intros ->. }
  rewrite filter_cons_False by (by rewrite E2).
  destruct (complete coins (_get_prices_from_coincap e coins)) eqn:E3.
  { rewrite filter_cons_True by done. by intros ->. }
  rewrite filter_cons_False by (by rewrite E3).
  destruct (complete coins (_get_prices_from_cryptocompare e coins)) eqn:E4.
  { rewrite filter_cons_True by done. by intros ->. }
  rewrite filter_cons_False by (by rewrite E4). done.
Qed.

Lemma try_historical_sources_first (e : env) (self : MarketDataFetcher) (coin : string)
    (days : Z) (key : string) (h : list price_point) :
  first_history e coin days = Some h ->
  try_historical_sources e self coin days key
  = (Ok (CHistory h),
     _save_persistent_cache e (store self key (CHistory h) (time_at_store e))).
Proof.
  unfold first_history, try_historical_sources.
  destruct (nonempty (_get_historical_from_binance e coin days)) eqn:E1.
  { rewrite filter_cons_True by done. by intros ->. }
  rewrite filter_cons_False by (by rewrite E1).
  destruct (nonempty (_get_historical_from_coingecko e coin days)) eqn:E2.
  { rewrite filter_cons_True by done. by intros ->. }
  rewrite filter_cons_False by (by rewrite E2).
  destruct (nonempty (_get_historical_from_coincap e coin days)) eqn:E3.
  { rewrite filter_cons_True by done. by intros ->. }
  rewrite filter_cons_False by (by rewrite E3). done.
Qed.

(** A call that finds the entry stale or absent goes to the sources. *)
Lemma get_current_prices_not_fresh (e : env) (self : MarketDataFetcher)
    (coins : list string) :
  cache_wf self ->
  ~ fresh e self (prices_key coins) config.MARKET_API_CACHE_DURATION ->
  get_current_prices e self coins = try_price_sources e self coins (prices_key coins).
Proof.
  intros Hwf Hnf. unfold get_current_prices.
  destruct (_cache self !! prices_key coins) as [v|] eqn:Ec; [|done].
  destruct (Hwf (prices_key coins)) as [t Ht]; [by rewrite Ec|]. rewrite Ht.
  destruct (Qc_ltb _ _) eqn:E; [|done].
  apply Qc_ltb_true in E. destruct Hnf. by exists t.
Qed.

Lemma get_current_prices_hit (e : env) (self : MarketDataFetcher) (coins : list string)
    (v : cache_val) :
  _cache self !! prices_key coins = Some v ->
  fresh e self (prices_key coins) config.MARKET_API_CACHE_DURATION ->
  get_current_prices e self coins = (Ok v, self).
Proof.
  intros Hc (t & Ht & Hage). unfold get_current_prices. rewrite Hc, Ht.
  apply Qc_ltb_true in Hage. by rewrite Hage.
Qed.

Lemma get_historical_prices_not_fresh (e : env) (self : MarketDataFetcher)
    (coin : string) (days : Z) :
  cache_wf self ->
  ~ fresh e self (historical_key coin days) (Qc_of_Z 21600) ->
  get_historical_prices e self coin days
  = try_historical_sources e self coin days (historical_key coin days).
Proof.
  intros Hwf Hnf. unfold get_historical_prices.
  destruct (_cache self !! historical_key coin days) as [v|] eqn:Ec; [|done].
  destruct (Hwf (historical_key coin days)) as [t Ht]; [by rewrite Ec|]. rewrite Ht.
  destruct (Qc_ltb _ _) eqn:E; [|done].
  apply Qc_ltb_true in E. destruct Hnf. by exists t.
Qed.

Lemma get_historical_prices_hit (e : env) (self : MarketDataFetcher) (coin : string)
    (days : Z) (v : cache_val) :
  _cache self !! historical_key coin days = Some v ->
  fresh e self (historical_key coin days) (Qc_of_Z 21600) ->
  get_historical_prices e self coin days = (Ok v, self).
Proof.
  intros Hc (t & Ht & Hage). unfold get_historical_prices. rewrite Hc, Ht.
  apply Qc_ltb_true in Hage. by rewrite Hage.
Qed.

End CacheMore.

(** X19.  When [get_current_prices] finds no entry younger than 5 seconds
    for the requested coins, it returns the answer of the first source, in
    the order Binance, CoinGecko, CoinCap, CryptoCompare, that covers every
    requested coin, and stores it in memory with the time of the store.  Any
    later call for the same coins that starts less than 5 seconds after that
    time returns the same answer from memory, whatever the sources would
    answer then, and changes nothing. *)
Theorem X19_first_complete_source_is_cached (e : MarketData.env)
    (self : MarketData.MarketDataFetcher) (coins : list string)
    (m : gmap string MarketData.quote) :
  cache_wf self ->
  ~ fresh e self (MarketData.prices_key coins) config.MARKET_API_CACHE_DURATION ->
  first_complete e coins = Some m ->
  let self' := MarketData.store self (MarketData.prices_key coins) (MarketData.CPrices m)
                 (MarketData.time_at_store e) in
  MarketData.get_current_prices e self coins = (Ok (MarketData.CPrices m), self') /\
  forall e',
    MarketData.time_at_check e' - MarketData.time_at_store e
      < config.MARKET_API_CACHE_DURATION ->
    MarketData.get_current_prices e' self' coins = (Ok (MarketData.CPrices m), self').
Proof.
  intros Hwf Hnf Hfirst self'. split.
  - rewrite get_current_prices_not_fresh by done. by apply try_price_sources_first.
  - intros e' Hage. apply get_current_prices_hit.
    + unfold self', MarketData.store. simpl. by rewrite lookup_insert_eq.
    + exists (MarketData.time_at_store e). split; [|done].
      unfold self', MarketData.store. simpl. by rewrite lookup_insert_eq.
Qed.

Lemma X19_witness :
  let self := MarketData._load_persistent_cache None in
  let self' := (MarketData.get_current_prices Samples.env_binance_up self ["BTC"%string]).2 in
  MarketData.get_current_prices (Samples.env_all_down 3) self' ["BTC"%string]
  = (Ok (MarketData.CPrices {[ "BTC"%string := Samples.btc_quote ]}), self').
Proof.
  intros self self'.
  destruct (X19_first_complete_source_is_cached Samples.env_binance_up self ["BTC"%string]
              {[ "BTC"%string := Samples.btc_quote ]}) as [Hget Hhit].
  - intros k [v Hv]. unfold self in Hv. simpl in Hv. by rewrite lookup_empty in Hv.
  - intros (t & Ht & _). unfold self in Ht. simpl in Ht. by rewrite lookup_empty in Ht.
  - by vm_compute.
  - unfold self'. rewrite Hget. cbn [snd]. apply Hhit. by vm_compute.
Defined.

(** X20.  A history that [get_historical_prices] obtains from a source is
    written to the cache file (when the file can be written), so it survives
    a restart: a new process that loads the file answers the same request
    with the same series from its cache, without needing any source, as long
    as the request starts less than 6 hours after the store; and when every
    source fails it still answers with that series up to 30 days after the
    store. *)
Theorem X20_history_survives_restart (e : MarketData.env)
    (self : MarketData.MarketDataFetcher) (coin : string) (days : Z)
    (h : list MarketData.price_point) :
  cache_wf self ->
  MarketData.disk_writable e = true ->
  ~ fresh e self (MarketData.historical_key coin days) (Qc_of_Z 21600) ->
  first_history e coin days = Some h ->
  let run := MarketData.get_historical_prices e self coin days in
  let restarted := MarketData._load_persistent_cache (MarketData.disk run.2) in
  run.1 = Ok (MarketData.CHistory h) /\
  (forall e',
     MarketData.time_at_check e' - MarketData.time_at_store e < Qc_of_Z 21600 ->
     MarketData.get_historical_prices e' restarted coin days
     = (Ok (MarketData.CHistory h), restarted)) /\
  (forall e',
     first_history e' coin days = None ->
     MarketData.time_at_fallback e' - MarketData.time_at_store e < Qc_of_Z 2592000 ->
     (MarketData.get_historical_prices e' restarted coin days).1
     = Ok (MarketData.CHistory h)).
Proof.
  intros Hwf Hw Hnf Hfirst run restarted.
  assert (Hrun : run = (Ok (MarketData.CHistory h),
                        MarketData._save_persistent_cache e
                          (MarketData.store self (MarketData.historical_key coin days)
                             (MarketData.CHistory h) (MarketData.time_at_store e)))).
  { unfold run. rewrite get_historical_prices_not_fresh by done.
    by apply try_historical_sources_first. }
  assert (Hc : MarketData._cache restarted !! MarketData.historical_key coin days
               = Some (MarketData.CHistory h)).
  { unfold restarted. rewrite Hrun. unfold MarketData._save_persistent_cache.
    rewrite Hw. simpl. by rewrite lookup_insert_eq. }
  assert (Ht : MarketData._cache_time restarted !! MarketData.historical_key coin days
               = Some (MarketData.time_at_store e)).
  { unfold restarted. rewrite Hrun. unfold MarketData._save_persistent_cache.
    rewrite Hw. simpl. by rewrite lookup_insert_eq. }
  split; [by rewrite Hrun|]. split.
  - intros e' Hage. apply get_historical_prices_hit; [done|].
    by exists (MarketData.time_at_store e).
  - intros e' Hdown Hage.
    unfold MarketData.get_historical_prices. rewrite Hc, Ht.
    assert (Hfail : MarketData.try_historical_sources e' restarted coin days
                      (MarketData.historical_key coin days)
                    = (Ok (MarketData.CHistory h), restarted)).
    { unfold MarketData.try_historical_sources.
      unfold first_history in Hdown.
      destruct (MarketData.nonempty (MarketData._get_historical_from_binance e' coin days))
        eqn:E1.
      { rewrite filter_cons_True in Hdown by done.
        apply nonempty_Some in E1 as (? & ? & _). congruence. }
      rewrite filter_cons_False in Hdown by (by rewrite E1).
      destruct (MarketData.nonempty (MarketData._get_historical_from_coingecko e' coin days))
        eqn:E2.
      { rewrite filter_cons_True in Hdown by done.
        apply nonempty_Some in E2 as (? & ? & _). congruence. }
      rewrite filter_cons_False in Hdown by (by rewrite E2).
      destruct (MarketData.nonempty (MarketData._get_historical_from_coincap e' coin days))
        eqn:E3.
      { rewrite filter_cons_True in Hdown by done.
        apply nonempty_Some in E3 as (? & ? & _). congruence. }
      unfold MarketData.stale_or_empty. rewrite Hc, Ht.
      apply Qc_ltb_true in Hage. by rewrite Hage. }
    rewrite Hfail. by destruct (Qc_ltb _ _).
Qed.

Lemma X20_witness :
  let self := MarketData._load_persistent_cache None in
  let run := MarketData.get_historical_prices Samples.env_binance_up self "BTC" 30 in
  let restarted := MarketData._load_persistent_cache (MarketData.disk run.2) in
  (MarketData.get_historical_prices (Samples.env_all_down 86400) restarted "BTC" 30).1
  = Ok (MarketData.CHistory Samples.btc_history).
Proof.
  intros self run restarted.
  destruct (X20_history_survives_restart Samples.env_binance_up self "BTC" 30
              Samples.btc_history) as (_ & _ & Hstale).
  - intros k [v Hv]. unfold self in Hv. simpl in Hv. by rewrite lookup_empty in Hv.
  - done.
  - intros (t & Ht & _). unfold self in Ht. simpl in Ht. by rewrite lookup_empty in Ht.
  - by vm_compute.
  - apply Hstale; by vm_compute.
Defined.


Section IndicatorsMore.
Import MarketData.

Variable sqrt : Qc -> Qc.

Lemma py_sum_nonneg (xs : list Qc) : Forall (fun x => 0 <= x) xs -> 0 <= py_sum xs.
Proof.
  induction 1 as [|x xs Hx Hxs IH]; [done|]. rewrite py_sum_head.
  apply Qcle_trans with (0 + py_sum xs).
  - by replace (0 + py_sum xs) with (py_sum xs) by ring.
  - apply Qcplus_le_compat; [done|apply Qcle_refl].
Qed.

Lemma gains_nonneg (changes : list Qc) :
  Forall (fun x => 0 <= x) (map (fun c => if Qc_ltb 0 c then c else 0) changes).
Proof.
  induction changes as [|c cs IH]; [done|]. simpl. constructor; [|done].
  destruct (Qc_ltb 0 c) eqn:E; [|done]. apply Qc_ltb_true in E. by apply Qclt_le_weak.
Qed.

Lemma losses_nonneg (changes : list Qc) :
  Forall (fun x => 0 <= x) (map (fun c => if Qc_ltb c 0 then - c else 0) changes).
Proof.
  induction changes as [|c cs IH]; [done|]. simpl. constructor; [|done].
  destruct (Qc_ltb c 0) eqn:E; [|done]. apply Qc_ltb_true in E.
  apply Qclt_minus_iff, Qclt_le_weak in E. by replace (0 + - c) with (- c) in E by ring.
Qed.

Lemma avg_nonneg (xs : list Qc) :
  Forall (fun x => 0 <= x) xs ->
  0 <= match xs with [] => 0 | _ => py_sum (last_n 14 xs) / Qc_of_Z 14 end.
Proof.
  intros H. destruct xs as [|x xs]; [done|].
  set (l := last_n 14 (x :: xs)).
  assert (Hl : 0 <= py_sum l) by (apply py_sum_nonneg; unfold l, last_n; by apply Forall_drop).
  assert (H14 : 0 < Qc_of_Z 14) by (by vm_compute).
  apply Qcnot_lt_le. intros Hneg.
  apply (Qcdiv_lt_l _ _ _ H14) in Hneg. replace (0 * Qc_of_Z 14) with 0 in Hneg by ring.
  Qc_contra.
Qed.

(** The relative-strength formula stays between 0 and 100. *)
Lemma rsi_bounds (avg_gain avg_loss : Qc) :
  0 <= avg_gain -> 0 <= avg_loss ->
  let rsi := if Qc_eqb avg_loss 0 then Qc_of_Z 100
             else Qc_of_Z 100 - Qc_of_Z 100 / (1 + avg_gain / avg_loss) in
  0 <= rsi /\ rsi <= Qc_of_Z 100.
Proof.
  intros Hg Hl rsi. unfold rsi. destruct (Qc_eqb avg_loss 0) eqn:E.
  - split; [by vm_compute|apply Qcle_refl].
  - apply Qc_eqb_false in E.
    assert (Hlpos : 0 < avg_loss).
    { apply Qcle_lt_or_eq in Hl as [Hl|Hl]; [done|]. by destruct E. }
    assert (Hrs : 0 <= avg_gain / avg_loss).
    { apply Qcnot_lt_le. intros Hneg. apply (Qcdiv_lt_l _ _ _ Hlpos) in Hneg.
      replace (0 * avg_loss) with 0 in Hneg by ring. Qc_contra. }
    set (rs := avg_gain / avg_loss) in *.
    assert (Hden : 0 < 1 + rs).
    { apply Qclt_le_trans with 1; [by vm_compute|].
      apply Qcle_minus_iff. by replace (1 + rs + - 1) with rs by ring. }
    assert (H100 : 0 <= Qc_of_Z 100) by (by vm_compute).
    assert (Hq1 : Qc_of_Z 100 / (1 + rs) <= Qc_of_Z 100).
    { apply (Qcdiv_le_l _ _ _ Hden). apply Qcle_minus_iff.
      replace (Qc_of_Z 100 * (1 + rs) + - Qc_of_Z 100) with (rs * Qc_of_Z 100) by ring.
      replace 0 with (0 * Qc_of_Z 100) by ring. by apply Qcmult_le_compat_r. }
    assert (Hq0 : 0 <= Qc_of_Z 100 / (1 + rs)).
    { apply Qcnot_lt_le. intros Hneg. apply (Qcdiv_lt_l _ _ _ Hden) in Hneg.
      replace (0 * (1 + rs)) with 0 in Hneg by ring. Qc_contra. }
    split.
    + apply Qcle_minus_iff in Hq1. apply Qcle_minus_iff.
      by replace (Qc_of_Z 100 - Qc_of_Z 100 / (1 + rs) + - 0)
        with (Qc_of_Z 100 + - (Qc_of_Z 100 / (1 + rs))) by ring.
    + apply Qcle_minus_iff.
      by replace (Qc_of_Z 100 + - (Qc_of_Z 100 - Qc_of_Z 100 / (1 + rs)))
        with (Qc_of_Z 100 / (1 + rs)) by ring.
Qed.

Lemma changes_nondecreasing (prices : list Qc) :
  nondecreasing prices = true -> Forall (fun c => 0 <= c) (changes_of prices).
Proof.
  induction prices as [|p0 [|p1 rest] IH]; intros H; try done.
  cbn [nondecreasing] in H. apply andb_true_iff in H as [H1 H2].
  apply Qc_leb_true in H1. cbn [changes_of]. constructor; [|by apply IH].
  apply Qcle_minus_iff in H1. by replace (p1 + - p0) with (p1 - p0) in H1 by ring.
Qed.

Lemma losses_zero (changes : list Qc) :
  Forall (fun c => 0 <= c) changes ->
  Forall (fun x => x = 0) (map (fun c => if Qc_ltb c 0 then - c else 0) changes).
Proof.
  induction 1 as [|c cs Hc Hcs IH]; [done|]. simpl. constructor; [|done].
  destruct (Qc_ltb c 0) eqn:E; [|done]. apply Qc_ltb_true in E. Qc_contra.
Qed.

Lemma indicators_of_rsi (historical : list price_point) (ind : indicator_set) :
  indicators_of sqrt historical = Some ind ->
  (0 <= rsi_14 ind /\ rsi_14 ind <= Qc_of_Z 100) /\
  (nondecreasing (map hp_price historical) = true -> rsi_14 ind = Qc_of_Z 100).
Proof.
  unfold indicators_of. case_bool_decide; [done|]. intros [= <-]. cbn [rsi_14]. split.
  - apply rsi_bounds; apply avg_nonneg; [apply gains_nonneg|apply losses_nonneg].
  - intros Hnd. apply changes_nondecreasing, losses_zero in Hnd.
    set (losses := map (fun c => if Qc_ltb c 0 then - c else 0)
                     (changes_of (map hp_price historical))) in *.
    assert (Hz : match losses with [] => 0 | _ => py_sum (last_n 14 losses) / Qc_of_Z 14 end
                 = 0).
    { destruct losses as [|x xs] eqn:El; [done|]. rewrite <- El in *.
      rewrite py_sum_zero; [unfold Qcdiv; ring|]. unfold last_n. by apply Forall_drop. }
    rewrite Hz. done.
Qed.

Lemma indicators_of_short (historical : list price_point) :
  (indicators_of sqrt historical = None <-> (length historical < 14)%nat) /\
  forall ind,
    indicators_of sqrt historical = Some ind ->
    let last := last_price (map hp_price historical) in
    ind_current_price ind = last /\
    ((length historical < 20)%nat ->
     bb_upper ind = last /\ bb_middle ind = last /\ bb_lower ind = last /\
     bb_position ind = Q2Qc (1 # 2) /\ volatility ind = 0) /\
    ((length historical < 26)%nat -> ema_26 ind = last /\ macd ind = ema_12 ind - last) /\
    ((length historical < 30)%nat -> sma_30 ind = last).
Proof.
  unfold indicators_of. case_bool_decide as Hn.
  { split; [done|]. intros ind [=]. }
  split; [split; [done|intros; lia]|].
  intros ind [= <-]. set (last := last_price (map hp_price historical)).
  cbn [ind_current_price bb_upper bb_middle bb_lower bb_position volatility ema_26 macd
       ema_12 sma_30].
  split; [done|]. split; [|split].
  - intros H20. unfold sma. rewrite length_map.
    rewrite !bool_decide_eq_false_2 by lia. fold last.
    replace (last + Qc_of_Z 2 * 0) with last by ring.
    replace (last - Qc_of_Z 2 * 0) with last by ring.
    replace (last - last) with 0 by ring.
    assert (H0 : Qc_ltb 0 0 = false) by (by vm_compute). rewrite H0.
    split; [done|]. split; [done|]. split; [done|]. split; [done|].
    destruct (Qc_ltb 0 last); [unfold Qcdiv; ring|done].
  - intros H26. assert (He : _calculate_ema (map hp_price historical) 26 = last).
    { unfold _calculate_ema. rewrite length_map, bool_decide_eq_true_2 by lia.
      destruct (map hp_price historical) eqn:E; [|done].
      apply (f_equal length) in E. rewrite length_map in E. simpl in E. lia. }
    by rewrite He.
  - intros H30. unfold sma. rewrite length_map. by rewrite bool_decide_eq_false_2 by lia.
Qed.

End IndicatorsMore.

(** X21.  [calculate_technical_indicators] computes indicators exactly when
    the history has at least 14 points.  The current price is the last price
    of the series.  With fewer than 20 points the Bollinger bands collapse:
    upper, middle and lower band all equal the last price, the band position
    is 0.5 and the volatility is 0; with fewer than 26 points the 26-period
    EMA is the last price; with fewer than 30 points the 30-period SMA is
    the last price. *)
Theorem X21_short_history_indicators (sqrt : Qc -> Qc)
    (historical : list MarketData.price_point) :
  (MarketData.indicators_of sqrt historical = None <-> (length historical < 14)%nat) /\
  forall ind,
    MarketData.indicators_of sqrt historical = Some ind ->
    let last := MarketData.last_price (map MarketData.hp_price historical) in
    MarketData.ind_current_price ind = last /\
    ((length historical < 20)%nat ->
     MarketData.bb_upper ind = last /\ MarketData.bb_middle ind = last /\
     MarketData.bb_lower ind = last /\
     MarketData.bb_position ind = Q2Qc (1 # 2) /\ MarketData.volatility ind = 0) /\
    ((length historical < 26)%nat ->
     MarketData.ema_26 ind = last /\ MarketData.macd ind = MarketData.ema_12 ind - last) /\
    ((length historical < 30)%nat -> MarketData.sma_30 ind = last).
Proof. apply indicators_of_short. Qed.

(** X22.  The RSI that [calculate_technical_indicators] reports lies between
    0 and 100, and it is 100 whenever the price series never falls (then
    there is no loss to divide by). *)
Theorem X22_rsi_bounds (sqrt : Qc -> Qc) (historical : list MarketData.price_point)
    (ind : MarketData.indicator_set) :
  MarketData.indicators_of sqrt historical = Some ind ->
  (0 <= MarketData.rsi_14 ind /\ MarketData.rsi_14 ind <= Qc_of_Z 100) /\
  (nondecreasing (map MarketData.hp_price historical) = true ->
   MarketData.rsi_14 ind = Qc_of_Z 100).
Proof. apply indicators_of_rsi. Qed.

Lemma X22_witness :
  exists ind,
    MarketData.indicators_of Samples.newton_sqrt Samples.btc_history = Some ind /\
    MarketData.rsi_14 ind = Qc_of_Z 100.
Proof.
  destruct (MarketData.indicators_of Samples.newton_sqrt Samples.btc_history)
    as [ind|] eqn:E; [|by vm_compute in E].
  exists ind. split; [done|].
  destruct (X22_rsi_bounds Samples.newton_sqrt Samples.btc_history ind E) as [_ H].
  apply H. by vm_compute.
Defined.


Section RateLimitMore.
Import MarketData.

Lemma rate_limit_spec (last : gmap string Qc) (now : Qc) (time_after : option Qc -> Qc)
    (source : string) :
  now <= time_after None ->
  (forall d, now + d <= time_after (Some d)) ->
  let interval := default (Qc_of_Z 2) (_min_request_interval !! source) in
  let run := _rate_limit last now time_after source in
  (forall s, s <> source -> run.2 !! s = last !! s) /\
  (last !! source = None -> run.1 = None) /\
  exists t',
    run.2 !! source = Some t' /\ now <= t' /\
    forall t, last !! source = Some t -> interval <= t' - t.
Proof.
  intros Hnone Hsleep interval run. unfold run, _rate_limit. fold interval. cbn [fst snd].
  split; [intros s Hs; by rewrite lookup_insert_ne|].
  split; [by intros ->|].
  rewrite lookup_insert_eq. eexists. split; [reflexivity|].
  destruct (last !! source) as [t|] eqn:El.
  - destruct (Qc_ltb (now - t) interval) eqn:E.
    + specialize (Hsleep (interval - (now - t))). split.
      * apply Qcle_trans with (now + (interval - (now - t))); [|done].
        apply Qc_ltb_true in E. apply Qclt_le_weak, Qcle_minus_iff in E.
        apply Qcle_minus_iff.
        by replace (now + (interval - (now - t)) + - now)
          with (interval + - (now - t)) by ring.
      * intros t0 [= <-]. apply Qcle_minus_iff in Hsleep. apply Qcle_minus_iff.
        by replace (time_after (Some (interval - (now - t))) - t + - interval)
          with (time_after (Some (interval - (now - t)))
                + - (now + (interval - (now - t)))) by ring.
    + apply Qc_ltb_false in E. split; [done|]. intros t0 [= <-].
      apply Qcle_trans with (now - t); [done|].
      apply Qcle_minus_iff in Hnone. apply Qcle_minus_iff.
      by replace (time_after None - t + - (now - t)) with (time_after None + - now) by ring.
  - split; [done|]. intros t [=].
Qed.

End RateLimitMore.

(** X23.  Provided the clock does not run backwards and [time.sleep(d)]
    lasts at least [d] seconds, [_rate_limit] stamps the source with a time
    that is at least the source's minimum interval (0.5 s for Binance, 10 s
    for CoinGecko, 2 s for CoinCap, CryptoCompare and any other name) after
    its previous stamp.  The stamps of the other sources are not touched,
    and the first request to a source never sleeps. *)
Theorem X23_rate_limit_spacing (last : gmap string Qc) (now : Qc)
    (time_after : option Qc -> Qc) (source : string) :
  now <= time_after None ->
  (forall d, now + d <= time_after (Some d)) ->
  let interval := default (Qc_of_Z 2) (MarketData._min_request_interval !! source) in
  let run := MarketData._rate_limit last now time_after source in
  (forall s, s <> source -> run.2 !! s = last !! s) /\
  (last !! source = None -> run.1 = None) /\
  exists t',
    run.2 !! source = Some t' /\ now <= t' /\
    forall t, last !! source = Some t -> interval <= t' - t.
Proof. apply rate_limit_spec. Qed.

Lemma X23_witness :
  let last : gmap string Qc := {[ "coingecko"%string := Qc_of_Z 100 ]} in
  let clock (slept : option Qc) := Qc_of_Z 103 + default 0 slept in
  let run := MarketData._rate_limit last (Qc_of_Z 103) clock "coingecko" in
  run.1 = Some (Qc_of_Z 7) /\
  exists t', run.2 !! "coingecko"%string = Some t' /\ Qc_of_Z 10 <= t' - Qc_of_Z 100.
Proof.
  intros last clock run.
  destruct (X23_rate_limit_spacing last (Qc_of_Z 103) clock "coingecko")
    as (_ & _ & t' & Ht' & _ & Hgap).
  - by vm_compute.
  - intros d. unfold clock. simpl. apply Qcle_refl.
  - split; [by apply (f_equal Some), Qc_is_canon|].
    exists t'. split; [exact Ht'|]. apply (Hgap (Qc_of_Z 100)).
    unfold last. by rewrite lookup_singleton_eq.
Defined.

Section ProviderMore.

Variable _call_llm : nat -> result string.
Variable _parse_response : string -> result TradingEngine.decisions.

Lemma make_decision_spec :
  let run := AITrader.make_decision _call_llm _parse_response in
  match list_find (fun i => is_Some (attempt_yields _call_llm _parse_response i))
          [0; 1; 2]%nat with
  | Some (_, i) =>
      attempt_yields _call_llm _parse_response i = Some run.1 /\ run.2 = S i
  | None =>
      run.1 = ([], last_response _call_llm 3) /\ run.2 = 3%nat
  end.
Proof.
  unfold AITrader.make_decision, attempt_yields. simpl.
  unfold attempt_yields.
  destruct (_call_llm 0%nat) as [r0|e0] eqn:E0;
    [destruct (_parse_response r0) as [[|d0 ds0]|] eqn:P0|];
    destruct (_call_llm 1%nat) as [r1|e1] eqn:E1;
    try (destruct (_parse_response r1) as [[|d1 ds1]|] eqn:P1);
    destruct (_call_llm 2%nat) as [r2|e2] eqn:E2;
    try (destruct (_parse_response r2) as [[|d2 ds2]|] eqn:P2);
    repeat (rewrite decide_True by (by eexists)
            || rewrite decide_False by (by intros [? ?]));
    simpl; rewrite ?E0, ?E1, ?E2, ?P0, ?P1, ?P2; done.
Qed.

End ProviderMore.

(** X24.  The retry loop of [make_decision] asks the model at most three
    times.  It stops at the first attempt whose response parses to a
    non-empty decision map and returns that map with that response, making
    no further call.  If none of the three attempts does, it returns the
    empty map after exactly three calls, together with the response of the
    last call that returned (the empty string if every call raised). *)
Theorem X24_make_decision_retries (_call_llm : nat -> result string)
    (_parse_response : string -> result TradingEngine.decisions) :
  let run := AITrader.make_decision _call_llm _parse_response in
  match list_find (fun i => is_Some (attempt_yields _call_llm _parse_response i))
          [0; 1; 2]%nat with
  | Some (_, i) =>
      attempt_yields _call_llm _parse_response i = Some run.1 /\ run.2 = S i
  | None =>
      run.1 = ([], last_response _call_llm 3) /\ run.2 = 3%nat
  end.
Proof. apply make_decision_spec. Qed.


Section StaleSnapshot.
Import Database TradingEngine.

Variable model_id : Z.

Lemma find_position_elem (coin : string) (ps : list pos_view) (v : pos_view) :
  find_position coin ps = Some v -> v ∈ ps /\ p_coin (pos v) = coin.
Proof.
  induction ps as [|v0 ps IH]; [done|]. cbn [find_position].
  case_bool_decide as Hc.
  - intros [= <-]. split; [apply list_elem_of_here|done].
  - intros H. destruct (IH H) as [Hin Hcoin]. split; [by apply list_elem_of_further|done].
Qed.

Lemma close_after_exits (coin : string) (d : decision) (ms : gmap string market_entry)
    (pf : portfolio) (w : world) (v : pos_view) (e : market_entry) (why : close_reason) :
  find_position coin (positions pf) = Some v ->
  ms !! coin = Some e ->
  exit_trigger (p_side (pos v)) (ms_price e) (p_stop_loss (pos v)) (p_take_profit (pos v))
    = Some why ->
  let w1 := (_check_stop_loss_take_profit model_id pf (ms_price <$> ms) w).2 in
  let pnl_ := position_pnl (p_side (pos v)) (ms_price e) (p_avg_price (pos v))
                (p_quantity (pos v)) in
  let run := _execute_close model_id coin d ms pf w1 in
  run.1 = Ok (R_close coin (p_quantity (pos v)) (ms_price e) pnl_) /\
  (forall r, r ∈ portfolios (w_db w1) -> row_key r <> (model_id, coin, p_side (pos v))) /\
  exists ts,
    trades (w_db run.2)
    = trades (w_db w) ++ ts ++
      [{| t_model_id := model_id; t_coin := coin; t_signal := "close_position";
          t_quantity := p_quantity (pos v); t_price := ms_price e;
          t_leverage := p_leverage (pos v); t_side := p_side (pos v); t_pnl := pnl_ |}] /\
    auto_close_trade model_id (pos v) (ms_price e) ∈ ts /\
    t_pnl (auto_close_trade model_id (pos v) (ms_price e)) = pnl_.
Proof.
  intros Hf He Ht w1 pnl_ run.
  destruct (find_position_elem _ _ _ Hf) as [Hin Hcoin].
  unfold run. rewrite (execute_close_found model_id coin d ms pf w1 v e Hf He). cbn [fst snd w_db].
  split; [done|].
  unfold w1, _check_stop_loss_take_profit.
  destruct (check_loop_spec model_id (positions pf) (ms_price <$> ms) [] w)
    as (rs & w2 & evs & ts & Hrun & _ & _ & Hts & _ & _ & Hall).
  rewrite Hrun. cbn [snd].
  assert (Hp : (ms_price <$> ms) !! p_coin (pos v) = Some (ms_price e)).
  { by rewrite Hcoin, lookup_fmap, He. }
  assert (Htrig : triggered (p_side (pos v)) (ms_price e) (p_stop_loss (pos v))
                    (p_take_profit (pos v))).
  { apply exit_trigger_triggered. by exists why. }
  destruct (Hall v (ms_price e) Hin Hp Htrig) as (_ & Hauto & Hgone).
  split.
  - intros r Hr Hk. apply (Hgone r Hr). unfold row_key in Hk. injection Hk as H1 H2 H3.
    by rewrite Hcoin.
  - exists ts. split; [|split; [done|]].
    + unfold add_trade, close_position. cbn [trades]. by rewrite Hts, <- app_assoc.
    + unfold auto_close_trade, pnl_. cbn [t_pnl]. by rewrite position_pnl_sign.
Qed.

End StaleSnapshot.

(** X25.  The decision stage works from the snapshot taken before the exits
    stage.  A position that the exits stage has just closed is still in that
    snapshot, so a [close_position] decision for its coin in the same cycle
    finds it: although the stored row is already deleted, [_execute_close]
    returns a close result and records a [close_position] trade with the
    same pnl as the [auto_close] trade recorded before it. *)
Theorem X25_close_after_auto_close (model_id : Z) (coin : string)
    (d : TradingEngine.decision) (ms : gmap string TradingEngine.market_entry)
    (pf : Database.portfolio) (w : TradingEngine.world) (v : Database.pos_view)
    (e : TradingEngine.market_entry) (why : TradingEngine.close_reason) :
  TradingEngine.find_position coin (Database.positions pf) = Some v ->
  ms !! coin = Some e ->
  TradingEngine.exit_trigger (Database.p_side (Database.pos v)) (TradingEngine.ms_price e)
    (Database.p_stop_loss (Database.pos v)) (Database.p_take_profit (Database.pos v))
    = Some why ->
  let w1 := (TradingEngine._check_stop_loss_take_profit model_id pf
               (TradingEngine.ms_price <$> ms) w).2 in
  let pnl_ := Database.position_pnl (Database.p_side (Database.pos v))
                (TradingEngine.ms_price e) (Database.p_avg_price (Database.pos v))
                (Database.p_quantity (Database.pos v)) in
  let run := TradingEngine._execute_close model_id coin d ms pf w1 in
  run.1 = Ok (TradingEngine.R_close coin (Database.p_quantity (Database.pos v))
                (TradingEngine.ms_price e) pnl_) /\
  (forall r, r ∈ Database.portfolios (TradingEngine.w_db w1) ->
             row_key r <> (model_id, coin, Database.p_side (Database.pos v))) /\
  exists ts,
    Database.trades (TradingEngine.w_db run.2)
    = Database.trades (TradingEngine.w_db w) ++ ts ++
      [{| Database.t_model_id := model_id; Database.t_coin := coin;
          Database.t_signal := "close_position";
          Database.t_quantity := Database.p_quantity (Database.pos v);
          Database.t_price := TradingEngine.ms_price e;
          Database.t_leverage := Database.p_leverage (Database.pos v);
          Database.t_side := Database.p_side (Database.pos v);
          Database.t_pnl := pnl_ |}] /\
    auto_close_trade model_id (Database.pos v) (TradingEngine.ms_price e) ∈ ts /\
    Database.t_pnl (auto_close_trade model_id (Database.pos v) (TradingEngine.ms_price e))
    = pnl_.
Proof. apply close_after_exits. Qed.

Lemma X25_witness :
  let w := Samples.world_with [Samples.btc_long] in
  let ms := Samples.market 41000 in
  let pf := Samples.snapshot (TradingEngine.w_db w) ms in
  let w1 := (TradingEngine._check_stop_loss_take_profit 1 pf
               (TradingEngine.ms_price <$> ms) w).2 in
  let run := TradingEngine._execute_close 1 "BTC" Samples.close ms pf w1 in
  Database.portfolios (TradingEngine.w_db w1) = [] /\
  map Database.t_signal (Database.trades (TradingEngine.w_db run.2))
  = ["auto_close"; "close_position"]%string /\
  exists pnl_, run.1 = Ok (TradingEngine.R_close "BTC" (Q2Qc (1 # 10)) (Qc_of_Z 41000) pnl_).
Proof.
  intros w ms pf w1 run.
  split; [by vm_compute|]. split; [by vm_compute|].
  destruct (X25_close_after_auto_close 1 "BTC" Samples.close ms pf w
              (Samples.first_position pf)
              {| TradingEngine.ms_price := Qc_of_Z 41000; TradingEngine.ms_change_24h := 0;
                 TradingEngine.ms_indicators := None |}
              TradingEngine.stop_loss_triggered) as (Hres & _).
  - by vm_compute.
  - by vm_compute.
  - by vm_compute.
  - eexists. exact Hres.
Defined.
